(** * HealthKitDataProcessor: a shallow embedding of
    [src/healthkit_data_processor.py] and the properties of its
    validation, windowing, feature-extraction, scoring, inference and
    reporting stages.

    Modelling conventions.
    - A float64 is an ideal real number ([R]).  The places where numpy or
      Python produce [nan] or an infinity from finite operands (division by
      a zero mean, a negative base under a fractional power, [NaT] as the
      maximum of an empty timestamp column) are modelled explicitly.
    - A pandas [Timestamp] is an integer count of nanoseconds ([Z]); [NaT]
      is [None].  Parsing of the ISO strings by [pd.to_datetime] is not
      modelled: a raw sample already carries its two instants.
    - The subtraction of line 171 is partial: [datetime.timedelta] refuses
      a window length beyond 999999999 days, and pandas refuses a
      [Timedelta] or a [Timestamp] outside the int64 nanosecond range of
      a [datetime64[ns]] column.  Both refusals are modelled
      ([timedelta_hours], [ts_sub]).
    - A [DataFrame] is the list of its rows, in index order.
    - A raised exception is the [Raise] case of [result]; calls made on the
      loaded predictor are recorded in a trace.  Console output ([print])
      is not modelled. *)

From Stdlib Require Import String Ascii DecimalString.
From Stdlib Require Import Reals Lra Lia ZArith List Bool.
From Stdlib Require Import Permutation Sorted.
Import ListNotations.

Open Scope R_scope.

(* ------------------------------------------------------------------ *)
(** * Numbers *)

Module Num.

Definition Rleb (x y : R) : bool := if Rle_dec x y then true else false.
Definition Rltb (x y : R) : bool := if Rlt_dec x y then true else false.

Lemma Rleb_true x y : Rleb x y = true <-> x <= y.
Proof. unfold Rleb; destruct (Rle_dec x y); split; intros; (lra || congruence). Qed.

Lemma Rleb_false x y : Rleb x y = false <-> y < x.
Proof. unfold Rleb; destruct (Rle_dec x y); split; intros; (lra || congruence). Qed.

Lemma Rltb_true x y : Rltb x y = true <-> x < y.
Proof. unfold Rltb; destruct (Rlt_dec x y); split; intros; (lra || congruence). Qed.

Lemma Rltb_false x y : Rltb x y = false <-> y <= x.
Proof. unfold Rltb; destruct (Rlt_dec x y); split; intros; (lra || congruence). Qed.

(** Python's builtin [max(a, b)] and [min(a, b)] on two arguments: the
    first argument is kept unless the second compares strictly beyond it. *)
Definition py_max (a b : R) : R := if Rltb a b then b else a.
Definition py_min (a b : R) : R := if Rltb b a then b else a.

(** The same [max(a, b)] when [b] may be [nan] ([None]): [nan > a] is
    [False], so [a] is kept. *)
Definition py_max_nan (a : R) (b : option R) : R :=
  match b with
  | Some v => py_max a v
  | None => a
  end.

(** [numpy.float64 ** y] for the positive, non-integer exponent used in
    the source ([1.5]): [nan] for a negative base, [0] at [0]. *)
Definition np_power (x y : R) : option R :=
  if Rltb x 0 then None
  else if Rltb 0 x then Some (Rpower x y)
  else Some 0.

(** The result of a numpy float64 division. *)
Inductive quotient : Type :=
| Finite (r : R)
| PlusInf
| MinusInf
| NotANumber.

(** [x / y] on numpy float64 scalars: a zero divisor yields an infinity
    or [nan] (with a warning, silenced at line 24) instead of raising. *)
Definition np_div (x y : R) : quotient :=
  if Req_dec_T y 0 then
    if Rltb 0 x then PlusInf
    else if Rltb x 0 then MinusInf
    else NotANumber
  else Finite (x / y).

(** [q < c] for a finite constant [c]. *)
Definition quotient_ltb (q : quotient) (c : R) : bool :=
  match q with
  | Finite r => Rltb r c
  | MinusInf => true
  | PlusInf | NotANumber => false
  end.

Definition sum (l : list R) : R := fold_right Rplus 0 l.

(** [Series.mean()]; every call site guards against the empty column. *)
Definition mean (l : list R) : R := sum l / INR (length l).

(** [Series.std()], pandas' default [ddof=1]; every call site guards
    against columns of fewer than two values. *)
Definition std (l : list R) : R :=
  sqrt (sum (map (fun x => (x - mean l) * (x - mean l)) l) / (INR (length l) - 1)).

End Num.
Import Num.

(* ------------------------------------------------------------------ *)
(** * Text *)

Module Text.

Open Scope string_scope.

(** [str(n)] for a Python [int]. *)
Definition str_int (n : Z) : string := NilZero.string_of_int (Z.to_int n).

(** Rounding to the nearest integer, ties to even, of a non-negative
    real. *)
Definition round_half_even (x : R) : Z :=
  let n := Zfloor x in
  let f := (x - IZR n)%R in
  if Rltb f (1 / 2) then n
  else if Rltb (1 / 2) f then (n + 1)%Z
  else if Z.even n then n else (n + 1)%Z.

(** [f"{x:.0f}"]. *)
Definition format_0f (x : R) : string :=
  if Rltb x 0 then "-" ++ str_int (round_half_even (- x))
  else str_int (round_half_even x).

(** [needle in haystack]. *)
Fixpoint contains (needle haystack : string) : bool :=
  if prefix needle haystack then true
  else match haystack with
       | EmptyString => false
       | String _ rest => contains needle rest
       end.

End Text.
Import Text.

(* ------------------------------------------------------------------ *)
(** * Data model *)

(** One dict of [heart_rate_data] (lines 73-80). *)
Record HeartRateSample : Type := mkHR {
  hr_startDate : Z;
  hr_endDate : Z;
  hr_value : R;
  hr_unit : string
}.

(** One dict of [hrv_data] (lines 112-120). *)
Record HrvSample : Type := mkHRV {
  hrv_startDate : Z;
  hrv_endDate : Z;
  hrv_value : R;
  hrv_unit : string;
  hrv_type : string
}.

(** Column access shared by both frames: [df['startDate']],
    [df['endDate']], [df['value']]. *)
Class Columns (A : Type) : Type := {
  startDate : A -> Z;
  endDate : A -> Z;
  value : A -> R
}.

#[export] Instance HeartRateColumns : Columns HeartRateSample :=
  {| startDate := hr_startDate; endDate := hr_endDate; value := hr_value |}.

#[export] Instance HrvColumns : Columns HrvSample :=
  {| startDate := hrv_startDate; endDate := hrv_endDate; value := hrv_value |}.

(** Python exceptions raised by the processor.  [ValueError] and
    [IndexError] are the plain builtin classes with their message.
    [OverflowError] is the one of [datetime.timedelta] (its message is
    not modelled); [OutOfBounds] stands for pandas refusing a
    [Timedelta] or a [Timestamp] outside the int64 nanosecond range
    ([OutOfBoundsTimedelta], [OutOfBoundsDatetime], which derive from
    [ValueError]; older versions raise [OverflowError] there).  No
    handler in the source tells these classes apart. *)
Inductive exn : Type :=
| ValueError (msg : string)
| IndexError (msg : string)
| OverflowError
| OutOfBounds.

Inductive result (A : Type) : Type :=
| Ok (a : A)
| Raise (e : exn).
Arguments Ok {A} a.
Arguments Raise {A} e.

(** The row built at lines 203-211. *)
Record FeatureRow : Type := mkFeatureRow {
  timestamp : option Z;
  mean_heart_rate : R;
  std_heart_rate : R;
  pnn50 : R;
  data_quality_score : R;
  sample_count_hr : nat;
  sample_count_hrv : nat
}.

(* ------------------------------------------------------------------ *)
(** * Validator (lines 284-303) and ingestion (lines 68-145) *)

Open Scope string_scope.

(** [df[(df['value'] >= 30) & (df['value'] <= 250)]]. *)
Definition _validate_heart_rate_data (df : list HeartRateSample)
  : list HeartRateSample :=
  filter (fun s => Rleb 30 (value s) && Rleb (value s) 250) df.

(** [df[(df['value'] >= 1) & (df['value'] <= 200)]]. *)
Definition _validate_hrv_data (df : list HrvSample) : list HrvSample :=
  filter (fun s => Rleb 1 (value s) && Rleb (value s) 200) df.

Section SortValues.
Context {A : Type} `{Columns A}.

Fixpoint insert_by_start (x : A) (l : list A) : list A :=
  match l with
  | [] => [x]
  | y :: l' =>
      if (startDate x <=? startDate y)%Z then x :: y :: l'
      else y :: insert_by_start x l'
  end.

(** [df.sort_values('startDate').reset_index(drop=True)].  Rows with
    equal [startDate] are kept in their input order; pandas leaves their
    order unspecified, and nothing below depends on it. *)
Definition sort_values (df : list A) : list A :=
  fold_right insert_by_start [] df.
End SortValues.

Definition process_healthkit_heart_rate (heart_rate_data : list HeartRateSample)
  : result (list HeartRateSample) :=
  match heart_rate_data with
  | [] => Raise (ValueError "No heart rate data provided")
  | _ :: _ => Ok (sort_values (_validate_heart_rate_data heart_rate_data))
  end.

Definition process_healthkit_hrv_data (hrv_data : list HrvSample)
  : result (list HrvSample) :=
  match hrv_data with
  | [] => Raise (ValueError "No HRV data provided")
  | _ :: _ => Ok (sort_values (_validate_hrv_data hrv_data))
  end.

(* ------------------------------------------------------------------ *)
(** * Windower (lines 164-182) *)

(** [Series.max()] of a timestamp column: [NaT] when it is empty. *)
Definition series_max (l : list Z) : option Z :=
  match l with
  | [] => None
  | t :: l' => Some (fold_left Z.max l' t)
  end.

(** [a > b] on timestamps; any comparison with [NaT] is [False]. *)
Definition ts_gtb (a b : option Z) : bool :=
  match a, b with
  | Some x, Some y => (y <? x)%Z
  | _, _ => false
  end.

(** Python's [max(a, b)] on timestamps. *)
Definition py_max_ts (a b : option Z) : option Z :=
  if ts_gtb b a then b else a.

(** [timedelta(hours=h)] in nanoseconds.  A [timedelta] holds at most
    999999999 days in magnitude (up to 23:59:59.999999 above that on the
    positive side); outside that range the constructor raises
    [OverflowError]. *)
Definition timedelta_hours (h : Z) : result Z :=
  if ((h <? -23999999976) || (23999999999 <? h))%Z then Raise OverflowError
  else Ok (h * 3600000000000)%Z.

(** The int64 nanosecond range shared by pandas' [Timestamp] and
    [Timedelta]; the least int64 is [NaT]. *)
Definition timestamp_min : Z := (-9223372036854775807)%Z.
Definition timestamp_max : Z := 9223372036854775807%Z.

Definition representable (z : Z) : bool :=
  ((timestamp_min <=? z) && (z <=? timestamp_max))%Z.

(** [t - delta] for a [Timestamp] or [NaT] [t] and a [timedelta]
    [delta].  [NaT - delta] is [NaT].  Otherwise [Timestamp.__sub__]
    computes [t + (-delta)]: the negation raises [OverflowError] when
    [delta] exceeds 999999999 days, the magnitude of [timedelta.min];
    then [delta] must fit a [Timedelta] and the sum a [Timestamp].  A
    sum equal to the least int64, the bit pattern of [NaT], is not an
    instant and is counted with the refusals. *)
Definition ts_sub (t : option Z) (delta : Z) : result (option Z) :=
  match t with
  | None => Ok None
  | Some x =>
      if (86399999913600000000000 <? delta)%Z then Raise OverflowError
      else if representable (- delta) && representable (x - delta)
      then Ok (Some (x - delta)%Z)
      else Raise OutOfBounds
  end.

(** The row-wise tests [column >= bound] and [column <= bound]. *)
Definition ts_geb (x : Z) (bound : option Z) : bool :=
  match bound with Some b => (b <=? x)%Z | None => false end.
Definition ts_leb (x : Z) (bound : option Z) : bool :=
  match bound with Some b => (x <=? b)%Z | None => false end.

Definition latest_time (heart_rate_df : list HeartRateSample)
                       (hrv_df : list HrvSample) : option Z :=
  py_max_ts (series_max (map startDate heart_rate_df))
            (series_max (map startDate hrv_df)).

(** Line 171: [latest_time - timedelta(hours=time_window_hours)]. *)
Definition start_time (heart_rate_df : list HeartRateSample)
                      (hrv_df : list HrvSample)
                      (time_window_hours : Z) : result (option Z) :=
  match timedelta_hours time_window_hours with
  | Raise e => Raise e
  | Ok delta => ts_sub (latest_time heart_rate_df hrv_df) delta
  end.

(** The lower bound used by the filters of lines 174-182: the value of
    [start_time] when line 171 returns one.  When line 171 raises no
    filter is run; the bound is then [None], which selects no row. *)
Definition window_start (heart_rate_df : list HeartRateSample)
                        (hrv_df : list HrvSample)
                        (time_window_hours : Z) : option Z :=
  match start_time heart_rate_df hrv_df time_window_hours with
  | Ok start => start
  | Raise _ => None
  end.

(** [df[(df['startDate'] >= start_time) & (df['startDate'] <= latest_time)]]. *)
Definition window {A : Type} `{Columns A}
    (df : list A) (start latest : option Z) : list A :=
  filter (fun s => ts_geb (startDate s) start && ts_leb (startDate s) latest) df.

Definition hr_window (heart_rate_df : list HeartRateSample)
    (hrv_df : list HrvSample) (time_window_hours : Z) : list HeartRateSample :=
  window heart_rate_df
         (window_start heart_rate_df hrv_df time_window_hours)
         (latest_time heart_rate_df hrv_df).

Definition hrv_window (heart_rate_df : list HeartRateSample)
    (hrv_df : list HrvSample) (time_window_hours : Z) : list HrvSample :=
  window hrv_df
         (window_start heart_rate_df hrv_df time_window_hours)
         (latest_time heart_rate_df hrv_df).

(* ------------------------------------------------------------------ *)
(** * Estimators of pNN50 (lines 305-325) *)

Definition _estimate_pnn50_from_rmssd (rmssd_value : R) : R :=
  py_min 0.6 (py_max_nan 0 (np_power (rmssd_value / 150) 1.5)).

Definition _estimate_pnn50_from_hr_std (hr_std : R) : R :=
  py_min 0.4 (py_max 0 (hr_std / 50)).

(* ------------------------------------------------------------------ *)
(** * QualityScorer (lines 327-355) *)

Definition _calculate_data_quality_score
    (hr_df : list HeartRateSample) (hrv_df : list HrvSample) : R :=
  let score := 0 in
  let score :=
    if (50 <=? length hr_df)%nat then score + 0.4
    else if (20 <=? length hr_df)%nat then score + 0.2
    else score in
  let score :=
    if (5 <=? length hrv_df)%nat then score + 0.3
    else if (1 <=? length hrv_df)%nat then score + 0.1
    else score in
  let score :=
    if (1 <? length hr_df)%nat then
      let cv := np_div (std (map value hr_df)) (mean (map value hr_df)) in
      if quotient_ltb cv 0.3 then score + 0.3
      else if quotient_ltb cv 0.5 then score + 0.1
      else score
    else score in
  py_min 1 score.

(* ------------------------------------------------------------------ *)
(** * FeatureExtractor (lines 147-218) *)

Definition insufficient_message (time_window_hours : Z) (n : nat) : string :=
  "Insufficient heart rate data in " ++ str_int time_window_hours
  ++ "h window: " ++ str_int (Z.of_nat n) ++ " samples".

Definition extract_features (heart_rate_df : list HeartRateSample)
    (hrv_df : list HrvSample) (time_window_hours : Z)
  : result (list FeatureRow) :=
  let latest_time := latest_time heart_rate_df hrv_df in
  match start_time heart_rate_df hrv_df time_window_hours with
  | Raise e => Raise e
  | Ok start_time =>
      let hr_window := window heart_rate_df start_time latest_time in
      let hrv_window := window hrv_df start_time latest_time in
      if (length hr_window <? 10)%nat then
        Raise (ValueError
                 (insufficient_message time_window_hours (length hr_window)))
      else
        let mean_heart_rate := mean (map value hr_window) in
        let std_heart_rate := std (map value hr_window) in
        let rmssd_data :=
          filter (fun s => String.eqb (hrv_type s) "RMSSD") hrv_window in
        let pnn50 :=
          if (0 <? length rmssd_data)%nat
          then _estimate_pnn50_from_rmssd (mean (map value rmssd_data))
          else _estimate_pnn50_from_hr_std std_heart_rate in
        Ok [ {| timestamp := latest_time;
                mean_heart_rate := mean_heart_rate;
                std_heart_rate := std_heart_rate;
                pnn50 := pnn50;
                data_quality_score :=
                  _calculate_data_quality_score hr_window hrv_window;
                sample_count_hr := length hr_window;
                sample_count_hrv := length hrv_window |} ]
  end.

(* ------------------------------------------------------------------ *)
(** * Predictor boundary and inference (lines 220-249) *)

(** One row of the matrix [X = features_df[feature_columns].values]. *)
Definition feature_vector : Type := (R * R * R)%type.

(** The loaded [model_pipeline]: a fitted estimator answering row by row;
    [predict_proba] has the two columns read at lines 244-245. *)
Record Predictor : Type := mkPredictor {
  predict : feature_vector -> Z;
  predict_proba : feature_vector -> R * R
}.

(** Calls received by the predictor, with the matrix passed. *)
Inductive call : Type :=
| CallPredict (X : list feature_vector)
| CallPredictProba (X : list feature_vector).

(** Computations that may raise and that record predictor calls. *)
Definition M (A : Type) : Type := list call -> result A * list call.

Definition ret {A : Type} (a : A) : M A := fun tr => (Ok a, tr).

Definition raise {A : Type} (e : exn) : M A := fun tr => (Raise e, tr).

Definition bind {A B : Type} (c : M A) (k : A -> M B) : M B :=
  fun tr =>
    match c tr with
    | (Ok a, tr') => k a tr'
    | (Raise e, tr') => (Raise e, tr')
    end.

Definition lift {A : Type} (r : result A) : M A :=
  match r with
  | Ok a => ret a
  | Raise e => raise e
  end.

Notation "x <- c ;; k" := (bind c (fun x => k))
  (at level 61, c at next level, right associativity).

Definition call_predict (m : Predictor) (X : list feature_vector) : M (list Z) :=
  fun tr => (Ok (map (predict m) X), (tr ++ [CallPredict X])%list).

Definition call_predict_proba (m : Predictor) (X : list feature_vector)
  : M (list (R * R)) :=
  fun tr => (Ok (map (predict_proba m) X), (tr ++ [CallPredictProba X])%list).

(** A row of [results_df]: the feature row and the columns added at
    lines 243-247. *)
Record ResultRow : Type := mkResultRow {
  features : FeatureRow;
  prediction : Z;
  normal_probability : R;
  irregular_probability : R;
  confidence : R;
  rhythm_classification : string
}.

Definition feature_columns (r : FeatureRow) : feature_vector :=
  (mean_heart_rate r, std_heart_rate r, pnn50 r).

Definition result_row (r : FeatureRow) (p : Z) (probabilities : R * R)
  : ResultRow :=
  {| features := r;
     prediction := p;
     normal_probability := fst probabilities;
     irregular_probability := snd probabilities;
     confidence := Rmax (fst probabilities) (snd probabilities);
     rhythm_classification := if (p =? 0)%Z then "Normal" else "Irregular" |}.

Definition predict_rhythm (model_pipeline : option Predictor)
    (features_df : list FeatureRow) : M (list ResultRow) :=
  match model_pipeline with
  | None => raise (ValueError "Model not loaded")
  | Some m =>
      let X := map feature_columns features_df in
      predictions <- call_predict m X ;;
      probabilities <- call_predict_proba m X ;;
      ret (map (fun rpq => result_row (fst (fst rpq)) (snd (fst rpq)) (snd rpq))
               (combine (combine features_df predictions) probabilities))
  end.

(* ------------------------------------------------------------------ *)
(** * Reporter (lines 251-282 and 357-395) *)

Definition _generate_clinical_interpretation (result : ResultRow) : string :=
  let rhythm := rhythm_classification result in
  let confidence := confidence result in
  let mean_hr := mean_heart_rate (features result) in
  if String.eqb rhythm "Normal" then
    if Rltb 0.8 confidence then
      "High confidence normal rhythm detected. Heart rate "
      ++ format_0f mean_hr ++ " BPM within normal range."
    else
      "Likely normal rhythm, but consider additional monitoring. Heart rate "
      ++ format_0f mean_hr ++ " BPM."
  else
    if Rltb 0.8 confidence then
      "High confidence irregular rhythm detected. Heart rate "
      ++ format_0f mean_hr ++ " BPM. Recommend medical evaluation."
    else
      "Possible irregular rhythm detected. Heart rate "
      ++ format_0f mean_hr ++ " BPM. Consider further assessment.".

Definition _generate_recommendations (result : ResultRow) : list string :=
  let recommendations := [] in
  let rhythm := rhythm_classification result in
  let confidence := confidence result in
  let data_quality := data_quality_score (features result) in
  let recommendations :=
    if String.eqb rhythm "Irregular" then
      let recommendations :=
        (recommendations
         ++ ["Consult with a healthcare provider about irregular rhythm detection"]
         ++ ["Continue regular monitoring with Apple Watch"])%list in
      if Rltb confidence 0.7 then
        (recommendations
         ++ ["Consider additional ECG recordings for confirmation"])%list
      else recommendations
    else recommendations in
  let recommendations :=
    if Rltb data_quality 0.5 then
      (recommendations
       ++ ["Improve data quality by ensuring proper Apple Watch fit"]
       ++ ["Take readings during rest periods for better accuracy"])%list
    else recommendations in
  (recommendations
   ++ ["Maintain regular physical activity as recommended by your doctor"]
   ++ ["Continue monitoring trends over time"])%list.

Record HeartRateMetrics : Type := mkHeartRateMetrics {
  metrics_mean_heart_rate : R;
  heart_rate_variability : R;
  metrics_pnn50 : R
}.

Record DataQuality : Type := mkDataQuality {
  quality_score : R;
  heart_rate_samples : Z;
  hrv_samples : Z
}.

(** The dict built at lines 263-280; the timestamp is kept as an instant
    rather than rendered by [isoformat()]. *)
Record Report : Type := mkReport {
  report_timestamp : option Z;
  report_rhythm_classification : string;
  confidence_score : R;
  report_irregular_probability : R;
  heart_rate_metrics : HeartRateMetrics;
  data_quality : DataQuality;
  clinical_interpretation : string;
  recommendations : list string
}.

(** [results_df.iloc[-1]]. *)
Definition iloc_last {A : Type} (df : list A) : result A :=
  match rev df with
  | [] => Raise (IndexError "single positional indexer is out-of-bounds")
  | r :: _ => Ok r
  end.

Definition generate_health_report (results_df : list ResultRow) : result Report :=
  match iloc_last results_df with
  | Raise e => Raise e
  | Ok latest_result =>
      let f := features latest_result in
      Ok {| report_timestamp := timestamp f;
            report_rhythm_classification := rhythm_classification latest_result;
            confidence_score := confidence latest_result;
            report_irregular_probability := irregular_probability latest_result;
            heart_rate_metrics :=
              {| metrics_mean_heart_rate := mean_heart_rate f;
                 heart_rate_variability := std_heart_rate f;
                 metrics_pnn50 := pnn50 f |};
            data_quality :=
              {| quality_score := data_quality_score f;
                 heart_rate_samples := Z.of_nat (sample_count_hr f);
                 hrv_samples := Z.of_nat (sample_count_hrv f) |};
            clinical_interpretation :=
              _generate_clinical_interpretation latest_result;
            recommendations := _generate_recommendations latest_result |}
  end.

(* ------------------------------------------------------------------ *)
(** * The pipeline (the call sequence of lines 460-470) *)

Definition pipeline (model_pipeline : option Predictor)
    (heart_rate_data : list HeartRateSample) (hrv_data : list HrvSample)
    (time_window_hours : Z) : M Report :=
  hr_df <- lift (process_healthkit_heart_rate heart_rate_data) ;;
  hrv_df <- lift (process_healthkit_hrv_data hrv_data) ;;
  features_df <- lift (extract_features hr_df hrv_df time_window_hours) ;;
  results_df <- predict_rhythm model_pipeline features_df ;;
  lift (generate_health_report results_df).

(** Running a computation from an empty trace. *)
Definition run {A : Type} (c : M A) : result A * list call := c [].

(* ------------------------------------------------------------------ *)
(** * Model loading (lines 39-66) *)

(** What [json.load] returns for [model_metadata.json]: an object whose
    ['auc_score'] entry, when present, is a number. *)
Record Metadata : Type := mkMetadata {
  auc_score : option R
}.

(** The two files read by [load_model]; [None] stands for a file that
    does not exist.  [joblib.load] on an existing file yields the fitted
    predictor. *)
Record Files : Type := mkFiles {
  model_file : option Predictor;
  metadata_file : option Metadata
}.

(** Exceptions of the loading stage: [FileNotFoundError], or one of the
    exceptions of the processing stages. *)
Inductive exception : Type :=
| FileNotFoundError (msg : string)
| Builtin (e : exn).

Inductive outcome (A : Type) : Type :=
| Done (a : A)
| Failed (e : exception).
Arguments Done {A} a.
Arguments Failed {A} e.

(** The attributes of a constructed [HealthKitDataProcessor]. *)
Record Processor : Type := mkProcessor {
  processor_model_path : string;
  processor_model_pipeline : option Predictor;
  processor_metadata : option Metadata
}.

(** [load_model], called by [__init__].  The inner [try] absorbs only a
    missing metadata file; the banner printed at line 61 formats
    [metadata.get('auc_score', 'N/A')] with [:.3f], which raises
    [ValueError] on the default ['N/A'], and no handler catches it. *)
Definition load_model (files : Files) (model_path : string) : outcome Processor :=
  match model_file files with
  | None => Failed (FileNotFoundError ("Model file not found: " ++ model_path))
  | Some m =>
      match metadata_file files with
      | None =>
          Done {| processor_model_path := model_path;
                  processor_model_pipeline := Some m;
                  processor_metadata := None |}
      | Some md =>
          match auc_score md with
          | Some _ =>
              Done {| processor_model_path := model_path;
                      processor_model_pipeline := Some m;
                      processor_metadata := Some md |}
          | None =>
              Failed (Builtin (ValueError
                "Unknown format code 'f' for object of type 'str'"))
          end
      end
  end.

Definition default_model_path : string := "improved_heart_rhythm_svm_pipeline.pkl".

(* ------------------------------------------------------------------ *)
(** * The demonstration run (lines 398-504) *)

(** [timedelta(minutes=m)] in nanoseconds. *)
Definition timedelta_minutes (m : Z) : Z := (m * 60000000000)%Z.

(** The list [heart_rate_data] built at lines 407-423.  [base_time] is
    [datetime.now() - timedelta(hours=2)]; [hr_draw i] is the value drawn
    by [np.random.normal] at iteration [i]. *)
Definition sample_heart_rate_data (base_time : Z) (hr_draw : nat -> R)
  : list HeartRateSample :=
  map (fun i =>
         let timestamp := (base_time + timedelta_minutes (Z.of_nat i))%Z in
         {| hr_startDate := timestamp;
            hr_endDate := (timestamp + timedelta_minutes 1)%Z;
            hr_value := py_max 50 (py_min 150 (hr_draw i));
            hr_unit := "count/min" |})
      (seq 0 120).

(** The list [hrv_data] built at lines 426-453: an SDNN and an RMSSD
    entry every five minutes. *)
Definition sample_hrv_data (base_time : Z) (sdnn_draw rmssd_draw : nat -> R)
  : list HrvSample :=
  flat_map (fun i =>
              let timestamp := (base_time + timedelta_minutes (Z.of_nat i * 5))%Z in
              [ {| hrv_startDate := timestamp;
                   hrv_endDate := (timestamp + timedelta_minutes 5)%Z;
                   hrv_value := py_max 10 (sdnn_draw i);
                   hrv_unit := "ms";
                   hrv_type := "SDNN" |};
                {| hrv_startDate := timestamp;
                   hrv_endDate := (timestamp + timedelta_minutes 5)%Z;
                   hrv_value := py_max 5 (rmssd_draw i);
                   hrv_unit := "ms";
                   hrv_type := "RMSSD" |} ])
           (seq 0 24).

(** [process_sample_healthkit_data]: [Done report] when the report is
    saved, [Failed e] when the [except Exception] handler prints [e]. *)
Definition process_sample_healthkit_data (files : Files) (base_time : Z)
    (hr_draw sdnn_draw rmssd_draw : nat -> R)
  : outcome Report * list call :=
  match load_model files default_model_path with
  | Failed e => (Failed e, [])
  | Done processor =>
      match run (pipeline (processor_model_pipeline processor)
                          (sample_heart_rate_data base_time hr_draw)
                          (sample_hrv_data base_time sdnn_draw rmssd_draw)
                          2)
      with
      | (Ok health_report, tr) => (Done health_report, tr)
      | (Raise e, tr) => (Failed (Builtin e), tr)
      end
  end.

(* ------------------------------------------------------------------ *)
(** * Sample inputs *)

Module Samples.

Definition minute : Z := 60000000000.

(** A heart-rate reading of value [v] covering minute [i]. *)
Definition hr_at (i : Z) (v : R) : HeartRateSample :=
  mkHR (i * minute) ((i + 1) * minute) v "count/min".

(** [n] heart-rate readings of the same value, one per minute. *)
Definition steady (n : nat) (c : R) : list HeartRateSample :=
  map (fun i => hr_at (Z.of_nat i) c) (seq 0 n).

(** Eight plausible heart-rate readings. *)
Definition hr_eight : list HeartRateSample :=
  [ hr_at 0 72; hr_at 1 72; hr_at 2 72; hr_at 3 72;
    hr_at 4 72; hr_at 5 72; hr_at 6 72; hr_at 7 72 ].

(** Two readings, 60 and 80. *)
Definition hr_varied : list HeartRateSample := [ hr_at 0 60; hr_at 1 80 ].

(** One reading outside the plausible range. *)
Definition hr_implausible : list HeartRateSample := [ hr_at 0 300 ].

(** One five-minute RMSSD sample starting at instant 0. *)
Definition hrv_single : list HrvSample :=
  [ mkHRV 0 (5 * minute) 45 "ms" "RMSSD" ].

(** One five-minute SDNN sample starting at minute 58. *)
Definition hrv_late : list HrvSample :=
  [ mkHRV (58 * minute) (63 * minute) 45 "ms" "SDNN" ].

(** A predictor answering "irregular, 0.3 / 0.7" to everything. *)
Definition constant_predictor : Predictor :=
  {| predict := fun _ => 1%Z; predict_proba := fun _ => (0.3, 0.7) |}.

End Samples.
Import Samples.

(* ================================================================== *)
(** * Properties *)

(* ------------------------------------------------------------------ *)
(** ** The two outcomes of feature extraction *)

Module Extraction.

Lemma window_start_ok
    (hr_df : list HeartRateSample) (hrv_df : list HrvSample) (hours : Z)
    (start : option Z) :
  start_time hr_df hrv_df hours = Ok start ->
  window_start hr_df hrv_df hours = start.
Proof. unfold window_start. now intros ->. Qed.

Lemma windows_after_start
    (hr_df : list HeartRateSample) (hrv_df : list HrvSample) (hours : Z)
    (start : option Z) :
  start_time hr_df hrv_df hours = Ok start ->
  hr_window hr_df hrv_df hours = window hr_df start (latest_time hr_df hrv_df)
  /\ hrv_window hr_df hrv_df hours = window hrv_df start (latest_time hr_df hrv_df).
Proof.
  intros Hs. unfold hr_window, hrv_window.
  now rewrite (window_start_ok _ _ _ _ Hs).
Qed.

Lemma window_none {A : Type} `{Columns A} (df : list A) (latest : option Z) :
  window df None latest = [].
Proof. unfold window. induction df as [|x df IH]; [reflexivity | exact IH]. Qed.

Lemma windows_when_start_raises
    (hr_df : list HeartRateSample) (hrv_df : list HrvSample) (hours : Z)
    (e : exn) :
  start_time hr_df hrv_df hours = Raise e ->
  hr_window hr_df hrv_df hours = [] /\ hrv_window hr_df hrv_df hours = [].
Proof.
  intros Hs. unfold hr_window, hrv_window, window_start. rewrite Hs.
  split; apply window_none.
Qed.

Lemma extract_features_raises_with_start
    (hr_df : list HeartRateSample) (hrv_df : list HrvSample) (hours : Z)
    (e : exn) :
  start_time hr_df hrv_df hours = Raise e ->
  extract_features hr_df hrv_df hours = Raise e.
Proof. intros Hs. unfold extract_features. now rewrite Hs. Qed.

Lemma nonempty_window_start_ok
    (hr_df : list HeartRateSample) (hrv_df : list HrvSample) (hours : Z) :
  hr_window hr_df hrv_df hours <> [] ->
  exists start, start_time hr_df hrv_df hours = Ok start.
Proof.
  intros Hne. destruct (start_time hr_df hrv_df hours) as [start|e] eqn:Hs.
  - now exists start.
  - destruct (windows_when_start_raises _ _ _ _ Hs) as [Hw _]. congruence.
Qed.

Lemma extract_features_insufficient
    (hr_df : list HeartRateSample) (hrv_df : list HrvSample) (hours : Z)
    (start : option Z) :
  start_time hr_df hrv_df hours = Ok start ->
  (length (hr_window hr_df hrv_df hours) < 10)%nat ->
  extract_features hr_df hrv_df hours
  = Raise (ValueError
             (insufficient_message hours (length (hr_window hr_df hrv_df hours)))).
Proof.
  intros Hs Hlt. destruct (windows_after_start _ _ _ _ Hs) as [Hw _].
  rewrite Hw in *. unfold extract_features. rewrite Hs.
  destruct (Nat.ltb_spec (length (window hr_df start (latest_time hr_df hrv_df))) 10);
    [reflexivity | lia].
Qed.

Lemma extract_features_sufficient
    (hr_df : list HeartRateSample) (hrv_df : list HrvSample) (hours : Z) :
  (10 <= length (hr_window hr_df hrv_df hours))%nat ->
  exists row,
    extract_features hr_df hrv_df hours = Ok [row]
    /\ timestamp row = latest_time hr_df hrv_df
    /\ mean_heart_rate row = mean (map value (hr_window hr_df hrv_df hours))
    /\ std_heart_rate row = std (map value (hr_window hr_df hrv_df hours))
    /\ data_quality_score row
       = _calculate_data_quality_score (hr_window hr_df hrv_df hours)
                                       (hrv_window hr_df hrv_df hours)
    /\ sample_count_hr row = length (hr_window hr_df hrv_df hours)
    /\ sample_count_hrv row = length (hrv_window hr_df hrv_df hours).
Proof.
  intros Hge.
  destruct (nonempty_window_start_ok hr_df hrv_df hours) as [start Hs].
  { intros Hnil. rewrite Hnil in Hge. simpl in Hge. lia. }
  destruct (windows_after_start _ _ _ _ Hs) as [Hw1 Hw2].
  rewrite Hw1, Hw2 in *. unfold extract_features. rewrite Hs.
  destruct (Nat.ltb_spec (length (window hr_df start (latest_time hr_df hrv_df))) 10);
    [lia|].
  eexists. split; [reflexivity|]. repeat split.
Qed.

(** A returned frame means that line 171 returned and that the count
    test of line 184 passed. *)
Lemma extract_features_ok
    (hr_df : list HeartRateSample) (hrv_df : list HrvSample) (hours : Z)
    (rows : list FeatureRow) :
  extract_features hr_df hrv_df hours = Ok rows ->
  (exists start, start_time hr_df hrv_df hours = Ok start)
  /\ (10 <= length (hr_window hr_df hrv_df hours))%nat.
Proof.
  intros Hrows. destruct (start_time hr_df hrv_df hours) as [start|e] eqn:Hs.
  - split; [now exists start|].
    destruct (Nat.lt_ge_cases (length (hr_window hr_df hrv_df hours)) 10)
      as [Hlt | Hge]; [|exact Hge].
    rewrite (extract_features_insufficient _ _ _ _ Hs Hlt) in Hrows. discriminate.
  - rewrite (extract_features_raises_with_start _ _ _ _ Hs) in Hrows. discriminate.
Qed.

(** The value that [extract_features] computes for [pnn50]. *)
Lemma extract_features_pnn50
    (hr_df : list HeartRateSample) (hrv_df : list HrvSample) (hours : Z)
    (row : FeatureRow) :
  extract_features hr_df hrv_df hours = Ok [row] ->
  pnn50 row
  = if (0 <? length (filter (fun s => String.eqb (hrv_type s) "RMSSD")
                            (hrv_window hr_df hrv_df hours)))%nat
    then _estimate_pnn50_from_rmssd
           (mean (map value (filter (fun s => String.eqb (hrv_type s) "RMSSD")
                                    (hrv_window hr_df hrv_df hours))))
    else _estimate_pnn50_from_hr_std
           (std (map value (hr_window hr_df hrv_df hours))).
Proof.
  intros Hrow. destruct (start_time hr_df hrv_df hours) as [start|e] eqn:Hs.
  - destruct (windows_after_start _ _ _ _ Hs) as [Hw1 Hw2]. rewrite Hw1, Hw2.
    unfold extract_features in Hrow. rewrite Hs in Hrow.
    destruct (length (window hr_df start (latest_time hr_df hrv_df)) <? 10)%nat;
      [discriminate|].
    injection Hrow as <-. reflexivity.
  - rewrite (extract_features_raises_with_start _ _ _ _ Hs) in Hrow. discriminate.
Qed.

(** Line 171 on the two kinds of reference instant. *)
Lemma start_time_of_NaT
    (hr_df : list HeartRateSample) (hrv_df : list HrvSample) (hours : Z) :
  latest_time hr_df hrv_df = None ->
  (-23999999976 <= hours <= 23999999999)%Z ->
  start_time hr_df hrv_df hours = Ok None.
Proof.
  intros Hl Hh. unfold start_time, timedelta_hours. rewrite Hl.
  destruct (Z.ltb_spec hours (-23999999976)); [lia|].
  destruct (Z.ltb_spec 23999999999 hours); [lia|]. reflexivity.
Qed.

Lemma start_time_of_timestamp
    (hr_df : list HeartRateSample) (hrv_df : list HrvSample) (hours latest : Z) :
  latest_time hr_df hrv_df = Some latest ->
  (timestamp_min <= hours * 3600000000000 <= timestamp_max)%Z ->
  (timestamp_min <= latest - hours * 3600000000000 <= timestamp_max)%Z ->
  start_time hr_df hrv_df hours = Ok (Some (latest - hours * 3600000000000)%Z).
Proof.
  unfold timestamp_min, timestamp_max. intros Hl Hd Hr.
  unfold start_time, timedelta_hours, ts_sub, representable,
    timestamp_min, timestamp_max. rewrite Hl.
  destruct (Z.ltb_spec hours (-23999999976)); [lia|].
  destruct (Z.ltb_spec 23999999999 hours); [lia|]. cbn [orb].
  destruct (Z.ltb_spec 86399999913600000000000 (hours * 3600000000000)); [lia|].
  rewrite !(proj2 (Z.leb_le _ _)) by lia. reflexivity.
Qed.

Lemma start_time_ok_inv
    (hr_df : list HeartRateSample) (hrv_df : list HrvSample) (hours : Z)
    (start : option Z) :
  start_time hr_df hrv_df hours = Ok start ->
  (-23999999976 <= hours <= 23999999999)%Z
  /\ start = option_map (fun t => (t - hours * 3600000000000)%Z)
                        (latest_time hr_df hrv_df)
  /\ (forall latest,
         latest_time hr_df hrv_df = Some latest ->
         (timestamp_min <= hours * 3600000000000 <= timestamp_max)%Z
         /\ (timestamp_min <= latest - hours * 3600000000000 <= timestamp_max)%Z).
Proof.
  unfold start_time, timedelta_hours.
  destruct (Z.ltb_spec hours (-23999999976)); [discriminate|].
  destruct (Z.ltb_spec 23999999999 hours); [discriminate|]. cbn [orb].
  split; [lia|].
  destruct (latest_time hr_df hrv_df) as [t|]; cbn [ts_sub option_map] in *.
  - destruct (Z.ltb_spec 86399999913600000000000 (hours * 3600000000000));
      [discriminate|].
    destruct (representable (- (hours * 3600000000000))) eqn:R1;
      [|discriminate].
    destruct (representable (t - hours * 3600000000000)) eqn:R2;
      [|discriminate].
    cbn [andb] in *. split; [congruence|].
    intros latest [= <-].
    unfold representable in R1, R2.
    apply andb_true_iff in R1, R2. rewrite !Z.leb_le in R1, R2.
    unfold timestamp_min, timestamp_max in *. lia.
  - split; [congruence | discriminate].
Qed.

End Extraction.

(* ------------------------------------------------------------------ *)
(** ** Windower *)

Module Windower.

Open Scope Z_scope.

(** Membership of [startDate] in the closed interval [[lo, hi]]. *)
Definition in_window {A : Type} `{Columns A} (lo hi : Z) (s : A) : bool :=
  (lo <=? startDate s) && (startDate s <=? hi).

(** The reference instant as the specification words it: the maximum
    [endDate] over both series. *)
Definition latest_by_endDate (heart_rate_df : list HeartRateSample)
    (hrv_df : list HrvSample) : option Z :=
  series_max (map endDate heart_rate_df ++ map endDate hrv_df).

(** All [startDate] instants of both series. *)
Definition all_starts (heart_rate_df : list HeartRateSample)
    (hrv_df : list HrvSample) : list Z :=
  (map startDate heart_rate_df ++ map startDate hrv_df)%list.

Lemma fold_left_max_spec (l : list Z) : forall x,
  (fold_left Z.max l x = x \/ In (fold_left Z.max l x) l)
  /\ x <= fold_left Z.max l x
  /\ Forall (fun t => t <= fold_left Z.max l x) l.
Proof.
  induction l as [|y l IH]; intros x; simpl.
  - repeat split; [now left | lia | constructor].
  - destruct (IH (Z.max x y)) as (Hin & Hle & Hall).
    repeat split.
    + destruct Hin as [Heq | Hin]; [|now right; right].
      rewrite Heq. destruct (Z.max_spec x y) as [[_ ->] | [_ ->]]; auto.
    + lia.
    + constructor; [lia | exact Hall].
Qed.

Lemma series_max_spec (l : list Z) :
  l <> [] ->
  exists m, series_max l = Some m /\ In m l /\ Forall (fun t => t <= m) l.
Proof.
  destruct l as [|x l]; [congruence | intros _].
  exists (fold_left Z.max l x); simpl.
  destruct (fold_left_max_spec l x) as (Hin & Hle & Hall).
  repeat split.
  - destruct Hin as [Heq | Hin]; [left; now rewrite Heq | now right].
  - now constructor.
Qed.

Lemma py_max_ts_some (a b : Z) : py_max_ts (Some a) (Some b) = Some (Z.max a b).
Proof.
  unfold py_max_ts; simpl.
  destruct (Z.ltb_spec a b); f_equal; lia.
Qed.

Lemma latest_time_spec (hr : list HeartRateSample) (hrv : list HrvSample) :
  hr <> [] -> hrv <> [] ->
  exists latest,
    latest_time hr hrv = Some latest
    /\ In latest (all_starts hr hrv)
    /\ Forall (fun t => t <= latest) (all_starts hr hrv).
Proof.
  intros Hhr Hhrv.
  destruct (series_max_spec (map startDate hr)) as (a & Ha & Hina & Halla).
  { destruct hr; [congruence | discriminate]. }
  destruct (series_max_spec (map startDate hrv)) as (b & Hb & Hinb & Hallb).
  { destruct hrv; [congruence | discriminate]. }
  exists (Z.max a b). unfold latest_time, all_starts.
  rewrite Ha, Hb, py_max_ts_some. split; [reflexivity | split].
  - apply in_or_app.
    destruct (Z.max_spec a b) as [[_ ->] | [_ ->]]; [now right | now left].
  - apply Forall_app; split;
      [eapply Forall_impl; [|exact Halla] | eapply Forall_impl; [|exact Hallb]];
      simpl; intros; lia.
Qed.

Lemma window_some {A : Type} `{Columns A} (df : list A) (lo hi : Z) :
  window df (Some lo) (Some hi) = filter (in_window lo hi) df.
Proof. reflexivity. Qed.

(** C1, as stated, fails.  Ten heart-rate readings cover minutes 0 to 9
    and one HRV sample runs from minute 58 to minute 63.  The code takes
    [latest] to be minute 58, the greatest [startDate], not minute 63,
    the greatest [endDate]; its one-hour window holds all ten readings
    and extraction returns a row stamped minute 58 with a count of 10,
    where the interval ending at the greatest [endDate] holds seven. *)
Lemma latest_is_not_max_endDate :
  latest_time (steady 10 72) hrv_late = Some (58 * minute)
  /\ latest_by_endDate (steady 10 72) hrv_late = Some (63 * minute)
  /\ latest_time (steady 10 72) hrv_late <> latest_by_endDate (steady 10 72) hrv_late
  /\ start_time (steady 10 72) hrv_late 1 = Ok (Some (58 * minute - 60 * minute))
  /\ hr_window (steady 10 72) hrv_late 1 = steady 10 72
  /\ length (filter (in_window (63 * minute - 60 * minute) (63 * minute))
                    (steady 10 72)) = 7%nat
  /\ exists row,
       extract_features (steady 10 72) hrv_late 1 = Ok [row]
       /\ timestamp row = Some (58 * minute)
       /\ sample_count_hr row = 10%nat.
Proof.
  assert (Hw : hr_window (steady 10 72) hrv_late 1 = steady 10 72) by reflexivity.
  repeat split; try reflexivity; try discriminate.
  destruct (Extraction.extract_features_sufficient (steady 10 72) hrv_late 1)
    as (row & Hrow & Hts & _ & _ & _ & Hn & _).
  { rewrite Hw. simpl. lia. }
  exists row. rewrite Hts, Hn, Hw. repeat split. exact Hrow.
Qed.

(** C1 (amended): for non-empty series, [latest] is the maximum
    [startDate] over both series; the subtraction of line 171 returns
    when the window length and [latest - window length] fit the
    nanosecond range of pandas; and whenever it returns [start], then
    [start = latest - window length] and the two windows are exactly the
    sub-sequences of the samples whose [startDate] lies in the closed
    interval [[start, latest]]. *)
Theorem window_is_closed_interval_from_latest_start
    (hr : list HeartRateSample) (hrv : list HrvSample) (hours : Z) :
  hr <> [] -> hrv <> [] ->
  exists latest,
    latest_time hr hrv = Some latest
    /\ In latest (all_starts hr hrv)
    /\ Forall (fun t => t <= latest) (all_starts hr hrv)
    /\ (timestamp_min <= hours * 3600000000000 <= timestamp_max ->
        timestamp_min <= latest - hours * 3600000000000 <= timestamp_max ->
        start_time hr hrv hours = Ok (Some (latest - hours * 3600000000000)))
    /\ (forall start,
        start_time hr hrv hours = Ok start ->
        start = Some (latest - hours * 3600000000000)
        /\ hr_window hr hrv hours = window hr start (Some latest)
        /\ hrv_window hr hrv hours = window hrv start (Some latest)
        /\ hr_window hr hrv hours
           = filter (in_window (latest - hours * 3600000000000) latest) hr
        /\ hrv_window hr hrv hours
           = filter (in_window (latest - hours * 3600000000000) latest) hrv
        /\ (forall s, In s (hr_window hr hrv hours) <->
                      In s hr
                      /\ latest - hours * 3600000000000 <= startDate s <= latest)
        /\ (forall s, In s (hrv_window hr hrv hours) <->
                      In s hrv
                      /\ latest - hours * 3600000000000 <= startDate s <= latest)).
Proof.
  intros Hhr Hhrv.
  destruct (latest_time_spec hr hrv Hhr Hhrv) as (latest & Hl & Hin & Hall).
  exists latest.
  split; [exact Hl|]. split; [exact Hin|]. split; [exact Hall|].
  split; [now apply Extraction.start_time_of_timestamp|].
  intros start Hstart.
  assert (Hs : start = Some (latest - hours * 3600000000000)).
  { destruct (Extraction.start_time_ok_inv _ _ _ _ Hstart) as (_ & -> & _).
    rewrite Hl. reflexivity. }
  destruct (Extraction.windows_after_start _ _ _ _ Hstart) as [Hw1' Hw2'].
  rewrite Hl in Hw1', Hw2'.
  assert (Hw1 : hr_window hr hrv hours
                = filter (in_window (latest - hours * 3600000000000) latest) hr).
  { rewrite Hw1', Hs. apply window_some. }
  assert (Hw2 : hrv_window hr hrv hours
                = filter (in_window (latest - hours * 3600000000000) latest) hrv).
  { rewrite Hw2', Hs. apply window_some. }
  split; [exact Hs|]. split; [exact Hw1'|]. split; [exact Hw2'|].
  split; [exact Hw1|]. split; [exact Hw2|].
  split; intros s; [rewrite Hw1 | rewrite Hw2];
    rewrite filter_In; unfold in_window;
    rewrite andb_true_iff, !Z.leb_le; tauto.
Qed.

Lemma window_is_closed_interval_witness :
  steady 10 72 <> [] /\ hrv_late <> []
  /\ start_time (steady 10 72) hrv_late 1 = Ok (Some (- 2 * minute))
  /\ exists latest,
       latest_time (steady 10 72) hrv_late = Some latest
       /\ Some (- 2 * minute) = Some (latest - 1 * 3600000000000)
       /\ hr_window (steady 10 72) hrv_late 1
          = filter (in_window (latest - 1 * 3600000000000) latest) (steady 10 72)
       /\ hrv_window (steady 10 72) hrv_late 1
          = filter (in_window (latest - 1 * 3600000000000) latest) hrv_late.
Proof.
  assert (H1 : steady 10 72 <> []) by discriminate.
  assert (H2 : hrv_late <> []) by discriminate.
  assert (H3 : start_time (steady 10 72) hrv_late 1 = Ok (Some (- 2 * minute)))
    by reflexivity.
  split; [exact H1 | split; [exact H2 | split; [exact H3 |]]].
  destruct (window_is_closed_interval_from_latest_start
              (steady 10 72) hrv_late 1 H1 H2)
    as (latest & Hl & _ & _ & _ & Hwin).
  destruct (Hwin _ H3) as (Hs & _ & _ & Hw1 & Hw2 & _).
  exists latest. repeat split; assumption.
Defined.

End Windower.

(* ------------------------------------------------------------------ *)
(** ** Validator and ingestion *)

Module Validator.

Definition hr_plausible (s : HeartRateSample) : Prop := 30 <= value s <= 250.
Definition hrv_plausible (s : HrvSample) : Prop := 1 <= value s <= 200.

Lemma hr_test_true (s : HeartRateSample) :
  Rleb 30 (value s) && Rleb (value s) 250 = true <-> hr_plausible s.
Proof.
  unfold hr_plausible. rewrite andb_true_iff, !Rleb_true. tauto.
Qed.

Lemma hrv_test_true (s : HrvSample) :
  Rleb 1 (value s) && Rleb (value s) 200 = true <-> hrv_plausible s.
Proof.
  unfold hrv_plausible. rewrite andb_true_iff, !Rleb_true. tauto.
Qed.

Lemma filter_all {A : Type} (f : A -> bool) (l : list A) :
  Forall (fun x => f x = true) l -> filter f l = l.
Proof.
  induction 1 as [|x l Hx _ IH]; simpl; [reflexivity|].
  now rewrite Hx, IH.
Qed.

Lemma filter_none {A : Type} (f : A -> bool) (l : list A) :
  Forall (fun x => f x <> true) l -> filter f l = [].
Proof.
  induction 1 as [|x l Hx _ IH]; simpl; [reflexivity|].
  destruct (f x); [congruence | exact IH].
Qed.

Lemma validate_hr_plausible (df : list HeartRateSample) :
  Forall hr_plausible (_validate_heart_rate_data df).
Proof.
  apply Forall_forall. intros s Hs.
  apply filter_In in Hs. now apply hr_test_true.
Qed.

Lemma validate_hrv_plausible (df : list HrvSample) :
  Forall hrv_plausible (_validate_hrv_data df).
Proof.
  apply Forall_forall. intros s Hs.
  apply filter_In in Hs. now apply hrv_test_true.
Qed.

Lemma validate_hr_keeps_all (df : list HeartRateSample) :
  Forall hr_plausible df -> _validate_heart_rate_data df = df.
Proof.
  intros H. apply filter_all.
  eapply Forall_impl; [|exact H]. intros s. apply hr_test_true.
Qed.

Lemma validate_hrv_keeps_all (df : list HrvSample) :
  Forall hrv_plausible df -> _validate_hrv_data df = df.
Proof.
  intros H. apply filter_all.
  eapply Forall_impl; [|exact H]. intros s. apply hrv_test_true.
Qed.

Lemma validate_hr_drops_all (df : list HeartRateSample) :
  Forall (fun s => ~ hr_plausible s) df -> _validate_heart_rate_data df = [].
Proof.
  intros H. apply filter_none.
  eapply Forall_impl; [|exact H]. intros s Hs Ht. now apply Hs, hr_test_true.
Qed.

Section SortFacts.
Context {A : Type} `{Columns A}.

Lemma insert_by_start_perm (x : A) (l : list A) :
  Permutation (insert_by_start x l) (x :: l).
Proof.
  induction l as [|y l IH]; simpl; [reflexivity|].
  destruct (startDate x <=? startDate y)%Z; [reflexivity|].
  rewrite IH. apply perm_swap.
Qed.

Lemma sort_values_perm (df : list A) : Permutation (sort_values df) df.
Proof.
  induction df as [|x df IH]; simpl; [reflexivity|].
  rewrite insert_by_start_perm. now constructor.
Qed.

Lemma sort_values_nil_iff (df : list A) : sort_values df = [] <-> df = [].
Proof.
  split; intros Hd.
  - apply Permutation_nil. rewrite <- Hd. apply sort_values_perm.
  - now subst.
Qed.

Lemma insert_by_start_sorted (x : A) (l : list A) :
  Sorted (fun a b => (startDate a <= startDate b)%Z) l ->
  Sorted (fun a b => (startDate a <= startDate b)%Z) (insert_by_start x l).
Proof.
  induction 1 as [|y l Hl IH Hy]; simpl.
  - repeat constructor.
  - destruct (Z.leb_spec (startDate x) (startDate y)).
    + repeat constructor; assumption.
    + constructor; [exact IH|].
      destruct Hy as [|z l' Hz]; simpl.
      * constructor. lia.
      * destruct (Z.leb_spec (startDate x) (startDate z)); constructor; lia.
Qed.

(** Ingestion hands over frames in ascending [startDate] order. *)
Lemma sort_values_sorted (df : list A) :
  Sorted (fun a b => (startDate a <= startDate b)%Z) (sort_values df).
Proof.
  induction df as [|x df IH]; simpl; [constructor|].
  now apply insert_by_start_sorted.
Qed.

Lemma sort_values_Forall (P : A -> Prop) (df : list A) :
  Forall P df -> Forall P (sort_values df).
Proof.
  intros Hd. eapply Permutation_Forall; [|exact Hd].
  symmetry. apply sort_values_perm.
Qed.
End SortFacts.

Lemma process_hr_plausible (hr_data hr_df : list HeartRateSample) :
  process_healthkit_heart_rate hr_data = Ok hr_df -> Forall hr_plausible hr_df.
Proof.
  destruct hr_data as [|s l]; [discriminate|].
  intros Hp.
  assert (Hdf : hr_df = sort_values (_validate_heart_rate_data (s :: l)))
    by (unfold process_healthkit_heart_rate in Hp; congruence).
  rewrite Hdf. apply sort_values_Forall, validate_hr_plausible.
Qed.

Lemma window_incl {A : Type} `{Columns A} (df : list A) (lo hi : option Z) :
  incl (window df lo hi) df.
Proof. intros s Hs. apply filter_In in Hs. tauto. Qed.

Lemma latest_time_no_heart_rate (hrv_df : list HrvSample) :
  latest_time [] hrv_df = None.
Proof.
  unfold latest_time, py_max_ts. cbn [map series_max].
  destruct (series_max (map startDate hrv_df)); reflexivity.
Qed.

(** With an empty heart-rate frame [latest_time] is [NaT], so line 171
    can only fail in the [timedelta] constructor. *)
Lemma start_time_no_heart_rate (hrv_df : list HrvSample) (hours : Z) :
  start_time [] hrv_df hours
  = if ((hours <? -23999999976) || (23999999999 <? hours))%Z
    then Raise OverflowError else Ok None.
Proof.
  unfold start_time, timedelta_hours. rewrite latest_time_no_heart_rate.
  now destruct ((hours <? -23999999976) || (23999999999 <? hours))%Z.
Qed.

Lemma extract_features_no_heart_rate (hrv_df : list HrvSample) (hours : Z) :
  (-23999999976 <= hours <= 23999999999)%Z ->
  extract_features [] hrv_df hours
  = Raise (ValueError (insufficient_message hours 0)).
Proof.
  intros Hh. unfold extract_features.
  rewrite (Extraction.start_time_of_NaT [] hrv_df hours
             (latest_time_no_heart_rate hrv_df) Hh).
  reflexivity.
Qed.

Lemma extract_features_no_heart_rate_raises (hrv_df : list HrvSample) (hours : Z) :
  extract_features [] hrv_df hours
  = if ((hours <? -23999999976) || (23999999999 <? hours))%Z
    then Raise OverflowError
    else Raise (ValueError (insufficient_message hours 0)).
Proof.
  unfold extract_features. rewrite start_time_no_heart_rate.
  now destruct ((hours <? -23999999976) || (23999999999 <? hours))%Z.
Qed.

(** C5: ingestion raises the empty-input [ValueError] exactly when the
    raw list is empty; the range filter itself never raises; when a
    non-empty list loses every sample to the filter, ingestion returns an
    empty frame and the failure appears at extraction, before any
    predictor call: as the minimum-count [ValueError] with zero samples
    for every window length of at most 23999999976 hours in magnitude
    (999999999 days, the greatest [timedelta] that has a negative), and
    as the [OverflowError] of the [timedelta] constructor for the window
    lengths that it refuses. *)
Theorem empty_input_error_iff_raw_list_empty :
  (forall hr_data,
      (exists e, process_healthkit_heart_rate hr_data = Raise e) <-> hr_data = [])
  /\ process_healthkit_heart_rate []
     = Raise (ValueError "No heart rate data provided")
  /\ (forall hrv_data,
      (exists e, process_healthkit_hrv_data hrv_data = Raise e) <-> hrv_data = [])
  /\ (forall hr_data,
      hr_data <> [] ->
      Forall (fun s => ~ hr_plausible s) hr_data ->
      _validate_heart_rate_data hr_data = []
      /\ process_healthkit_heart_rate hr_data = Ok [])
  /\ (forall hrv_df hours,
      (-23999999976 <= hours <= 23999999976)%Z ->
      extract_features [] hrv_df hours
      = Raise (ValueError (insufficient_message hours 0)))
  /\ (forall model hr_data hrv_data hours,
      hr_data <> [] -> hrv_data <> [] ->
      Forall (fun s => ~ hr_plausible s) hr_data ->
      (-23999999976 <= hours <= 23999999976)%Z ->
      run (pipeline model hr_data hrv_data hours)
      = (Raise (ValueError (insufficient_message hours 0)), []))
  /\ (forall model hr_data hrv_data hours,
      hr_data <> [] -> hrv_data <> [] ->
      Forall (fun s => ~ hr_plausible s) hr_data ->
      (hours < -23999999976 \/ 23999999999 < hours)%Z ->
      run (pipeline model hr_data hrv_data hours) = (Raise OverflowError, [])).
Proof.
  assert (Hdrop : forall hr_data,
             hr_data <> [] ->
             Forall (fun s => ~ hr_plausible s) hr_data ->
             _validate_heart_rate_data hr_data = []
             /\ process_healthkit_heart_rate hr_data = Ok []).
  { intros hr_data Hne Hall.
    pose proof (validate_hr_drops_all hr_data Hall) as Hv.
    split; [exact Hv|].
    destruct hr_data as [|s l]; [congruence|].
    unfold process_healthkit_heart_rate. now rewrite Hv. }
  assert (Hpipe : forall model hr_data hrv_data hours,
             hr_data <> [] -> hrv_data <> [] ->
             Forall (fun s => ~ hr_plausible s) hr_data ->
             exists hrv_df,
               run (pipeline model hr_data hrv_data hours)
               = match extract_features [] hrv_df hours with
                 | Ok rows => run (pipeline model hr_data hrv_data hours)
                 | Raise e => (Raise e, [])
                 end).
  { intros model hr_data hrv_data hours Hhr Hhrv Hall.
    destruct (Hdrop hr_data Hhr Hall) as [_ Hp].
    destruct hrv_data as [|v l]; [congruence|].
    exists (sort_values (_validate_hrv_data (v :: l))).
    destruct (extract_features [] (sort_values (_validate_hrv_data (v :: l))) hours)
      as [rows|e] eqn:He; [reflexivity|].
    unfold run, pipeline, bind. rewrite Hp.
    cbn [process_healthkit_hrv_data lift]. unfold ret at 1 2. rewrite He.
    reflexivity. }
  repeat split.
  - intros [e He]. destruct hr_data; [reflexivity | discriminate].
  - intros ->. eexists. reflexivity.
  - intros [e He]. destruct hrv_data; [reflexivity | discriminate].
  - intros ->. eexists. reflexivity.
  - now apply Hdrop.
  - now apply Hdrop.
  - intros hrv_df hours Hh. apply extract_features_no_heart_rate. lia.
  - intros model hr_data hrv_data hours Hhr Hhrv Hall Hh.
    destruct (Hpipe model hr_data hrv_data hours Hhr Hhrv Hall) as [hrv_df Hrun].
    rewrite (extract_features_no_heart_rate hrv_df hours) in Hrun by lia.
    exact Hrun.
  - intros model hr_data hrv_data hours Hhr Hhrv Hall Hh.
    destruct (Hpipe model hr_data hrv_data hours Hhr Hhrv Hall) as [hrv_df Hrun].
    rewrite extract_features_no_heart_rate_raises in Hrun.
    destruct (Z.ltb_spec hours (-23999999976));
      destruct (Z.ltb_spec 23999999999 hours); cbn [orb] in Hrun;
      try exact Hrun; lia.
Qed.

Lemma empty_input_error_witness :
  hr_implausible <> [] /\ hrv_single <> []
  /\ Forall (fun s => ~ hr_plausible s) hr_implausible
  /\ process_healthkit_heart_rate hr_implausible = Ok []
  /\ run (pipeline (Some constant_predictor) hr_implausible hrv_single 24)
     = (Raise (ValueError "Insufficient heart rate data in 24h window: 0 samples"),
        []).
Proof.
  assert (H1 : hr_implausible <> []) by discriminate.
  assert (H2 : hrv_single <> []) by discriminate.
  assert (H3 : Forall (fun s => ~ hr_plausible s) hr_implausible).
  { repeat constructor. unfold hr_plausible; simpl. lra. }
  assert (H4 : (-23999999976 <= 24 <= 23999999976)%Z) by lia.
  destruct empty_input_error_iff_raw_list_empty
    as (_ & _ & _ & Hdrop & _ & Hpipe & _).
  repeat split; try assumption.
  - exact (proj2 (Hdrop hr_implausible H1 H3)).
  - exact (Hpipe (Some constant_predictor) hr_implausible hrv_single 24%Z
             H1 H2 H3 H4).
Defined.

End Validator.

(* ------------------------------------------------------------------ *)
(** ** Minimum sample count *)

Module MinimumCount.

Import Validator.

Lemma hr_eight_processed : process_healthkit_heart_rate hr_eight = Ok hr_eight.
Proof.
  unfold process_healthkit_heart_rate, hr_eight at 1.
  rewrite validate_hr_keeps_all.
  - reflexivity.
  - repeat constructor; unfold hr_plausible; simpl; lra.
Qed.

Lemma hrv_single_processed : process_healthkit_hrv_data hrv_single = Ok hrv_single.
Proof.
  unfold process_healthkit_hrv_data, hrv_single at 1.
  rewrite validate_hrv_keeps_all.
  - reflexivity.
  - repeat constructor; unfold hrv_plausible; simpl; lra.
Qed.

(** C2, as stated, fails: with eight heart-rate samples in the window the
    pipeline raises a [ValueError] whose message carries the window
    length (24) and the observed count (8); the required minimum (10)
    does not occur in it.  No predictor call is made. *)
Lemma insufficient_error_omits_required_minimum :
  run (pipeline (Some constant_predictor) hr_eight hrv_single 24)
  = (Raise (ValueError "Insufficient heart rate data in 24h window: 8 samples"),
     [])
  /\ contains "8" "Insufficient heart rate data in 24h window: 8 samples" = true
  /\ contains "10" "Insufficient heart rate data in 24h window: 8 samples" = false.
Proof.
  repeat split.
  unfold run, pipeline, bind.
  rewrite hr_eight_processed, hrv_single_processed. reflexivity.
Qed.

(** C2 (amended): whenever both raw lists pass ingestion, the
    subtraction of line 171 returns a window start and the heart-rate
    window holds [n < 10] samples, the pipeline raises the [ValueError]
    "Insufficient heart rate data in {hours}h window: {n} samples", which
    carries the window length and the observed count, and the predictor
    receives no call. *)
Theorem insufficient_data_raises_before_inference
    (model : option Predictor)
    (hr_data hr_df : list HeartRateSample)
    (hrv_data hrv_df : list HrvSample) (hours : Z) (start : option Z) :
  process_healthkit_heart_rate hr_data = Ok hr_df ->
  process_healthkit_hrv_data hrv_data = Ok hrv_df ->
  start_time hr_df hrv_df hours = Ok start ->
  (length (hr_window hr_df hrv_df hours) < 10)%nat ->
  hr_window hr_df hrv_df hours = window hr_df start (latest_time hr_df hrv_df)
  /\ extract_features hr_df hrv_df hours
     = Raise (ValueError
                (insufficient_message hours (length (hr_window hr_df hrv_df hours))))
  /\ run (pipeline model hr_data hrv_data hours)
     = (Raise (ValueError
                 (insufficient_message hours
                    (length (hr_window hr_df hrv_df hours)))),
        []).
Proof.
  intros Hhr Hhrv Hs Hlt.
  destruct (Extraction.windows_after_start _ _ _ _ Hs) as [Hw _].
  pose proof (Extraction.extract_features_insufficient hr_df hrv_df hours start
                Hs Hlt) as He.
  split; [exact Hw|]. split; [exact He|].
  unfold run, pipeline, bind. rewrite Hhr, Hhrv. simpl lift.
  unfold ret at 1 2. rewrite He. reflexivity.
Qed.

Lemma insufficient_data_witness :
  process_healthkit_heart_rate hr_eight = Ok hr_eight
  /\ process_healthkit_hrv_data hrv_single = Ok hrv_single
  /\ start_time hr_eight hrv_single 24 = Ok (Some (- 1433 * minute)%Z)
  /\ (length (hr_window hr_eight hrv_single 24) < 10)%nat
  /\ run (pipeline (Some constant_predictor) hr_eight hrv_single 24)
     = (Raise (ValueError (insufficient_message 24 8)), []).
Proof.
  assert (H3 : start_time hr_eight hrv_single 24 = Ok (Some (- 1433 * minute)%Z))
    by reflexivity.
  assert (H4 : (length (hr_window hr_eight hrv_single 24) < 10)%nat)
    by (simpl; lia).
  split; [apply hr_eight_processed|]. split; [apply hrv_single_processed|].
  split; [exact H3|]. split; [exact H4|].
  exact (proj2 (proj2 (insufficient_data_raises_before_inference
                  (Some constant_predictor) hr_eight hr_eight
                  hrv_single hrv_single 24%Z (Some (- 1433 * minute)%Z)
                  hr_eight_processed hrv_single_processed H3 H4))).
Defined.

End MinimumCount.

(* ------------------------------------------------------------------ *)
(** ** QualityScorer *)

Module Quality.

Import Validator.

(** The coefficient of variation computed at line 349. *)
Definition coefficient_of_variation (hr_df : list HeartRateSample) : quotient :=
  np_div (std (map value hr_df)) (mean (map value hr_df)).

(** The order of float64 on quotients; [nan] is unordered. *)
Definition quotient_le (q1 q2 : quotient) : Prop :=
  match q1, q2 with
  | NotANumber, _ | _, NotANumber => False
  | MinusInf, _ => True
  | _, PlusInf => True
  | Finite a, Finite b => a <= b
  | _, _ => False
  end.

(** The score as a function of the three quantities it reads. *)
Definition score_of (n_hr n_hrv : nat) (cv : quotient) : R :=
  let score := 0 in
  let score :=
    if (50 <=? n_hr)%nat then score + 0.4
    else if (20 <=? n_hr)%nat then score + 0.2
    else score in
  let score :=
    if (5 <=? n_hrv)%nat then score + 0.3
    else if (1 <=? n_hrv)%nat then score + 0.1
    else score in
  let score :=
    if (1 <? n_hr)%nat then
      if quotient_ltb cv 0.3 then score + 0.3
      else if quotient_ltb cv 0.5 then score + 0.1
      else score
    else score in
  py_min 1 score.

Lemma score_factors (hr_df : list HeartRateSample) (hrv_df : list HrvSample) :
  _calculate_data_quality_score hr_df hrv_df
  = score_of (length hr_df) (length hrv_df) (coefficient_of_variation hr_df).
Proof. reflexivity. Qed.

Lemma quotient_ltb_antitone (q1 q2 : quotient) (c : R) :
  quotient_le q1 q2 -> quotient_ltb q2 c = true -> quotient_ltb q1 c = true.
Proof.
  destruct q1, q2; simpl; try tauto; try discriminate.
  intros Hle Hlt. apply Rltb_true in Hlt. apply Rltb_true. lra.
Qed.

Ltac split_counts :=
  repeat match goal with
         | |- context [(?a <=? ?b)%nat] => destruct (Nat.leb_spec a b); try lia
         | |- context [(?a <? ?b)%nat] => destruct (Nat.ltb_spec a b); try lia
         end.

Ltac finish_score :=
  unfold py_min, Rltb;
  repeat match goal with
         | |- context [Rlt_dec ?a ?b] => destruct (Rlt_dec a b)
         end;
  lra.

Lemma score_of_bounds (n m : nat) (cv : quotient) : 0 <= score_of n m cv <= 1.
Proof.
  unfold score_of. split_counts;
    destruct (quotient_ltb cv 0.3); destruct (quotient_ltb cv 0.5);
    finish_score.
Qed.

Lemma score_of_monotone_in_count (n1 n2 m : nat) (cv : quotient) :
  (n1 <= n2)%nat -> score_of n1 m cv <= score_of n2 m cv.
Proof.
  intros Hn. unfold score_of. split_counts;
    destruct (quotient_ltb cv 0.3); destruct (quotient_ltb cv 0.5);
    finish_score.
Qed.

Lemma score_of_antitone_in_cv (n m : nat) (cv1 cv2 : quotient) :
  quotient_le cv1 cv2 -> score_of n m cv2 <= score_of n m cv1.
Proof.
  intros Hq.
  pose proof (quotient_ltb_antitone cv1 cv2 0.3 Hq) as H3.
  pose proof (quotient_ltb_antitone cv1 cv2 0.5 Hq) as H5.
  unfold score_of. split_counts;
    destruct (quotient_ltb cv2 0.3); destruct (quotient_ltb cv2 0.5);
    try rewrite (H3 eq_refl); try rewrite (H5 eq_refl);
    destruct (quotient_ltb cv1 0.3); destruct (quotient_ltb cv1 0.5);
    finish_score.
Qed.

(** With at most one heart-rate sample the stability term is skipped,
    whatever the quotient. *)
Lemma score_of_ignores_cv (n m : nat) (cv cv' : quotient) :
  (n <= 1)%nat -> score_of n m cv = score_of n m cv'.
Proof. intros Hn. unfold score_of. split_counts; reflexivity. Qed.

(** C3: the data-quality score lies in [[0,1]]; with the HRV window and
    the coefficient of variation unchanged, more heart-rate samples never
    lower it; with both counts unchanged, a lower coefficient of
    variation never lowers it. *)
Theorem quality_score_bounded_and_monotone :
  (forall hr_df hrv_df,
      0 <= _calculate_data_quality_score hr_df hrv_df <= 1)
  /\ (forall hr1 hr2 hrv_df,
      (length hr1 <= length hr2)%nat ->
      ((1 < length hr1)%nat ->
       coefficient_of_variation hr1 = coefficient_of_variation hr2) ->
      _calculate_data_quality_score hr1 hrv_df
      <= _calculate_data_quality_score hr2 hrv_df)
  /\ (forall hr1 hr2 hrv_df,
      length hr1 = length hr2 ->
      quotient_le (coefficient_of_variation hr1) (coefficient_of_variation hr2) ->
      _calculate_data_quality_score hr2 hrv_df
      <= _calculate_data_quality_score hr1 hrv_df).
Proof.
  repeat split.
  - rewrite score_factors. apply score_of_bounds.
  - rewrite score_factors. apply score_of_bounds.
  - intros hr1 hr2 hrv_df Hlen Hcv. rewrite !score_factors.
    destruct (Nat.ltb_spec 1 (length hr1)) as [Hgt | Hle].
    + rewrite (Hcv Hgt). now apply score_of_monotone_in_count.
    + rewrite (score_of_ignores_cv _ _ _ (coefficient_of_variation hr2) Hle).
      now apply score_of_monotone_in_count.
  - intros hr1 hr2 hrv_df Hlen Hcv. rewrite !score_factors, Hlen.
    now apply score_of_antitone_in_cv.
Qed.

(** *** Frames of constant rate *)

Lemma sum_repeat (c : R) (n : nat) : sum (repeat c n) = INR n * c.
Proof.
  induction n as [|n IH]; [simpl; lra|].
  change (sum (repeat c (S n))) with (c + sum (repeat c n)).
  rewrite IH, S_INR. lra.
Qed.

Lemma mean_repeat (c : R) (n : nat) : (0 < n)%nat -> mean (repeat c n) = c.
Proof.
  intros Hn. unfold mean. rewrite sum_repeat, repeat_length.
  assert (0 < INR n) by now apply lt_0_INR.
  field. lra.
Qed.

Lemma sum_zero (l : list R) : Forall (fun x => x = 0) l -> sum l = 0.
Proof. induction 1 as [|x l Hx _ IH]; simpl; lra. Qed.

Lemma std_repeat (c : R) (n : nat) : (0 < n)%nat -> std (repeat c n) = 0.
Proof.
  intros Hn. unfold std. rewrite (mean_repeat c n Hn), sum_zero.
  - unfold Rdiv. rewrite Rmult_0_l. apply sqrt_0.
  - apply Forall_map, Forall_forall. intros x Hx.
    apply repeat_spec in Hx. subst. lra.
Qed.

Lemma steady_values (n : nat) (c : R) : map value (steady n c) = repeat c n.
Proof.
  unfold steady. rewrite map_map. simpl.
  generalize 0%nat. induction n as [|n IH]; intros k; simpl; [reflexivity|].
  now rewrite IH.
Qed.

Lemma steady_length (n : nat) (c : R) : length (steady n c) = n.
Proof. unfold steady. now rewrite length_map, length_seq. Qed.

Lemma np_div_finite (x y : R) : y <> 0 -> np_div x y = Finite (x / y).
Proof. intros Hy. unfold np_div. destruct (Req_dec_T y 0); congruence. Qed.

Lemma steady_cv (n : nat) (c : R) :
  (0 < n)%nat -> c <> 0 -> coefficient_of_variation (steady n c) = Finite 0.
Proof.
  intros Hn Hc. unfold coefficient_of_variation.
  rewrite steady_values, std_repeat, mean_repeat by assumption.
  rewrite np_div_finite by assumption. f_equal. unfold Rdiv. apply Rmult_0_l.
Qed.

(** The scenario of the specification: sixty readings at a constant 68
    and at least five HRV samples score exactly 1. *)
Lemma steady_sixty_scores_one (hrv_df : list HrvSample) :
  (5 <= length hrv_df)%nat ->
  _calculate_data_quality_score (steady 60 68) hrv_df = 1.
Proof.
  intros Hm. rewrite score_factors, steady_length, steady_cv by (lia || lra).
  unfold score_of. split_counts.
  assert (Hlt : quotient_ltb (Finite 0) 0.3 = true) by (apply Rltb_true; lra).
  rewrite Hlt. finish_score.
Qed.

Lemma hr_varied_cv :
  coefficient_of_variation hr_varied
  = Finite (std (map value hr_varied) / 70).
Proof.
  unfold coefficient_of_variation.
  assert (Hm : mean (map value hr_varied) = 70) by (unfold mean; simpl; lra).
  rewrite Hm. apply np_div_finite. lra.
Qed.

Lemma quality_score_witness :
  (length (steady 2 72) <= length (steady 3 72))%nat
  /\ ((1 < length (steady 2 72))%nat ->
      coefficient_of_variation (steady 2 72) = coefficient_of_variation (steady 3 72))
  /\ _calculate_data_quality_score (steady 2 72) hrv_single
     <= _calculate_data_quality_score (steady 3 72) hrv_single
  /\ length (steady 2 72) = length hr_varied
  /\ quotient_le (coefficient_of_variation (steady 2 72))
                 (coefficient_of_variation hr_varied)
  /\ _calculate_data_quality_score hr_varied hrv_single
     <= _calculate_data_quality_score (steady 2 72) hrv_single.
Proof.
  assert (H1 : (length (steady 2 72) <= length (steady 3 72))%nat)
    by (rewrite !steady_length; lia).
  assert (H2 : (1 < length (steady 2 72))%nat ->
               coefficient_of_variation (steady 2 72)
               = coefficient_of_variation (steady 3 72))
    by (intros _; rewrite !steady_cv by (lia || lra); reflexivity).
  assert (H3 : length (steady 2 72) = length hr_varied) by reflexivity.
  assert (H4 : quotient_le (coefficient_of_variation (steady 2 72))
                           (coefficient_of_variation hr_varied)).
  { rewrite steady_cv by (lia || lra). rewrite hr_varied_cv. simpl.
    apply Rmult_le_pos; [apply sqrt_pos | lra]. }
  destruct quality_score_bounded_and_monotone as (_ & Hcount & Hcv).
  repeat split; try assumption.
  - exact (Hcount (steady 2 72) (steady 3 72) hrv_single H1 H2).
  - exact (Hcv (steady 2 72) hr_varied hrv_single H3 H4).
Defined.

(** *** Safety of the division *)

Lemma sum_lower_bound (c : R) (l : list R) :
  Forall (fun x => c <= x) l -> c * INR (length l) <= sum l.
Proof.
  induction 1 as [|x l Hx _ IH].
  - simpl. lra.
  - change (sum (x :: l)) with (x + sum l).
    change (length (x :: l)) with (S (length l)). rewrite S_INR. lra.
Qed.

Lemma mean_lower_bound (c : R) (l : list R) :
  l <> [] -> Forall (fun x => c <= x) l -> c <= mean l.
Proof.
  intros Hne Hall.
  assert (Hn : 0 < INR (length l)).
  { apply lt_0_INR. destruct l; [congruence | simpl; lia]. }
  pose proof (sum_lower_bound c l Hall) as Hs.
  unfold mean. apply Rmult_le_reg_r with (INR (length l)); [exact Hn|].
  unfold Rdiv. rewrite Rmult_assoc, Rinv_l, Rmult_1_r; lra.
Qed.

(** C8: when the scorer is reached through the pipeline, that is, when
    extraction of an ingested heart-rate frame returns a row, the window
    handed to the scorer at line 208 holds at least ten readings, all in
    [[30, 250]]; so the guard [len(hr_df) > 1] holds, the mean is at
    least 30, the numpy division [std / mean] of line 349 is an ordinary
    finite quotient, and the score stored in the row is the one computed
    from that quotient. *)
Theorem cv_division_is_safe
    (hr_data hr_df : list HeartRateSample) (hrv_df : list HrvSample)
    (hours : Z) (rows : list FeatureRow) :
  process_healthkit_heart_rate hr_data = Ok hr_df ->
  extract_features hr_df hrv_df hours = Ok rows ->
  exists start row,
    start_time hr_df hrv_df hours = Ok start
    /\ rows = [row]
    /\ hr_window hr_df hrv_df hours = window hr_df start (latest_time hr_df hrv_df)
    /\ hrv_window hr_df hrv_df hours = window hrv_df start (latest_time hr_df hrv_df)
    /\ data_quality_score row
       = _calculate_data_quality_score (hr_window hr_df hrv_df hours)
                                       (hrv_window hr_df hrv_df hours)
    /\ (10 <= length (hr_window hr_df hrv_df hours))%nat
    /\ Forall hr_plausible (hr_window hr_df hrv_df hours)
    /\ (1 <? length (hr_window hr_df hrv_df hours))%nat = true
    /\ 30 <= mean (map value (hr_window hr_df hrv_df hours))
    /\ mean (map value (hr_window hr_df hrv_df hours)) <> 0
    /\ np_div (std (map value (hr_window hr_df hrv_df hours)))
              (mean (map value (hr_window hr_df hrv_df hours)))
       = Finite (std (map value (hr_window hr_df hrv_df hours))
                 / mean (map value (hr_window hr_df hrv_df hours)))
    /\ data_quality_score row
       = py_min 1
           (0
            + (if (50 <=? length (hr_window hr_df hrv_df hours))%nat then 0.4
               else if (20 <=? length (hr_window hr_df hrv_df hours))%nat then 0.2
               else 0)
            + (if (5 <=? length (hrv_window hr_df hrv_df hours))%nat then 0.3
               else if (1 <=? length (hrv_window hr_df hrv_df hours))%nat then 0.1
               else 0)
            + (if Rltb (std (map value (hr_window hr_df hrv_df hours))
                        / mean (map value (hr_window hr_df hrv_df hours))) 0.3
               then 0.3
               else if Rltb (std (map value (hr_window hr_df hrv_df hours))
                             / mean (map value (hr_window hr_df hrv_df hours))) 0.5
               then 0.1
               else 0)).
Proof.
  intros Hp Hrows.
  destruct (Extraction.extract_features_ok _ _ _ _ Hrows) as [[start Hs] Hlen].
  destruct (Extraction.windows_after_start _ _ _ _ Hs) as [Hw1 Hw2].
  destruct (Extraction.extract_features_sufficient hr_df hrv_df hours Hlen)
    as (row & Hrow & _ & _ & _ & Hq & _).
  assert (Heq : rows = [row]) by congruence.
  assert (Hall : Forall hr_plausible (hr_window hr_df hrv_df hours)).
  { pose proof (process_hr_plausible _ _ Hp) as Hdf.
    rewrite Forall_forall in *. intros s Hin.
    apply Hdf. eapply window_incl. exact Hin. }
  assert (Hmean : 30 <= mean (map value (hr_window hr_df hrv_df hours))).
  { apply mean_lower_bound.
    - destruct (hr_window hr_df hrv_df hours); [simpl in Hlen; lia | discriminate].
    - apply Forall_map. eapply Forall_impl; [|exact Hall].
      intros s Hin. apply Hin. }
  assert (Hnz : mean (map value (hr_window hr_df hrv_df hours)) <> 0) by lra.
  assert (Hguard : (1 <? length (hr_window hr_df hrv_df hours))%nat = true)
    by (apply Nat.ltb_lt; lia).
  assert (Hdiv : np_div (std (map value (hr_window hr_df hrv_df hours)))
                        (mean (map value (hr_window hr_df hrv_df hours)))
                 = Finite (std (map value (hr_window hr_df hrv_df hours))
                           / mean (map value (hr_window hr_df hrv_df hours))))
    by now apply np_div_finite.
  exists start, row.
  split; [exact Hs|]. split; [exact Heq|]. split; [exact Hw1|].
  split; [exact Hw2|]. split; [exact Hq|]. split; [exact Hlen|].
  split; [exact Hall|]. split; [exact Hguard|]. split; [exact Hmean|].
  split; [exact Hnz|]. split; [exact Hdiv|].
  rewrite Hq. unfold _calculate_data_quality_score.
  rewrite Hguard, Hdiv. cbn [quotient_ltb]. f_equal.
  destruct (50 <=? length (hr_window hr_df hrv_df hours))%nat;
    destruct (20 <=? length (hr_window hr_df hrv_df hours))%nat;
    destruct (5 <=? length (hrv_window hr_df hrv_df hours))%nat;
    destruct (1 <=? length (hrv_window hr_df hrv_df hours))%nat;
    destruct (Rltb (std (map value (hr_window hr_df hrv_df hours))
                    / mean (map value (hr_window hr_df hrv_df hours))) 0.3);
    destruct (Rltb (std (map value (hr_window hr_df hrv_df hours))
                    / mean (map value (hr_window hr_df hrv_df hours))) 0.5);
    lra.
Qed.

Lemma steady_ten_processed :
  process_healthkit_heart_rate (steady 10 72) = Ok (steady 10 72).
Proof.
  change (process_healthkit_heart_rate (steady 10 72))
    with (Ok (A := list HeartRateSample)
            (sort_values (_validate_heart_rate_data (steady 10 72)))).
  rewrite validate_hr_keeps_all.
  - reflexivity.
  - repeat constructor; unfold hr_plausible; simpl; lra.
Qed.

Lemma steady_ten_window :
  hr_window (steady 10 72) hrv_single 24 = steady 10 72
  /\ hrv_window (steady 10 72) hrv_single 24 = hrv_single.
Proof. split; reflexivity. Qed.

Lemma steady_ten_extracted :
  exists row, extract_features (steady 10 72) hrv_single 24 = Ok [row].
Proof.
  destruct (Extraction.extract_features_sufficient (steady 10 72) hrv_single 24)
    as (row & Hrow & _).
  - rewrite (proj1 steady_ten_window), steady_length. lia.
  - now exists row.
Qed.

Lemma cv_division_witness :
  exists row,
    process_healthkit_heart_rate (steady 10 72) = Ok (steady 10 72)
    /\ extract_features (steady 10 72) hrv_single 24 = Ok [row]
    /\ (1 <? length (hr_window (steady 10 72) hrv_single 24))%nat = true
    /\ 30 <= mean (map value (hr_window (steady 10 72) hrv_single 24))
    /\ np_div (std (map value (hr_window (steady 10 72) hrv_single 24)))
              (mean (map value (hr_window (steady 10 72) hrv_single 24)))
       = Finite (std (map value (hr_window (steady 10 72) hrv_single 24))
                 / mean (map value (hr_window (steady 10 72) hrv_single 24)))
    /\ data_quality_score row = 0.4.
Proof.
  destruct steady_ten_extracted as [row Hrow].
  exists row.
  destruct (cv_division_is_safe (steady 10 72) (steady 10 72) hrv_single 24%Z
              [row] steady_ten_processed Hrow)
    as (start & row' & _ & Heq & _ & _ & _ & _ & _ & Hguard & Hmean & _ & Hcv
        & Hscore).
  injection Heq as <-.
  split; [apply steady_ten_processed|]. split; [exact Hrow|].
  split; [exact Hguard|]. split; [exact Hmean|]. split; [exact Hcv|].
  rewrite Hscore.
  rewrite (proj1 steady_ten_window), (proj2 steady_ten_window).
  rewrite steady_length, steady_values.
  rewrite std_repeat, mean_repeat by lia.
  cbn [length hrv_single Nat.leb].
  rewrite (proj2 (Rltb_true (0 / 72) 0.3)) by lra.
  unfold py_min, Rltb. destruct (Rlt_dec (0 + 0 + 0.1 + 0.3) 1); lra.
Defined.

End Quality.

(* ------------------------------------------------------------------ *)
(** ** The two estimators of pNN50 *)

Module Estimators.

Import Validator.

(** The RMSSD rows of the HRV window (line 194). *)
Definition rmssd_data (heart_rate_df : list HeartRateSample)
    (hrv_df : list HrvSample) (hours : Z) : list HrvSample :=
  filter (fun s => String.eqb (hrv_type s) "RMSSD")
         (hrv_window heart_rate_df hrv_df hours).

(** [min(hi, max(0.0, v))]. *)
Definition clamp (hi v : R) : R := py_min hi (py_max 0 v).

Ltac clamp_cases v :=
  unfold clamp, py_min, py_max, Rltb;
  destruct (Rlt_dec 0 v);
  repeat match goal with
         | |- context [Rlt_dec ?a ?b] => destruct (Rlt_dec a b)
         end;
  try lra.

Lemma clamp_bounds (hi v : R) : 0 <= hi -> 0 <= clamp hi v <= hi.
Proof.
  intros Hhi. clamp_cases v.
Qed.

Lemma clamp_monotone (hi u v : R) : u <= v -> clamp hi u <= clamp hi v.
Proof.
  intros Huv. clamp_cases u; clamp_cases v.
Qed.

Lemma clamp_saturated (hi v : R) : 0 <= hi -> hi <= v -> clamp hi v = hi.
Proof.
  intros Hhi Hv. clamp_cases v.
Qed.

Lemma clamp_inside (hi v : R) : 0 <= v <= hi -> clamp hi v = v.
Proof.
  intros Hv. clamp_cases v.
Qed.

Lemma clamp_floor (hi v : R) : 0 <= hi -> v <= 0 -> clamp hi v = 0.
Proof.
  intros Hhi Hv. clamp_cases v.
Qed.

(** Estimator A on its three regions. *)
Lemma rmssd_estimate_positive (x : R) :
  0 < x -> _estimate_pnn50_from_rmssd x = clamp 0.6 (Rpower (x / 150) 1.5).
Proof.
  intros Hx. unfold _estimate_pnn50_from_rmssd, np_power.
  assert (Hq : 0 < x / 150) by lra.
  rewrite (proj2 (Rltb_false (x / 150) 0)) by lra.
  rewrite (proj2 (Rltb_true 0 (x / 150)) Hq).
  reflexivity.
Qed.

Lemma rmssd_estimate_nonpositive (x : R) :
  x <= 0 -> _estimate_pnn50_from_rmssd x = 0.
Proof.
  intros Hx. unfold _estimate_pnn50_from_rmssd, np_power.
  destruct (Rltb (x / 150) 0) eqn:Hneg; simpl.
  - unfold py_min, Rltb. destruct (Rlt_dec 0 0.6); [reflexivity | lra].
  - apply Rltb_false in Hneg.
    destruct (Rltb 0 (x / 150)) eqn:Hpos.
    + apply Rltb_true in Hpos. lra.
    + change (clamp 0.6 0 = 0). apply clamp_floor; lra.
Qed.

Lemma rmssd_estimate_bounds (x : R) : 0 <= _estimate_pnn50_from_rmssd x <= 0.6.
Proof.
  destruct (Rlt_dec 0 x) as [Hx | Hx].
  - rewrite rmssd_estimate_positive by assumption. apply clamp_bounds. lra.
  - rewrite rmssd_estimate_nonpositive by lra. lra.
Qed.

Lemma rmssd_estimate_monotone (x y : R) :
  x <= y -> _estimate_pnn50_from_rmssd x <= _estimate_pnn50_from_rmssd y.
Proof.
  intros Hxy.
  destruct (Rlt_dec 0 x) as [Hx | Hx].
  - rewrite !rmssd_estimate_positive by lra.
    apply clamp_monotone, Rle_Rpower_l; lra.
  - rewrite (rmssd_estimate_nonpositive x) by lra.
    apply rmssd_estimate_bounds.
Qed.

Lemma Rpower_one_base (y : R) : Rpower 1 y = 1.
Proof. unfold Rpower. now rewrite ln_1, Rmult_0_r, exp_0. Qed.

Lemma rmssd_estimate_saturates (x : R) :
  150 <= x -> _estimate_pnn50_from_rmssd x = 0.6.
Proof.
  intros Hx. rewrite rmssd_estimate_positive by lra.
  apply clamp_saturated; [lra|].
  assert (H1 : Rpower 1 1.5 <= Rpower (x / 150) 1.5)
    by (apply Rle_Rpower_l; lra).
  rewrite Rpower_one_base in H1. lra.
Qed.

(** Estimator B. *)
Lemma hr_std_estimate_clamp (s : R) :
  _estimate_pnn50_from_hr_std s = clamp 0.4 (s / 50).
Proof. reflexivity. Qed.

(** C6: when extraction returns a row, its [pnn50] comes from estimator
    A applied to the mean of the RMSSD values if the HRV window holds an
    RMSSD sample, and from estimator B applied to the heart-rate standard
    deviation otherwise.  Estimator A is non-decreasing, takes values in
    [[0, 0.6]], follows [(x / 150) ** 1.5] below the cap and saturates at
    0.6; estimator B is non-decreasing, takes values in [[0, 0.4]],
    follows [x / 50] below the cap and saturates at 0.4. *)
Theorem pnn50_estimator_selection
    (hr_df : list HeartRateSample) (hrv_df : list HrvSample) (hours : Z)
    (rows : list FeatureRow) :
  extract_features hr_df hrv_df hours = Ok rows ->
  (exists row,
      rows = [row]
      /\ ((exists s, In s (hrv_window hr_df hrv_df hours) /\ hrv_type s = "RMSSD") ->
          pnn50 row
          = _estimate_pnn50_from_rmssd
              (mean (map value (rmssd_data hr_df hrv_df hours)))
          /\ 0 <= pnn50 row <= 0.6)
      /\ ((forall s, In s (hrv_window hr_df hrv_df hours) -> hrv_type s <> "RMSSD") ->
          pnn50 row = _estimate_pnn50_from_hr_std (std_heart_rate row)
          /\ std_heart_rate row = std (map value (hr_window hr_df hrv_df hours))
          /\ 0 <= pnn50 row <= 0.4))
  /\ (forall x, 0 <= _estimate_pnn50_from_rmssd x <= 0.6)
  /\ (forall x y, x <= y ->
                  _estimate_pnn50_from_rmssd x <= _estimate_pnn50_from_rmssd y)
  /\ (forall x, 150 <= x -> _estimate_pnn50_from_rmssd x = 0.6)
  /\ (forall x, 0 < x -> Rpower (x / 150) 1.5 <= 0.6 ->
                 _estimate_pnn50_from_rmssd x = Rpower (x / 150) 1.5)
  /\ (forall x, 0 <= _estimate_pnn50_from_hr_std x <= 0.4)
  /\ (forall x y, x <= y ->
                  _estimate_pnn50_from_hr_std x <= _estimate_pnn50_from_hr_std y)
  /\ (forall x, 20 <= x -> _estimate_pnn50_from_hr_std x = 0.4)
  /\ (forall x, 0 <= x <= 20 -> _estimate_pnn50_from_hr_std x = x / 50).
Proof.
  intros Hrows.
  split; [|split; [|split; [|split; [|split; [|split; [|split; [|split]]]]]]].
  - destruct (Extraction.extract_features_ok _ _ _ _ Hrows) as [_ Hlen].
    destruct (Extraction.extract_features_sufficient hr_df hrv_df hours Hlen)
      as (row & Hrow & _ & _ & Hstd & _).
    assert (Heq : rows = [row]) by congruence.
    pose proof (Extraction.extract_features_pnn50 _ _ _ _ Hrow) as Hp.
    fold (rmssd_data hr_df hrv_df hours) in Hp.
    exists row. split; [exact Heq|]. split.
    + intros (s & Hin & Hty).
      assert (Hs : In s (rmssd_data hr_df hrv_df hours)).
      { apply filter_In. split; [exact Hin | now apply String.eqb_eq]. }
      destruct (rmssd_data hr_df hrv_df hours) as [|v l] eqn:Hr; [contradiction|].
      cbn [length Nat.ltb Nat.leb] in Hp. rewrite Hp.
      split; [reflexivity | apply rmssd_estimate_bounds].
    + intros Hnone.
      assert (Hr : rmssd_data hr_df hrv_df hours = []).
      { apply filter_none. apply Forall_forall. intros s Hs Ht.
        apply String.eqb_eq in Ht. exact (Hnone s Hs Ht). }
      rewrite Hr in Hp. cbn [length Nat.ltb Nat.leb] in Hp. rewrite Hp, Hstd.
      split; [reflexivity | split; [reflexivity|]].
      rewrite hr_std_estimate_clamp. apply clamp_bounds. lra.
  - apply rmssd_estimate_bounds.
  - apply rmssd_estimate_monotone.
  - apply rmssd_estimate_saturates.
  - intros x Hx Hp. rewrite rmssd_estimate_positive by assumption.
    apply clamp_inside. split; [|exact Hp].
    unfold Rpower. left. apply exp_pos.
  - intros x. rewrite hr_std_estimate_clamp. apply clamp_bounds. lra.
  - intros x y Hxy. rewrite !hr_std_estimate_clamp. apply clamp_monotone. lra.
  - intros x Hx. rewrite hr_std_estimate_clamp. apply clamp_saturated; lra.
  - intros x Hx. rewrite hr_std_estimate_clamp. apply clamp_inside. lra.
Qed.

Lemma steady_ten_window_sdnn :
  hr_window (steady 10 72) hrv_late 24 = steady 10 72
  /\ hrv_window (steady 10 72) hrv_late 24 = hrv_late.
Proof. split; reflexivity. Qed.

Lemma pnn50_estimator_witness :
  (exists row,
      extract_features (steady 10 72) hrv_single 24 = Ok [row]
      /\ pnn50 row
         = _estimate_pnn50_from_rmssd
             (mean (map value (rmssd_data (steady 10 72) hrv_single 24)))
      /\ 0 <= pnn50 row <= 0.6)
  /\ (exists row,
      extract_features (steady 10 72) hrv_late 24 = Ok [row]
      /\ pnn50 row = _estimate_pnn50_from_hr_std (std_heart_rate row)
      /\ 0 <= pnn50 row <= 0.4).
Proof.
  split.
  - destruct (Extraction.extract_features_sufficient
                (steady 10 72) hrv_single 24%Z) as (row & Hrow & _).
    { rewrite (proj1 Quality.steady_ten_window), Quality.steady_length. lia. }
    destruct (pnn50_estimator_selection _ _ _ _ Hrow)
      as ((row' & Heq & HA & _) & _).
    injection Heq as <-. exists row. split; [exact Hrow|].
    apply HA. rewrite (proj2 Quality.steady_ten_window).
    eexists. split; [left; reflexivity | reflexivity].
  - destruct (Extraction.extract_features_sufficient
                (steady 10 72) hrv_late 24%Z) as (row & Hrow & _).
    { rewrite (proj1 steady_ten_window_sdnn), Quality.steady_length. lia. }
    destruct (pnn50_estimator_selection _ _ _ _ Hrow)
      as ((row' & Heq & _ & HB) & _).
    injection Heq as <-. exists row. split; [exact Hrow|].
    destruct HB as (Hp & _ & Hb); [|now split].
    rewrite (proj2 steady_ten_window_sdnn).
    intros s [<- | []]. discriminate.
Defined.

End Estimators.

(* ------------------------------------------------------------------ *)
(** ** Reporter *)

Module Reporter.

(** The four interpretation templates, as functions of the rendered
    mean rate. *)
Definition high_confidence_normal (rate : string) : string :=
  "High confidence normal rhythm detected. Heart rate "
  ++ rate ++ " BPM within normal range.".

Definition likely_normal (rate : string) : string :=
  "Likely normal rhythm, but consider additional monitoring. Heart rate "
  ++ rate ++ " BPM.".

Definition high_confidence_irregular (rate : string) : string :=
  "High confidence irregular rhythm detected. Heart rate "
  ++ rate ++ " BPM. Recommend medical evaluation.".

Definition possible_irregular (rate : string) : string :=
  "Possible irregular rhythm detected. Heart rate "
  ++ rate ++ " BPM. Consider further assessment.".

(** The template the specification's rule selects: high confidence
    means [confidence >= 0.8]. *)
Definition interpretation_by_weak_threshold (result : ResultRow) : string :=
  let rate := format_0f (mean_heart_rate (features result)) in
  if String.eqb (rhythm_classification result) "Normal" then
    if Rleb 0.8 (confidence result) then high_confidence_normal rate
    else likely_normal rate
  else
    if Rleb 0.8 (confidence result) then high_confidence_irregular rate
    else possible_irregular rate.

Lemma templates_distinct (r1 r2 : string) :
  high_confidence_normal r1 <> likely_normal r2
  /\ high_confidence_normal r1 <> high_confidence_irregular r2
  /\ high_confidence_normal r1 <> possible_irregular r2
  /\ likely_normal r1 <> high_confidence_irregular r2
  /\ likely_normal r1 <> possible_irregular r2
  /\ high_confidence_irregular r1 <> possible_irregular r2.
Proof. repeat split; discriminate. Qed.

Lemma round_half_even_integer (n : Z) : round_half_even (IZR n) = n.
Proof.
  unfold round_half_even.
  assert (Hf : Zfloor (IZR n) = n) by (apply Zfloor_eq; lra).
  rewrite Hf.
  rewrite (proj2 (Rltb_true (IZR n - IZR n) (1 / 2))) by lra.
  reflexivity.
Qed.

Lemma format_0f_integer (n : Z) : (0 <= n)%Z -> format_0f (IZR n) = str_int n.
Proof.
  intros Hn. unfold format_0f.
  apply IZR_le in Hn.
  rewrite (proj2 (Rltb_false (IZR n) 0)) by lra.
  now rewrite round_half_even_integer.
Qed.

Definition some_features : FeatureRow :=
  {| timestamp := Some 0%Z;
     mean_heart_rate := 72;
     std_heart_rate := 5;
     pnn50 := 0.1;
     data_quality_score := 1;
     sample_count_hr := 60;
     sample_count_hrv := 5 |}.

(** A normal-rhythm result whose confidence is exactly 0.8. *)
Definition borderline_normal : ResultRow := result_row some_features 0 (0.8, 0.2).

(** An irregular-rhythm result of low confidence on poor data. *)
Definition doubtful_irregular : ResultRow :=
  result_row {| timestamp := Some 0%Z;
                mean_heart_rate := 95;
                std_heart_rate := 18.5;
                pnn50 := 0.37;
                data_quality_score := 0.3;
                sample_count_hr := 12;
                sample_count_hrv := 0 |}
             1 (0.4, 0.6).

Lemma borderline_normal_confidence : confidence borderline_normal = 0.8.
Proof. simpl. apply Rmax_left. lra. Qed.

Lemma doubtful_irregular_confidence : confidence doubtful_irregular = 0.6.
Proof. simpl. apply Rmax_right. lra. Qed.

(** C4, as stated, fails: at confidence exactly 0.8 the code selects the
    low-confidence template of the label, not the high-confidence one
    that the rule [confidence >= 0.8] selects. *)
Lemma confidence_exactly_threshold_is_low :
  confidence borderline_normal = 0.8
  /\ _generate_clinical_interpretation borderline_normal
     = "Likely normal rhythm, but consider additional monitoring. Heart rate 72 BPM."
  /\ interpretation_by_weak_threshold borderline_normal
     = "High confidence normal rhythm detected. Heart rate 72 BPM within normal range."
  /\ _generate_clinical_interpretation borderline_normal
     <> interpretation_by_weak_threshold borderline_normal.
Proof.
  assert (Hfmt : format_0f 72 = "72") by (apply (format_0f_integer 72); lia).
  assert (Hcode : _generate_clinical_interpretation borderline_normal
                  = likely_normal "72").
  { unfold _generate_clinical_interpretation.
    rewrite borderline_normal_confidence.
    rewrite (proj2 (Rltb_false 0.8 0.8)) by lra.
    cbn [rhythm_classification borderline_normal result_row features
         mean_heart_rate some_features Z.eqb String.eqb Ascii.eqb Bool.eqb].
    rewrite Hfmt. reflexivity. }
  assert (Hspec : interpretation_by_weak_threshold borderline_normal
                  = high_confidence_normal "72").
  { unfold interpretation_by_weak_threshold.
    rewrite borderline_normal_confidence.
    rewrite (proj2 (Rleb_true 0.8 0.8)) by lra.
    cbn [rhythm_classification borderline_normal result_row features
         mean_heart_rate some_features Z.eqb String.eqb Ascii.eqb Bool.eqb].
    rewrite Hfmt. reflexivity. }
  split; [apply borderline_normal_confidence|].
  split; [exact Hcode|]. split; [exact Hspec|].
  rewrite Hcode, Hspec. discriminate.
Qed.

(** C4 (amended): the interpretation is one of four fixed templates with
    the mean heart rate embedded, selected by the label (["Normal"] or
    not) and by whether the confidence is strictly above 0.8; a result
    with confidence exactly 0.8 gets the low-confidence template of its
    label. *)
Theorem interpretation_selects_on_label_and_strict_threshold
    (result : ResultRow) :
  (rhythm_classification result = "Normal" ->
   0.8 < confidence result ->
   _generate_clinical_interpretation result
   = high_confidence_normal (format_0f (mean_heart_rate (features result))))
  /\ (rhythm_classification result = "Normal" ->
      confidence result <= 0.8 ->
      _generate_clinical_interpretation result
      = likely_normal (format_0f (mean_heart_rate (features result))))
  /\ (rhythm_classification result <> "Normal" ->
      0.8 < confidence result ->
      _generate_clinical_interpretation result
      = high_confidence_irregular (format_0f (mean_heart_rate (features result))))
  /\ (rhythm_classification result <> "Normal" ->
      confidence result <= 0.8 ->
      _generate_clinical_interpretation result
      = possible_irregular (format_0f (mean_heart_rate (features result)))).
Proof.
  unfold _generate_clinical_interpretation.
  repeat split; intros Hlabel Hconf.
  - apply String.eqb_eq in Hlabel. apply Rltb_true in Hconf.
    now rewrite Hlabel, Hconf.
  - apply String.eqb_eq in Hlabel. apply Rltb_false in Hconf.
    now rewrite Hlabel, Hconf.
  - apply String.eqb_neq in Hlabel. apply Rltb_true in Hconf.
    now rewrite Hlabel, Hconf.
  - apply String.eqb_neq in Hlabel. apply Rltb_false in Hconf.
    now rewrite Hlabel, Hconf.
Qed.

Lemma interpretation_witness :
  rhythm_classification borderline_normal = "Normal"
  /\ confidence borderline_normal <= 0.8
  /\ _generate_clinical_interpretation borderline_normal
     = likely_normal (format_0f 72).
Proof.
  assert (H1 : rhythm_classification borderline_normal = "Normal") by reflexivity.
  assert (H2 : confidence borderline_normal <= 0.8)
    by (rewrite borderline_normal_confidence; lra).
  repeat split; try assumption.
  exact (proj1 (proj2 (interpretation_selects_on_label_and_strict_threshold
                         borderline_normal)) H1 H2).
Defined.

(** *** Recommendations *)

Definition follow_up_advice : list string :=
  [ "Consult with a healthcare provider about irregular rhythm detection";
    "Continue regular monitoring with Apple Watch" ].

Definition more_data_request : list string :=
  [ "Consider additional ECG recordings for confirmation" ].

Definition quality_tips : list string :=
  [ "Improve data quality by ensuring proper Apple Watch fit";
    "Take readings during rest periods for better accuracy" ].

Definition wellness_reminders : list string :=
  [ "Maintain regular physical activity as recommended by your doctor";
    "Continue monitoring trends over time" ].

Lemma recommendations_shape (result : ResultRow) :
  _generate_recommendations result
  = ((if String.eqb (rhythm_classification result) "Irregular"
      then follow_up_advice else [])
     ++ (if String.eqb (rhythm_classification result) "Irregular"
            && Rltb (confidence result) 0.7
         then more_data_request else [])
     ++ (if Rltb (data_quality_score (features result)) 0.5
         then quality_tips else [])
     ++ wellness_reminders)%list.
Proof.
  unfold _generate_recommendations.
  destruct (String.eqb (rhythm_classification result) "Irregular");
    destruct (Rltb (confidence result) 0.7);
    destruct (Rltb (data_quality_score (features result)) 0.5);
    reflexivity.
Qed.

(** C7: the recommendation list is the concatenation, in this order, of
    the follow-up advice (present exactly when the label is
    ["Irregular"]), the request for more data (present exactly when the
    label is ["Irregular"] and the confidence is below 0.7), the
    data-quality tips (present exactly when the quality score is below
    0.5) and the two wellness reminders (always present); the list is a
    function of the label, the confidence and the quality score alone. *)
Theorem recommendations_in_priority_order :
  (forall result,
      exists advice request tips,
        _generate_recommendations result
        = (advice ++ request ++ tips ++ wellness_reminders)%list
        /\ (rhythm_classification result = "Irregular" ->
            advice = follow_up_advice)
        /\ (rhythm_classification result <> "Irregular" -> advice = [])
        /\ (rhythm_classification result = "Irregular" ->
            confidence result < 0.7 -> request = more_data_request)
        /\ (rhythm_classification result <> "Irregular" -> request = [])
        /\ (0.7 <= confidence result -> request = [])
        /\ (data_quality_score (features result) < 0.5 -> tips = quality_tips)
        /\ (0.5 <= data_quality_score (features result) -> tips = []))
  /\ (forall r1 r2,
      rhythm_classification r1 = rhythm_classification r2 ->
      confidence r1 = confidence r2 ->
      data_quality_score (features r1) = data_quality_score (features r2) ->
      _generate_recommendations r1 = _generate_recommendations r2).
Proof.
  split.
  - intros result. do 3 eexists.
    split; [apply recommendations_shape|].
    destruct (String.eqb_spec (rhythm_classification result) "Irregular");
      destruct (Rlt_dec (confidence result) 0.7) as [Hc | Hc];
      destruct (Rlt_dec (data_quality_score (features result)) 0.5) as [Hq | Hq];
      unfold Rltb;
      try (destruct (Rlt_dec (confidence result) 0.7); [|contradiction]);
      try (destruct (Rlt_dec (confidence result) 0.7); [contradiction|]);
      try (destruct (Rlt_dec (data_quality_score (features result)) 0.5);
           [|contradiction]);
      try (destruct (Rlt_dec (data_quality_score (features result)) 0.5);
           [contradiction|]);
      simpl; repeat split; intros; try reflexivity; try contradiction; lra.
  - intros r1 r2 Hl Hc Hq. rewrite !recommendations_shape, Hl, Hc, Hq.
    reflexivity.
Qed.

Lemma recommendations_witness :
  rhythm_classification doubtful_irregular = "Irregular"
  /\ confidence doubtful_irregular < 0.7
  /\ data_quality_score (features doubtful_irregular) < 0.5
  /\ _generate_recommendations doubtful_irregular
     = (follow_up_advice ++ more_data_request ++ quality_tips
        ++ wellness_reminders)%list.
Proof.
  assert (H1 : rhythm_classification doubtful_irregular = "Irregular")
    by reflexivity.
  assert (H2 : confidence doubtful_irregular < 0.7)
    by (rewrite doubtful_irregular_confidence; lra).
  assert (H3 : data_quality_score (features doubtful_irregular) < 0.5)
    by (simpl; lra).
  repeat split; try assumption.
  destruct (proj1 recommendations_in_priority_order doubtful_irregular)
    as (advice & request & tips & Heq & Ha & _ & Hr & _ & _ & Ht & _).
  rewrite Heq, (Ha H1), (Hr H1 H2), (Ht H3). reflexivity.
Defined.

End Reporter.

(* ------------------------------------------------------------------ *)
(** ** Inference *)

Module Inference.

Import Validator.

(** The row that [predict_rhythm] builds from a feature row. *)
Definition classify (m : Predictor) (r : FeatureRow) : ResultRow :=
  result_row r (predict m (feature_columns r)) (predict_proba m (feature_columns r)).

Lemma combine_rows (m : Predictor) (features_df : list FeatureRow) :
  map (fun rpq => result_row (fst (fst rpq)) (snd (fst rpq)) (snd rpq))
      (combine (combine features_df
                        (map (predict m) (map feature_columns features_df)))
               (map (predict_proba m) (map feature_columns features_df)))
  = map (classify m) features_df.
Proof.
  induction features_df as [|r l IH]; simpl; [reflexivity|].
  now rewrite IH.
Qed.

(** With a loaded model, inference always returns, after exactly one
    [predict] and one [predict_proba] call on the feature matrix. *)
Lemma predict_rhythm_loaded (m : Predictor) (features_df : list FeatureRow)
    (tr : list call) :
  predict_rhythm (Some m) features_df tr
  = (Ok (map (classify m) features_df),
     (tr ++ [ CallPredict (map feature_columns features_df);
              CallPredictProba (map feature_columns features_df) ])%list).
Proof.
  unfold predict_rhythm, bind, call_predict, call_predict_proba, ret.
  rewrite combine_rows, <- app_assoc. reflexivity.
Qed.

Lemma report_confidence (results_df : list ResultRow) (report : Report) :
  generate_health_report results_df = Ok report ->
  exists r, In r results_df /\ confidence_score report = confidence r.
Proof.
  unfold generate_health_report, iloc_last.
  destruct (rev results_df) as [|r l] eqn:Hrev; [discriminate|].
  intros [= <-]. exists r. split; [|reflexivity].
  apply in_rev. rewrite Hrev. now left.
Qed.

(** The pipeline returns a report whenever a model is loaded, both raw
    lists pass ingestion and the heart-rate window holds ten samples. *)
Lemma pipeline_returns_report (m : Predictor)
    (hr_data hr_df : list HeartRateSample)
    (hrv_data hrv_df : list HrvSample) (hours : Z) :
  process_healthkit_heart_rate hr_data = Ok hr_df ->
  process_healthkit_hrv_data hrv_data = Ok hrv_df ->
  (10 <= length (hr_window hr_df hrv_df hours))%nat ->
  exists row report,
    extract_features hr_df hrv_df hours = Ok [row]
    /\ generate_health_report [classify m row] = Ok report
    /\ run (pipeline (Some m) hr_data hrv_data hours)
       = (Ok report,
          [ CallPredict [feature_columns row];
            CallPredictProba [feature_columns row] ]).
Proof.
  intros Hhr Hhrv Hlen.
  destruct (Extraction.extract_features_sufficient hr_df hrv_df hours Hlen)
    as (row & Hrow & _).
  exists row. eexists. split; [exact Hrow|]. split; [reflexivity|].
  unfold run, pipeline, bind. rewrite Hhr, Hhrv. simpl lift.
  unfold ret at 1 2. rewrite Hrow. simpl lift. unfold ret at 1.
  rewrite predict_rhythm_loaded. reflexivity.
Qed.

(** The predictor's two probabilities form a distribution. *)
Definition valid_distribution (m : Predictor) : Prop :=
  forall x,
    0 <= fst (predict_proba m x)
    /\ 0 <= snd (predict_proba m x)
    /\ fst (predict_proba m x) + snd (predict_proba m x) = 1.

Lemma classify_confidence (m : Predictor) (r : FeatureRow) :
  valid_distribution m -> 0.5 <= confidence (classify m r).
Proof.
  intros Hm. destruct (Hm (feature_columns r)) as (H0 & H1 & Hsum).
  simpl. unfold Rmax. destruct (Rle_dec _ _); lra.
Qed.

(** C9: with a predictor whose two probabilities are non-negative and
    sum to 1, inference returns rows whose confidence, the greater of
    the two probabilities, is at least 0.5, and every report built from
    them, in particular every report the pipeline returns, carries a
    confidence score of at least 0.5. *)
Theorem confidence_at_least_half (m : Predictor) :
  valid_distribution m ->
  (forall features_df tr,
      exists results_df tr',
        predict_rhythm (Some m) features_df tr = (Ok results_df, tr')
        /\ Forall (fun r => confidence r
                            = Rmax (normal_probability r) (irregular_probability r)
                            /\ 0.5 <= confidence r) results_df
        /\ forall report,
             generate_health_report results_df = Ok report ->
             0.5 <= confidence_score report)
  /\ (forall hr_data hrv_data hours report tr,
      run (pipeline (Some m) hr_data hrv_data hours) = (Ok report, tr) ->
      0.5 <= confidence_score report).
Proof.
  intros Hm.
  assert (Hrows : forall features_df,
             Forall (fun r => confidence r
                              = Rmax (normal_probability r) (irregular_probability r)
                              /\ 0.5 <= confidence r)
                    (map (classify m) features_df)).
  { intros features_df. apply Forall_map, Forall_forall. intros r _.
    split; [reflexivity | now apply classify_confidence]. }
  assert (Hrep : forall features_df report,
             generate_health_report (map (classify m) features_df) = Ok report ->
             0.5 <= confidence_score report).
  { intros features_df report Hg.
    destruct (report_confidence _ _ Hg) as (r & Hin & ->).
    pose proof (Hrows features_df) as Hall.
    rewrite Forall_forall in Hall. now apply Hall. }
  split.
  - intros features_df tr. do 2 eexists.
    split; [apply predict_rhythm_loaded|]. split; [apply Hrows | apply Hrep].
  - intros hr_data hrv_data hours report tr.
    unfold run, pipeline, bind.
    destruct (process_healthkit_heart_rate hr_data) as [hr_df|e];
      [|discriminate].
    destruct (process_healthkit_hrv_data hrv_data) as [hrv_df|e];
      [|discriminate].
    simpl lift. unfold ret at 1 2.
    destruct (extract_features hr_df hrv_df hours) as [features_df|e];
      [|discriminate].
    simpl lift. unfold ret at 1. rewrite predict_rhythm_loaded.
    destruct (generate_health_report (map (classify m) features_df))
      as [report'|e] eqn:Hg; [|discriminate].
    intros [= <- _]. now apply (Hrep features_df).
Qed.

Lemma constant_predictor_valid : valid_distribution constant_predictor.
Proof. intros x. simpl. lra. Qed.

Lemma confidence_at_least_half_witness :
  valid_distribution constant_predictor
  /\ exists report tr,
       run (pipeline (Some constant_predictor) (steady 10 72) hrv_single 24)
       = (Ok report, tr)
       /\ 0.5 <= confidence_score report.
Proof.
  split; [exact constant_predictor_valid|].
  destruct (pipeline_returns_report constant_predictor
              (steady 10 72) (steady 10 72)
              hrv_single hrv_single 24%Z
              Quality.steady_ten_processed MinimumCount.hrv_single_processed)
    as (row & report & _ & _ & Hrun).
  { rewrite (proj1 Quality.steady_ten_window), Quality.steady_length. lia. }
  exists report. eexists. split; [exact Hrun|].
  exact (proj2 (confidence_at_least_half constant_predictor
                  constant_predictor_valid) _ _ _ _ _ Hrun).
Defined.

(** *** Dependence on the model features only *)

(** The columns that inference adds to a row. *)
Definition model_outputs (r : ResultRow)
  : Z * R * R * R * string :=
  (prediction r, normal_probability r, irregular_probability r,
   confidence r, rhythm_classification r).

(** The same columns computed from one row of the feature matrix. *)
Definition outputs_of (m : Predictor) (x : feature_vector)
  : Z * R * R * R * string :=
  model_outputs
    (result_row Reporter.some_features (predict m x) (predict_proba m x)).

Lemma classify_outputs (m : Predictor) (r : FeatureRow) :
  model_outputs (classify m r) = outputs_of m (feature_columns r).
Proof. reflexivity. Qed.

(** Two feature rows equal on the three model columns and different on
    every other column. *)
Definition row_morning : FeatureRow :=
  {| timestamp := Some 0%Z;
     mean_heart_rate := 95;
     std_heart_rate := 18.5;
     pnn50 := 0.37;
     data_quality_score := 1;
     sample_count_hr := 60;
     sample_count_hrv := 5 |}.

Definition row_evening : FeatureRow :=
  {| timestamp := Some 43200000000000%Z;
     mean_heart_rate := 95;
     std_heart_rate := 18.5;
     pnn50 := 0.37;
     data_quality_score := 0.3;
     sample_count_hr := 12;
     sample_count_hrv := 0 |}.

(** C10: for a fixed predictor, two feature frames that agree row by row
    on [mean_heart_rate], [std_heart_rate] and [pnn50] receive the same
    predictions, probabilities, confidences and labels, and the
    predictor is called with the same matrix, whatever their timestamps,
    quality scores and sample counts. *)
Theorem classification_depends_only_on_model_features
    (m : Predictor) (features_1 features_2 : list FeatureRow)
    (tr : list call) :
  map feature_columns features_1 = map feature_columns features_2 ->
  exists results_1 results_2 tr',
    predict_rhythm (Some m) features_1 tr = (Ok results_1, tr')
    /\ predict_rhythm (Some m) features_2 tr = (Ok results_2, tr')
    /\ map features results_1 = features_1
    /\ map features results_2 = features_2
    /\ map model_outputs results_1 = map model_outputs results_2.
Proof.
  intros Hx. do 3 eexists.
  split; [apply predict_rhythm_loaded|].
  split; [rewrite predict_rhythm_loaded, Hx; reflexivity|].
  rewrite !map_map. split; [apply map_id | split; [apply map_id|]].
  transitivity (map (outputs_of m) (map feature_columns features_1)).
  - rewrite map_map. apply map_ext. intros r. apply classify_outputs.
  - rewrite Hx, map_map. apply map_ext. intros r. symmetry. apply classify_outputs.
Qed.

Lemma classification_witness :
  map feature_columns [row_morning] = map feature_columns [row_evening]
  /\ row_morning <> row_evening
  /\ exists results_1 results_2 tr',
       predict_rhythm (Some constant_predictor) [row_morning] [] = (Ok results_1, tr')
       /\ predict_rhythm (Some constant_predictor) [row_evening] [] = (Ok results_2, tr')
       /\ map model_outputs results_1 = map model_outputs results_2.
Proof.
  assert (H1 : map feature_columns [row_morning] = map feature_columns [row_evening])
    by reflexivity.
  split; [exact H1|]. split; [discriminate|].
  destruct (classification_depends_only_on_model_features
              constant_predictor [row_morning] [row_evening] [] H1)
    as (r1 & r2 & tr' & Hp1 & Hp2 & _ & _ & Hout).
  exists r1, r2, tr'. repeat split; assumption.
Defined.

End Inference.

(* ================================================================== *)
(** * Further properties of the processor *)

(* ------------------------------------------------------------------ *)
(** ** Ingestion *)

Module Ingestion.

Import Validator.

Lemma filter_idempotent {A : Type} (f : A -> bool) (l : list A) :
  filter f (filter f l) = filter f l.
Proof.
  apply filter_all, Forall_forall. intros x Hx.
  now apply filter_In in Hx.
Qed.

Lemma filter_length_le {A : Type} (f : A -> bool) (l : list A) :
  (length (filter f l) <= length l)%nat.
Proof.
  induction l as [|x l IH]; simpl; [lia|].
  destruct (f x); simpl; lia.
Qed.

(** Each validator keeps exactly the rows of its input whose value
    lies in the plausible closed interval ([[30, 250]] for heart rate,
    [[1, 200]] for HRV), in their input order; validating twice changes
    nothing more. *)
Theorem validators_keep_exactly_the_plausible_rows :
  (forall df s,
      In s (_validate_heart_rate_data df) <-> In s df /\ 30 <= value s <= 250)
  /\ (forall df s,
      In s (_validate_hrv_data df) <-> In s df /\ 1 <= value s <= 200)
  /\ (forall df1 df2,
      _validate_heart_rate_data (df1 ++ df2)
      = (_validate_heart_rate_data df1 ++ _validate_heart_rate_data df2)%list)
  /\ (forall df1 df2,
      _validate_hrv_data (df1 ++ df2)
      = (_validate_hrv_data df1 ++ _validate_hrv_data df2)%list)
  /\ (forall df,
      _validate_heart_rate_data (_validate_heart_rate_data df)
      = _validate_heart_rate_data df
      /\ (length (_validate_heart_rate_data df) <= length df)%nat)
  /\ (forall df,
      _validate_hrv_data (_validate_hrv_data df) = _validate_hrv_data df
      /\ (length (_validate_hrv_data df) <= length df)%nat).
Proof.
  split; [|split; [|split; [|split; [|split]]]].
  - intros df s. unfold _validate_heart_rate_data.
    rewrite filter_In, hr_test_true. reflexivity.
  - intros df s. unfold _validate_hrv_data.
    rewrite filter_In, hrv_test_true. reflexivity.
  - intros df1 df2. apply filter_app.
  - intros df1 df2. apply filter_app.
  - intros df. split; [apply filter_idempotent | apply filter_length_le].
  - intros df. split; [apply filter_idempotent | apply filter_length_le].
Qed.

Lemma process_hr_ok (hr_data : list HeartRateSample) :
  hr_data <> [] ->
  process_healthkit_heart_rate hr_data
  = Ok (sort_values (_validate_heart_rate_data hr_data)).
Proof. destruct hr_data; [congruence | reflexivity]. Qed.

Lemma process_hrv_ok (hrv_data : list HrvSample) :
  hrv_data <> [] ->
  process_healthkit_hrv_data hrv_data
  = Ok (sort_values (_validate_hrv_data hrv_data)).
Proof. destruct hrv_data; [congruence | reflexivity]. Qed.

Lemma process_hr_inv (hr_data hr_df : list HeartRateSample) :
  process_healthkit_heart_rate hr_data = Ok hr_df ->
  hr_data <> [] /\ hr_df = sort_values (_validate_heart_rate_data hr_data).
Proof.
  destruct hr_data as [|s l]; [discriminate|].
  intros Hp. split; [discriminate|].
  unfold process_healthkit_heart_rate in Hp. congruence.
Qed.

Lemma process_hrv_inv (hrv_data hrv_df : list HrvSample) :
  process_healthkit_hrv_data hrv_data = Ok hrv_df ->
  hrv_data <> [] /\ hrv_df = sort_values (_validate_hrv_data hrv_data).
Proof.
  destruct hrv_data as [|s l]; [discriminate|].
  intros Hp. split; [discriminate|].
  unfold process_healthkit_hrv_data in Hp. congruence.
Qed.

Lemma filter_split_perm {A : Type} (f : A -> bool) (l : list A) :
  Permutation l (filter f l ++ filter (fun x => negb (f x)) l).
Proof.
  induction l as [|x l IH]; simpl; [constructor|].
  destruct (f x); simpl.
  - now constructor.
  - now apply Permutation_cons_app.
Qed.

Lemma validator_splits_input {A : Type} `{Columns A} (lo hi : R) (df : list A) :
  exists rejected,
    Permutation df
      (sort_values (filter (fun s => Rleb lo (value s) && Rleb (value s) hi) df)
       ++ rejected)
    /\ Forall (fun s => ~ lo <= value s <= hi) rejected.
Proof.
  exists (filter (fun s => negb (Rleb lo (value s) && Rleb (value s) hi)) df).
  split.
  - rewrite (sort_values_perm (filter _ df)).
    apply (filter_split_perm
             (fun s => Rleb lo (value s) && Rleb (value s) hi) df).
  - apply Forall_forall. intros s Hs. apply filter_In in Hs.
    destruct Hs as [_ Hs]. apply negb_true_iff in Hs.
    intros [H1 H2]. apply (proj2 (Rleb_true _ _)) in H1, H2.
    rewrite H1, H2 in Hs. discriminate.
Qed.

(** X1: a frame returned by ingestion is in ascending [startDate]
    order and holds exactly the plausible rows of the raw list, each as
    often as it was supplied: the raw list is a rearrangement of the
    frame followed by rejected rows, every row of the frame has its
    value in the closed interval ([[30, 250]] for heart rate,
    [[1, 200]] for HRV) and no rejected row has.  So the frame is never
    longer than the raw list. *)
Theorem ingestion_returns_sorted_plausible_rows :
  (forall hr_data hr_df,
      process_healthkit_heart_rate hr_data = Ok hr_df ->
      Sorted (fun a b => (startDate a <= startDate b)%Z) hr_df
      /\ (exists rejected,
            Permutation hr_data (hr_df ++ rejected)
            /\ Forall (fun s => 30 <= value s <= 250) hr_df
            /\ Forall (fun s => ~ 30 <= value s <= 250) rejected)
      /\ (length hr_df <= length hr_data)%nat)
  /\ (forall hrv_data hrv_df,
      process_healthkit_hrv_data hrv_data = Ok hrv_df ->
      Sorted (fun a b => (startDate a <= startDate b)%Z) hrv_df
      /\ (exists rejected,
            Permutation hrv_data (hrv_df ++ rejected)
            /\ Forall (fun s => 1 <= value s <= 200) hrv_df
            /\ Forall (fun s => ~ 1 <= value s <= 200) rejected)
      /\ (length hrv_df <= length hrv_data)%nat).
Proof.
  split.
  - intros hr_data hr_df Hp. destruct (process_hr_inv _ _ Hp) as [_ ->].
    split; [apply sort_values_sorted|]. split.
    + destruct (validator_splits_input 30 250 hr_data) as (rejected & Hperm & Hrej).
      exists rejected. split; [exact Hperm|]. split; [|exact Hrej].
      apply sort_values_Forall, validate_hr_plausible.
    + rewrite (Permutation_length (sort_values_perm _)). apply filter_length_le.
  - intros hrv_data hrv_df Hp. destruct (process_hrv_inv _ _ Hp) as [_ ->].
    split; [apply sort_values_sorted|]. split.
    + destruct (validator_splits_input 1 200 hrv_data) as (rejected & Hperm & Hrej).
      exists rejected. split; [exact Hperm|]. split; [|exact Hrej].
      apply sort_values_Forall, validate_hrv_plausible.
    + rewrite (Permutation_length (sort_values_perm _)). apply filter_length_le.
Qed.

(** Three readings supplied out of order, the middle one implausible. *)
Definition hr_shuffled : list HeartRateSample :=
  [ hr_at 2 80; hr_at 1 20; hr_at 0 60 ].

Lemma hr_shuffled_processed :
  process_healthkit_heart_rate hr_shuffled = Ok [ hr_at 0 60; hr_at 2 80 ].
Proof.
  rewrite process_hr_ok by discriminate.
  assert (Hv : _validate_heart_rate_data hr_shuffled = [ hr_at 2 80; hr_at 0 60 ]).
  { unfold _validate_heart_rate_data, hr_shuffled. simpl.
    rewrite (proj2 (Rleb_true 30 80)), (proj2 (Rleb_true 80 250)) by lra.
    rewrite (proj2 (Rleb_false 30 20)) by lra.
    rewrite (proj2 (Rleb_true 30 60)), (proj2 (Rleb_true 60 250)) by lra.
    reflexivity. }
  rewrite Hv. reflexivity.
Qed.

Lemma ingestion_witness :
  process_healthkit_heart_rate hr_shuffled = Ok [ hr_at 0 60; hr_at 2 80 ]
  /\ Sorted (fun a b => (startDate a <= startDate b)%Z) [ hr_at 0 60; hr_at 2 80 ]
  /\ exists rejected,
       Permutation hr_shuffled ([ hr_at 0 60; hr_at 2 80 ] ++ rejected)
       /\ Forall (fun s => ~ 30 <= value s <= 250) rejected.
Proof.
  destruct (proj1 ingestion_returns_sorted_plausible_rows _ _ hr_shuffled_processed)
    as (Hs & (rejected & Hperm & _ & Hrej) & _).
  split; [exact hr_shuffled_processed | split; [exact Hs|]].
  exists rejected. split; assumption.
Defined.

(** X2: the two empty-input errors take precedence over everything
    else, heart rate first: with no heart-rate reading the pipeline
    raises "No heart rate data provided" whatever the HRV list; with
    heart-rate readings and no HRV reading it raises "No HRV data
    provided", also when the heart-rate readings are too few or all
    implausible.  No predictor call is made. *)
Theorem empty_input_errors_come_first :
  (forall model hrv_data hours,
      run (pipeline model [] hrv_data hours)
      = (Raise (ValueError "No heart rate data provided"), []))
  /\ (forall model hr_data hours,
      hr_data <> [] ->
      run (pipeline model hr_data [] hours)
      = (Raise (ValueError "No HRV data provided"), [])).
Proof.
  split.
  - reflexivity.
  - intros model hr_data hours Hne.
    unfold run, pipeline, bind. rewrite (process_hr_ok hr_data Hne).
    reflexivity.
Qed.

Lemma empty_input_errors_witness :
  hr_implausible <> []
  /\ run (pipeline (Some constant_predictor) hr_implausible [] 24)
     = (Raise (ValueError "No HRV data provided"), []).
Proof.
  assert (H : hr_implausible <> []) by discriminate.
  split; [exact H|].
  exact (proj2 empty_input_errors_come_first
               (Some constant_predictor) hr_implausible 24%Z H).
Defined.

End Ingestion.

(* ------------------------------------------------------------------ *)
(** ** The time window *)

Module Windows.

Import Validator Windower.

Open Scope Z_scope.

Lemma latest_time_some (hr : list HeartRateSample) (hrv : list HrvSample) :
  hr <> [] ->
  exists t,
    latest_time hr hrv = Some t
    /\ In t (all_starts hr hrv)
    /\ Forall (fun x => x <= t) (all_starts hr hrv).
Proof.
  intros Hhr. destruct hrv as [|v hrv].
  - destruct (series_max_spec (map startDate hr)) as (a & Ha & Hin & Hall).
    { destruct hr; [congruence | discriminate]. }
    exists a. unfold latest_time, all_starts. cbn [map]. rewrite Ha, app_nil_r.
    split; [reflexivity | split; assumption].
  - apply latest_time_spec; [assumption | discriminate].
Qed.

Lemma starts_bounded (hr : list HeartRateSample) (hrv : list HrvSample) (t : Z) :
  Forall (fun x => x <= t) (all_starts hr hrv) ->
  (forall s, In s hr -> startDate s <= t)
  /\ (forall v, In v hrv -> startDate v <= t).
Proof.
  unfold all_starts. rewrite Forall_app, !Forall_map, !Forall_forall. tauto.
Qed.

Lemma filter_length_mono {A : Type} (f g : A -> bool) (l : list A) :
  (forall x, In x l -> f x = true -> g x = true) ->
  (length (filter f l) <= length (filter g l))%nat.
Proof.
  induction l as [|x l IH]; intros Himp; simpl; [lia|].
  assert (IH' : (length (filter f l) <= length (filter g l))%nat).
  { apply IH. intros y Hy. apply Himp. now right. }
  destruct (f x) eqn:Hf.
  - rewrite (Himp x (or_introl eq_refl) Hf). simpl. lia.
  - destruct (g x); simpl; lia.
Qed.

(** The test applied to one row by the window filter. *)
Definition window_test {A : Type} `{Columns A} (start latest : option Z) (s : A)
  : bool :=
  ts_geb (startDate s) start && ts_leb (startDate s) latest.

(** The value of [start_time] when line 171 returns. *)
Definition shifted (latest : option Z) (hours : Z) : option Z :=
  option_map (fun t => t - hours * 3600000000000) latest.

Lemma start_time_shifted
    (hr : list HeartRateSample) (hrv : list HrvSample) (hours : Z)
    (start : option Z) :
  start_time hr hrv hours = Ok start ->
  start = shifted (latest_time hr hrv) hours
  /\ hr_window hr hrv hours
     = window hr (shifted (latest_time hr hrv) hours) (latest_time hr hrv)
  /\ hrv_window hr hrv hours
     = window hrv (shifted (latest_time hr hrv) hours) (latest_time hr hrv).
Proof.
  intros Hs.
  destruct (Extraction.start_time_ok_inv _ _ _ _ Hs) as (_ & Heq & _).
  destruct (Extraction.windows_after_start _ _ _ _ Hs) as [Hw1 Hw2].
  unfold shifted. rewrite <- Heq. now repeat split.
Qed.

Lemma window_test_widens {A : Type} `{Columns A}
    (latest : option Z) (h1 h2 : Z) (s : A) :
  h1 <= h2 ->
  window_test (shifted latest h1) latest s = true ->
  window_test (shifted latest h2) latest s = true.
Proof.
  intros Hh. unfold window_test, shifted.
  destruct latest as [t|]; simpl; [|discriminate].
  rewrite !andb_true_iff, !Z.leb_le. lia.
Qed.

(** X3: a longer window never loses a sample: with [h1 <= h2], both
    accepted by line 171, every row of either window for [h1] is in the
    window for [h2], so the counts can only grow and an extraction that
    succeeds with [h1] succeeds with [h2]. *)
Theorem longer_window_keeps_every_sample
    (hr : list HeartRateSample) (hrv : list HrvSample) (h1 h2 : Z)
    (start1 start2 : option Z) :
  h1 <= h2 ->
  start_time hr hrv h1 = Ok start1 ->
  start_time hr hrv h2 = Ok start2 ->
  incl (window hr start1 (latest_time hr hrv)) (window hr start2 (latest_time hr hrv))
  /\ incl (window hrv start1 (latest_time hr hrv))
          (window hrv start2 (latest_time hr hrv))
  /\ hr_window hr hrv h1 = window hr start1 (latest_time hr hrv)
  /\ hr_window hr hrv h2 = window hr start2 (latest_time hr hrv)
  /\ (length (hr_window hr hrv h1) <= length (hr_window hr hrv h2))%nat
  /\ (length (hrv_window hr hrv h1) <= length (hrv_window hr hrv h2))%nat
  /\ ((exists rows, extract_features hr hrv h1 = Ok rows) ->
      exists rows, extract_features hr hrv h2 = Ok rows).
Proof.
  intros Hh Hs1 Hs2.
  destruct (start_time_shifted _ _ _ _ Hs1) as (E1 & Hw1 & Hv1).
  destruct (start_time_shifted _ _ _ _ Hs2) as (E2 & Hw2 & Hv2).
  assert (Hlen : (length (hr_window hr hrv h1) <= length (hr_window hr hrv h2))%nat).
  { rewrite Hw1, Hw2. apply filter_length_mono.
    intros s _. apply (window_test_widens _ _ _ _ Hh). }
  rewrite E1, E2, <- Hw1, <- Hw2.
  split; [|split; [|split; [reflexivity | split; [reflexivity | split;
    [exact Hlen | split]]]]].
  - rewrite Hw1, Hw2. intros s Hs. apply filter_In in Hs. apply filter_In.
    split; [tauto|]. apply (window_test_widens _ _ _ _ Hh), Hs.
  - intros s Hs. apply filter_In in Hs. apply filter_In.
    split; [tauto|]. apply (window_test_widens _ _ _ _ Hh), Hs.
  - rewrite Hv1, Hv2. apply filter_length_mono.
    intros s _. apply (window_test_widens _ _ _ _ Hh).
  - intros [rows Hrows].
    destruct (Extraction.extract_features_ok _ _ _ _ Hrows) as [_ Hge].
    destruct (Extraction.extract_features_sufficient hr hrv h2) as (row & Hrow & _).
    { lia. }
    now exists [row].
Qed.

Lemma steady_window_one_hour :
  hr_window (steady 10 72) hrv_single 1 = steady 10 72.
Proof. reflexivity. Qed.

Lemma longer_window_witness :
  1 <= 24
  /\ start_time (steady 10 72) hrv_single 1 = Ok (Some (- 51 * minute))
  /\ start_time (steady 10 72) hrv_single 24 = Ok (Some (- 1431 * minute))
  /\ (exists rows, extract_features (steady 10 72) hrv_single 1 = Ok rows)
  /\ (exists rows, extract_features (steady 10 72) hrv_single 24 = Ok rows).
Proof.
  assert (H : 1 <= 24) by lia.
  assert (Hs1 : start_time (steady 10 72) hrv_single 1 = Ok (Some (- 51 * minute)))
    by reflexivity.
  assert (Hs2 : start_time (steady 10 72) hrv_single 24
                = Ok (Some (- 1431 * minute))) by reflexivity.
  assert (H1 : exists rows, extract_features (steady 10 72) hrv_single 1 = Ok rows).
  { destruct (Extraction.extract_features_sufficient (steady 10 72) hrv_single 1)
      as (row & Hrow & _).
    - rewrite steady_window_one_hour, Quality.steady_length. lia.
    - now exists [row]. }
  split; [exact H | split; [exact Hs1 | split; [exact Hs2 | split; [exact H1|]]]].
  destruct (longer_window_keeps_every_sample (steady 10 72) hrv_single 1 24
              _ _ H Hs1 Hs2)
    as (_ & _ & _ & _ & _ & _ & Hok).
  exact (Hok H1).
Defined.

Lemma upper_test_is_idle
    (hr : list HeartRateSample) (hrv : list HrvSample) (hours : Z) :
  window hr (shifted (latest_time hr hrv) hours) (latest_time hr hrv)
  = filter (fun s => ts_geb (startDate s) (shifted (latest_time hr hrv) hours)) hr
  /\ window hrv (shifted (latest_time hr hrv) hours) (latest_time hr hrv)
     = filter (fun s => ts_geb (startDate s) (shifted (latest_time hr hrv) hours))
              hrv.
Proof.
  unfold window.
  destruct hr as [|s0 hr'] eqn:Ehr.
  - split; [reflexivity|].
    rewrite latest_time_no_heart_rate. simpl. apply filter_ext. reflexivity.
  - rewrite <- Ehr.
    destruct (latest_time_some hr hrv) as (t & Ht & _ & Hall);
      [rewrite Ehr; discriminate|].
    destruct (starts_bounded _ _ _ Hall) as [Hhr Hhrv].
    rewrite Ht. split; apply filter_ext_in; intros s Hs; unfold ts_leb.
    + rewrite (proj2 (Z.leb_le _ _) (Hhr s Hs)). apply andb_true_r.
    + rewrite (proj2 (Z.leb_le _ _) (Hhrv s Hs)). apply andb_true_r.
Qed.

(** X4: the test [startDate <= latest_time] never removes a row: either
    window is the set of rows with [startDate >= start_time], for the
    lower bound used by the filters and so for every value that line 171
    returns. *)
Theorem window_has_no_effective_upper_bound
    (hr : list HeartRateSample) (hrv : list HrvSample) (hours : Z) :
  (hr_window hr hrv hours
   = filter (fun s => ts_geb (startDate s) (window_start hr hrv hours)) hr
   /\ hrv_window hr hrv hours
      = filter (fun s => ts_geb (startDate s) (window_start hr hrv hours)) hrv)
  /\ (forall start,
        start_time hr hrv hours = Ok start ->
        window hr start (latest_time hr hrv)
        = filter (fun s => ts_geb (startDate s) start) hr
        /\ window hrv start (latest_time hr hrv)
           = filter (fun s => ts_geb (startDate s) start) hrv).
Proof.
  assert (Hok : forall start,
             start_time hr hrv hours = Ok start ->
             window hr start (latest_time hr hrv)
             = filter (fun s => ts_geb (startDate s) start) hr
             /\ window hrv start (latest_time hr hrv)
                = filter (fun s => ts_geb (startDate s) start) hrv).
  { intros start Hs. destruct (start_time_shifted _ _ _ _ Hs) as (-> & _).
    apply upper_test_is_idle. }
  split; [|exact Hok].
  unfold hr_window, hrv_window.
  destruct (start_time hr hrv hours) as [start|e] eqn:Hs.
  - rewrite (Extraction.window_start_ok _ _ _ _ Hs). now apply Hok.
  - unfold window_start. rewrite Hs. unfold window.
    split; apply filter_ext; reflexivity.
Qed.

Lemma no_upper_bound_witness :
  start_time (steady 10 72) hrv_late 1 = Ok (Some (- 2 * minute))
  /\ window (steady 10 72) (Some (- 2 * minute))
            (latest_time (steady 10 72) hrv_late)
     = filter (fun s => ts_geb (startDate s) (Some (- 2 * minute))) (steady 10 72).
Proof.
  assert (Hs : start_time (steady 10 72) hrv_late 1 = Ok (Some (- 2 * minute)))
    by reflexivity.
  split; [exact Hs|].
  exact (proj1 (proj2 (window_has_no_effective_upper_bound
                         (steady 10 72) hrv_late 1) _ Hs)).
Defined.

(** X5: with a negative window length that line 171 accepts, both
    windows are empty and extraction raises the minimum-count error with
    zero samples, whatever the data. *)
Theorem negative_window_is_empty
    (hr : list HeartRateSample) (hrv : list HrvSample) (hours : Z)
    (start : option Z) :
  hours < 0 ->
  start_time hr hrv hours = Ok start ->
  window hr start (latest_time hr hrv) = []
  /\ window hrv start (latest_time hr hrv) = []
  /\ hr_window hr hrv hours = []
  /\ hrv_window hr hrv hours = []
  /\ extract_features hr hrv hours
     = Raise (ValueError (insufficient_message hours 0)).
Proof.
  intros Hneg Hs.
  destruct (start_time_shifted _ _ _ _ Hs) as (E & Hw1 & Hw2).
  assert (Htest : forall (A : Type) (C : Columns A) (s : A),
             window_test (shifted (latest_time hr hrv) hours)
                         (latest_time hr hrv) s <> true).
  { intros A C s. unfold window_test, shifted.
    destruct (latest_time hr hrv) as [t|]; simpl; [|discriminate].
    rewrite andb_true_iff, !Z.leb_le. lia. }
  assert (Hw : hr_window hr hrv hours = []).
  { rewrite Hw1. apply filter_none, Forall_forall. intros s _. apply Htest. }
  assert (Hv : hrv_window hr hrv hours = []).
  { rewrite Hw2. apply filter_none, Forall_forall. intros s _. apply Htest. }
  rewrite E, <- Hw1, <- Hw2.
  split; [exact Hw | split; [exact Hv | split; [exact Hw | split; [exact Hv|]]]].
  rewrite (Extraction.extract_features_insufficient _ _ _ _ Hs);
    rewrite Hw; simpl; [reflexivity | lia].
Qed.

Lemma negative_window_witness :
  -1 < 0
  /\ start_time (steady 10 72) hrv_single (-1) = Ok (Some (69 * minute))
  /\ extract_features (steady 10 72) hrv_single (-1)
     = Raise (ValueError "Insufficient heart rate data in -1h window: 0 samples").
Proof.
  assert (H : -1 < 0) by lia.
  assert (Hs : start_time (steady 10 72) hrv_single (-1) = Ok (Some (69 * minute)))
    by reflexivity.
  split; [exact H | split; [exact Hs|]].
  exact (proj2 (proj2 (proj2 (proj2
           (negative_window_is_empty (steady 10 72) hrv_single (-1) _ H Hs))))).
Defined.

(** X6: the reference instant is shared by both series, so one recent
    HRV sample can empty the heart-rate window: if line 171 returns and
    every heart-rate reading starts more than the window length before
    some HRV sample, extraction raises the minimum-count error with zero
    samples, however many readings there are. *)
Theorem late_hrv_sample_starves_heart_rate_window
    (hr : list HeartRateSample) (hrv : list HrvSample) (hours : Z)
    (start : option Z) (v : HrvSample) :
  In v hrv ->
  (forall s, In s hr -> startDate s < startDate v - hours * 3600000000000) ->
  start_time hr hrv hours = Ok start ->
  window hr start (latest_time hr hrv) = []
  /\ hr_window hr hrv hours = []
  /\ extract_features hr hrv hours
     = Raise (ValueError (insufficient_message hours 0)).
Proof.
  intros Hv Hold Hstart.
  destruct (start_time_shifted _ _ _ _ Hstart) as (E & Hw1 & _).
  assert (Hw : hr_window hr hrv hours = []).
  { rewrite Hw1.
    destruct hr as [|s0 hr'] eqn:Ehr; [reflexivity|]. rewrite <- Ehr in *.
    destruct (latest_time_some hr hrv) as (t & Ht & _ & Hall);
      [rewrite Ehr; discriminate|].
    destruct (starts_bounded _ _ _ Hall) as [_ Hhrv].
    apply filter_none, Forall_forall. intros s Hs.
    unfold shifted. rewrite Ht.
    cbn [ts_geb ts_leb option_map].
    rewrite andb_true_iff, !Z.leb_le.
    pose proof (Hold s Hs). pose proof (Hhrv v Hv). lia. }
  rewrite E, <- Hw1.
  split; [exact Hw | split; [exact Hw|]].
  rewrite (Extraction.extract_features_insufficient _ _ _ _ Hstart);
    rewrite Hw; simpl; [reflexivity | lia].
Qed.

(** An HRV sample two days after the readings of [steady]. *)
Definition hrv_two_days_later : list HrvSample :=
  [ mkHRV (2880 * minute) (2885 * minute) 45 "ms" "RMSSD" ].

Lemma late_hrv_sample_witness :
  length (steady 60 72) = 60%nat
  /\ start_time (steady 60 72) hrv_two_days_later 24 = Ok (Some (1440 * minute))
  /\ extract_features (steady 60 72) hrv_two_days_later 24
     = Raise (ValueError "Insufficient heart rate data in 24h window: 0 samples").
Proof.
  assert (Hs : start_time (steady 60 72) hrv_two_days_later 24
               = Ok (Some (1440 * minute))) by reflexivity.
  split; [apply Quality.steady_length | split; [exact Hs|]].
  refine (proj2 (proj2 (late_hrv_sample_starves_heart_rate_window
                   (steady 60 72) hrv_two_days_later 24 _
                   (mkHRV (2880 * minute) (2885 * minute) 45 "ms" "RMSSD")
                   (or_introl eq_refl) _ Hs))).
  intros s Hin. unfold steady in Hin. apply in_map_iff in Hin.
  destruct Hin as (i & <- & Hi). apply in_seq in Hi.
  simpl. unfold minute. lia.
Defined.

End Windows.

(* ------------------------------------------------------------------ *)
(** ** The feature row *)

Module Features.

Import Validator Windower.

Open Scope R_scope.

Lemma validate_hrv_drops_all (df : list HrvSample) :
  Forall (fun s => ~ hrv_plausible s) df -> _validate_hrv_data df = [].
Proof.
  intros H. apply filter_none.
  eapply Forall_impl; [|exact H]. intros s Hs Ht. now apply Hs, hrv_test_true.
Qed.

Lemma latest_time_no_hrv (hr : list HeartRateSample) :
  latest_time hr [] = series_max (map startDate hr).
Proof.
  unfold latest_time, py_max_ts, ts_gtb. cbn [map series_max]. reflexivity.
Qed.

Lemma extract_features_ok_inv
    (hr_df : list HeartRateSample) (hrv_df : list HrvSample) (hours : Z)
    (rows : list FeatureRow) :
  extract_features hr_df hrv_df hours = Ok rows ->
  (10 <= length (hr_window hr_df hrv_df hours))%nat
  /\ exists row,
       rows = [row]
       /\ timestamp row = latest_time hr_df hrv_df
       /\ mean_heart_rate row = mean (map value (hr_window hr_df hrv_df hours))
       /\ std_heart_rate row = std (map value (hr_window hr_df hrv_df hours))
       /\ data_quality_score row
          = _calculate_data_quality_score (hr_window hr_df hrv_df hours)
                                          (hrv_window hr_df hrv_df hours)
       /\ sample_count_hr row = length (hr_window hr_df hrv_df hours)
       /\ sample_count_hrv row = length (hrv_window hr_df hrv_df hours).
Proof.
  intros Hrows.
  destruct (Extraction.extract_features_ok _ _ _ _ Hrows) as [_ Hge].
  split; [exact Hge|].
  destruct (Extraction.extract_features_sufficient _ _ _ Hge)
    as (row & Hrow & Hfields).
  exists row. split; [congruence | exact Hfields].
Qed.

Lemma report_of_single_row (m : Predictor) (row : FeatureRow) (report : Report) :
  generate_health_report [Inference.classify m row] = Ok report ->
  report_timestamp report = timestamp row
  /\ confidence_score report = confidence (Inference.classify m row)
  /\ report_rhythm_classification report
     = rhythm_classification (Inference.classify m row)
  /\ metrics_mean_heart_rate (heart_rate_metrics report) = mean_heart_rate row
  /\ heart_rate_variability (heart_rate_metrics report) = std_heart_rate row
  /\ metrics_pnn50 (heart_rate_metrics report) = pnn50 row
  /\ quality_score (data_quality report) = data_quality_score row
  /\ heart_rate_samples (data_quality report) = Z.of_nat (sample_count_hr row)
  /\ hrv_samples (data_quality report) = Z.of_nat (sample_count_hrv row)
  /\ clinical_interpretation report
     = _generate_clinical_interpretation (Inference.classify m row)
  /\ recommendations report
     = _generate_recommendations (Inference.classify m row).
Proof.
  unfold generate_health_report, iloc_last. cbn [rev app].
  intros [= <-]. repeat split.
Qed.

(** X7: an HRV list that is supplied but wholly implausible does not
    fail the run (unlike a wholly implausible heart-rate list): when
    line 171 returns and the heart-rate window holds ten readings, the
    reference instant is the latest heart-rate [startDate], the HRV
    count is zero, [pnn50] comes from the heart-rate deviation, and the
    pipeline returns a report. *)
Theorem implausible_hrv_does_not_fail_the_pipeline
    (m : Predictor) (hr_data hr_df : list HeartRateSample)
    (hrv_data : list HrvSample) (hours : Z) (start : option Z) :
  process_healthkit_heart_rate hr_data = Ok hr_df ->
  hrv_data <> [] ->
  Forall (fun s => ~ hrv_plausible s) hrv_data ->
  start_time hr_df [] hours = Ok start ->
  (10 <= length (window hr_df start (series_max (map startDate hr_df))))%nat ->
  process_healthkit_hrv_data hrv_data = Ok []
  /\ latest_time hr_df [] = series_max (map startDate hr_df)
  /\ exists row report tr,
       extract_features hr_df [] hours = Ok [row]
       /\ timestamp row = series_max (map startDate hr_df)
       /\ sample_count_hrv row = 0%nat
       /\ pnn50 row = _estimate_pnn50_from_hr_std (std_heart_rate row)
       /\ run (pipeline (Some m) hr_data hrv_data hours) = (Ok report, tr)
       /\ hrv_samples (data_quality report) = 0%Z.
Proof.
  intros Hhr Hne Hall Hstart Hlen.
  assert (Hhrv : process_healthkit_hrv_data hrv_data = Ok []).
  { rewrite Ingestion.process_hrv_ok by assumption.
    now rewrite validate_hrv_drops_all. }
  split; [exact Hhrv|]. split; [apply latest_time_no_hrv|].
  destruct (Extraction.windows_after_start _ _ _ _ Hstart) as [Hw Hv].
  rewrite <- latest_time_no_hrv, <- Hw in Hlen.
  destruct (Inference.pipeline_returns_report m _ _ _ _ hours Hhr Hhrv Hlen)
    as (row & report & Hrow & Hrep & Hrun).
  destruct (extract_features_ok_inv _ _ _ _ Hrow)
    as (_ & row' & Heq & Hts & _ & Hstd & _ & _ & Hn).
  injection Heq as <-.
  exists row, report. eexists.
  split; [exact Hrow|].
  split; [now rewrite Hts, latest_time_no_hrv|].
  split; [exact Hn|].
  split.
  - rewrite (Extraction.extract_features_pnn50 _ _ _ _ Hrow), Hstd.
    reflexivity.
  - split; [exact Hrun|].
    destruct (report_of_single_row _ _ _ Hrep) as (_ & _ & _ & _ & _ & _ & _ & _ & H & _).
    rewrite H, Hn. reflexivity.
Qed.

(** One HRV reading far outside the plausible range. *)
Definition hrv_implausible : list HrvSample :=
  [ mkHRV 0 (5 * minute) 500 "ms" "RMSSD" ].

Lemma implausible_hrv_witness :
  process_healthkit_heart_rate (steady 10 72) = Ok (steady 10 72)
  /\ hrv_implausible <> []
  /\ Forall (fun s => ~ hrv_plausible s) hrv_implausible
  /\ start_time (steady 10 72) [] 24 = Ok (Some (- 1431 * minute)%Z)
  /\ (10 <= length (window (steady 10 72) (Some (- 1431 * minute)%Z)
                           (series_max (map startDate (steady 10 72)))))%nat
  /\ exists report tr,
       run (pipeline (Some constant_predictor) (steady 10 72) hrv_implausible 24)
       = (Ok report, tr)
       /\ hrv_samples (data_quality report) = 0%Z.
Proof.
  assert (H2 : hrv_implausible <> []) by discriminate.
  assert (H3 : Forall (fun s => ~ hrv_plausible s) hrv_implausible).
  { repeat constructor. unfold hrv_plausible; simpl. lra. }
  assert (H4 : start_time (steady 10 72) [] 24 = Ok (Some (- 1431 * minute)%Z))
    by reflexivity.
  assert (H5 : (10 <= length (window (steady 10 72) (Some (- 1431 * minute)%Z)
                                     (series_max (map startDate (steady 10 72)))))%nat).
  { change (window (steady 10 72) (Some (- 1431 * minute)%Z)
                   (series_max (map startDate (steady 10 72))))
      with (steady 10 72).
    rewrite Quality.steady_length. lia. }
  destruct (implausible_hrv_does_not_fail_the_pipeline
              constant_predictor (steady 10 72) (steady 10 72) hrv_implausible
              24%Z _ Quality.steady_ten_processed H2 H3 H4 H5)
    as (_ & _ & row & report & tr & _ & _ & _ & _ & Hrun & Hn).
  split; [exact Quality.steady_ten_processed|].
  split; [exact H2 | split; [exact H3 | split; [exact H4 | split; [exact H5|]]]].
  exists report, tr. split; assumption.
Defined.

(** *** Ranges of the extracted features *)

Lemma sum_upper_bound (c : R) (l : list R) :
  Forall (fun x => x <= c) l -> sum l <= c * INR (length l).
Proof.
  induction 1 as [|x l Hx _ IH].
  - simpl. lra.
  - change (sum (x :: l)) with (x + sum l).
    change (length (x :: l)) with (S (length l)). rewrite S_INR. lra.
Qed.

Lemma mean_upper_bound (c : R) (l : list R) :
  l <> [] -> Forall (fun x => x <= c) l -> mean l <= c.
Proof.
  intros Hne Hall.
  assert (Hn : 0 < INR (length l)).
  { apply lt_0_INR. destruct l; [congruence | simpl; lia]. }
  pose proof (sum_upper_bound c l Hall) as Hs.
  unfold mean. apply Rmult_le_reg_r with (INR (length l)); [exact Hn|].
  unfold Rdiv. rewrite Rmult_assoc, Rinv_l, Rmult_1_r; lra.
Qed.

Lemma std_nonneg (l : list R) : 0 <= std l.
Proof. unfold std. apply sqrt_pos. Qed.

Lemma extract_features_pnn50_bounds
    (hr_df : list HeartRateSample) (hrv_df : list HrvSample) (hours : Z)
    (row : FeatureRow) :
  extract_features hr_df hrv_df hours = Ok [row] -> 0 <= pnn50 row <= 0.6.
Proof.
  intros Hrow. rewrite (Extraction.extract_features_pnn50 _ _ _ _ Hrow).
  match goal with |- context [(0 <? ?n)%nat] => destruct (0 <? n)%nat end.
  - apply Estimators.rmssd_estimate_bounds.
  - rewrite Estimators.hr_std_estimate_clamp.
    assert (H04 : 0 <= 0.4) by lra.
    match goal with
    | |- context [Estimators.clamp 0.4 ?v] =>
        pose proof (Estimators.clamp_bounds 0.4 v H04)
    end.
    lra.
Qed.

Lemma plausible_values_hr (l : list HeartRateSample) :
  Forall hr_plausible l ->
  Forall (fun x => 30 <= x) (map value l) /\ Forall (fun x => x <= 250) (map value l).
Proof.
  intros H. split; apply Forall_map; (eapply Forall_impl; [|exact H]);
    intros s Hs; apply Hs.
Qed.

(** X8: every feature row that extraction returns on ingested frames
    has between 10 and [len(heart_rate_data)] heart-rate samples, at
    most [len(hrv_data)] HRV samples, a mean rate in [[30, 250]], a
    non-negative deviation, [pnn50] in [[0, 0.6]], a quality score in
    [[0, 1]], and as timestamp the [startDate] of one of the supplied
    samples. *)
Theorem feature_row_ranges
    (hr_data hr_df : list HeartRateSample) (hrv_data hrv_df : list HrvSample)
    (hours : Z) (rows : list FeatureRow) :
  process_healthkit_heart_rate hr_data = Ok hr_df ->
  process_healthkit_hrv_data hrv_data = Ok hrv_df ->
  extract_features hr_df hrv_df hours = Ok rows ->
  exists row,
    rows = [row]
    /\ (10 <= sample_count_hr row <= length hr_data)%nat
    /\ (sample_count_hrv row <= length hrv_data)%nat
    /\ 30 <= mean_heart_rate row <= 250
    /\ 0 <= std_heart_rate row
    /\ 0 <= pnn50 row <= 0.6
    /\ 0 <= data_quality_score row <= 1
    /\ exists t,
         timestamp row = Some t
         /\ ((exists s, In s hr_data /\ startDate s = t)
             \/ (exists v, In v hrv_data /\ startDate v = t)).
Proof.
  intros Hhr Hhrv Hrows.
  destruct (extract_features_ok_inv _ _ _ _ Hrows)
    as (Hlen & row & -> & Hts & Hmean & Hstd & Hq & Hn & Hm).
  destruct (Ingestion.process_hr_inv _ _ Hhr) as [_ Ehr].
  destruct (Ingestion.process_hrv_inv _ _ Hhrv) as [_ Ehrv].
  assert (Hperm_hr : Permutation hr_df (_validate_heart_rate_data hr_data))
    by (rewrite Ehr; apply sort_values_perm).
  assert (Hperm_hrv : Permutation hrv_df (_validate_hrv_data hrv_data))
    by (rewrite Ehrv; apply sort_values_perm).
  assert (Hplaus : Forall hr_plausible (hr_window hr_df hrv_df hours)).
  { pose proof (process_hr_plausible _ _ Hhr) as Hdf.
    rewrite Forall_forall in *. intros s Hs. apply Hdf.
    eapply window_incl. exact Hs. }
  destruct (plausible_values_hr _ Hplaus) as [Hlo Hhi].
  assert (Hne : map value (hr_window hr_df hrv_df hours) <> []).
  { destruct (hr_window hr_df hrv_df hours); [simpl in Hlen; lia | discriminate]. }
  exists row. split; [reflexivity|].
  split.
  { rewrite Hn. split; [exact Hlen|].
    etransitivity; [apply Ingestion.filter_length_le|].
    rewrite (Permutation_length Hperm_hr). apply Ingestion.filter_length_le. }
  split.
  { rewrite Hm.
    etransitivity; [apply Ingestion.filter_length_le|].
    rewrite (Permutation_length Hperm_hrv). apply Ingestion.filter_length_le. }
  split.
  { rewrite Hmean. split;
      [now apply Quality.mean_lower_bound | now apply mean_upper_bound]. }
  split; [rewrite Hstd; apply std_nonneg|].
  split; [now apply (extract_features_pnn50_bounds hr_df hrv_df hours)|].
  split; [rewrite Hq, Quality.score_factors; apply Quality.score_of_bounds|].
  assert (Hdf : hr_df <> []).
  { intros ->. change (hr_window [] hrv_df hours) with (@nil HeartRateSample) in Hlen.
    simpl in Hlen. lia. }
  destruct (Windows.latest_time_some hr_df hrv_df Hdf) as (t & Ht & Hin & _).
  exists t. split; [now rewrite Hts|].
  unfold all_starts in Hin. apply in_app_or in Hin.
  destruct Hin as [Hin | Hin]; apply in_map_iff in Hin;
    destruct Hin as (x & Hx & Hin); [left | right]; exists x; split; try assumption.
  - apply (Permutation_in _ Hperm_hr) in Hin. apply filter_In in Hin. tauto.
  - apply (Permutation_in _ Hperm_hrv) in Hin. apply filter_In in Hin. tauto.
Qed.

Lemma feature_row_ranges_witness :
  process_healthkit_heart_rate (steady 10 72) = Ok (steady 10 72)
  /\ process_healthkit_hrv_data hrv_single = Ok hrv_single
  /\ exists row,
       extract_features (steady 10 72) hrv_single 24 = Ok [row]
       /\ 30 <= mean_heart_rate row <= 250
       /\ 0 <= pnn50 row <= 0.6
       /\ 0 <= data_quality_score row <= 1.
Proof.
  split; [exact Quality.steady_ten_processed|].
  split; [exact MinimumCount.hrv_single_processed|].
  destruct (Extraction.extract_features_sufficient (steady 10 72) hrv_single 24%Z)
    as (row & Hrow & _).
  { rewrite (proj1 Quality.steady_ten_window), Quality.steady_length. lia. }
  destruct (feature_row_ranges _ _ _ _ _ _ Quality.steady_ten_processed
              MinimumCount.hrv_single_processed Hrow)
    as (row' & Heq & _ & _ & Hmean & _ & Hp & Hq & _).
  injection Heq as <-.
  exists row. repeat split; try assumption; tauto.
Defined.

(** *** The argument of the RMSSD estimator *)

Lemma process_hrv_plausible (hrv_data hrv_df : list HrvSample) :
  process_healthkit_hrv_data hrv_data = Ok hrv_df -> Forall hrv_plausible hrv_df.
Proof.
  intros Hp. destruct (Ingestion.process_hrv_inv _ _ Hp) as [_ ->].
  apply sort_values_Forall, validate_hrv_plausible.
Qed.

Lemma clamp_positive (hi v : R) : 0 < hi -> 0 < v -> 0 < Estimators.clamp hi v.
Proof.
  intros Hhi Hv. unfold Estimators.clamp, py_min, py_max, Rltb.
  destruct (Rlt_dec 0 v); [|lra].
  destruct (Rlt_dec v hi); lra.
Qed.

(** X9: when extraction of an ingested HRV frame returns a row and the
    HRV window holds an RMSSD sample, the [pnn50] of the row is the RMSSD
    estimator applied to the mean [x] of the RMSSD values of the window,
    and [x] lies in [[1, 200]]: the base of the power [** 1.5] is
    positive, the [nan] branch of the power is not reached (so the
    [max] of line 314 compares numbers), and the [pnn50] of the row is
    strictly positive. *)
Theorem rmssd_estimator_argument_is_plausible
    (hrv_data hrv_df : list HrvSample) (hr_df : list HeartRateSample)
    (hours : Z) (rows : list FeatureRow) :
  process_healthkit_hrv_data hrv_data = Ok hrv_df ->
  extract_features hr_df hrv_df hours = Ok rows ->
  (exists s, In s (hrv_window hr_df hrv_df hours) /\ hrv_type s = "RMSSD") ->
  exists row x,
    rows = [row]
    /\ x = mean (map value
                   (filter (fun s => String.eqb (hrv_type s) "RMSSD")
                           (hrv_window hr_df hrv_df hours)))
    /\ pnn50 row = _estimate_pnn50_from_rmssd x
    /\ 1 <= x <= 200
    /\ np_power (x / 150) 1.5 = Some (Rpower (x / 150) 1.5)
    /\ pnn50 row = py_min 0.6 (py_max 0 (Rpower (x / 150) 1.5))
    /\ 0 < pnn50 row <= 0.6.
Proof.
  intros Hp Hrows (s0 & Hin0 & Hty0).
  destruct (extract_features_ok_inv _ _ _ _ Hrows) as (_ & row & -> & _).
  pose proof (Extraction.extract_features_pnn50 _ _ _ _ Hrows) as Hpnn.
  fold (Estimators.rmssd_data hr_df hrv_df hours) in *.
  assert (Hne : Estimators.rmssd_data hr_df hrv_df hours <> []).
  { intros Hnil.
    assert (Hs : In s0 (Estimators.rmssd_data hr_df hrv_df hours)).
    { apply filter_In. split; [exact Hin0 | now apply String.eqb_eq]. }
    rewrite Hnil in Hs. contradiction. }
  assert (Hpos : (0 <? length (Estimators.rmssd_data hr_df hrv_df hours))%nat = true).
  { apply Nat.ltb_lt.
    destruct (Estimators.rmssd_data hr_df hrv_df hours); [congruence | simpl; lia]. }
  rewrite Hpos in Hpnn.
  assert (Hall : Forall hrv_plausible (Estimators.rmssd_data hr_df hrv_df hours)).
  { pose proof (process_hrv_plausible _ _ Hp) as Hdf.
    rewrite Forall_forall in *. intros s Hs. apply Hdf.
    unfold Estimators.rmssd_data in Hs. apply filter_In in Hs.
    eapply window_incl. apply Hs. }
  assert (Hvals : map value (Estimators.rmssd_data hr_df hrv_df hours) <> []).
  { destruct (Estimators.rmssd_data hr_df hrv_df hours); [congruence | discriminate]. }
  assert (Hlo : 1 <= mean (map value (Estimators.rmssd_data hr_df hrv_df hours))).
  { apply Quality.mean_lower_bound; [exact Hvals|].
    apply Forall_map. eapply Forall_impl; [|exact Hall]. intros s Hs. apply Hs. }
  assert (Hhi : mean (map value (Estimators.rmssd_data hr_df hrv_df hours)) <= 200).
  { apply mean_upper_bound; [exact Hvals|].
    apply Forall_map. eapply Forall_impl; [|exact Hall]. intros s Hs. apply Hs. }
  exists row, (mean (map value (Estimators.rmssd_data hr_df hrv_df hours))).
  set (x := mean (map value (Estimators.rmssd_data hr_df hrv_df hours))) in *.
  assert (Hpow : np_power (x / 150) 1.5 = Some (Rpower (x / 150) 1.5)).
  { unfold np_power.
    rewrite (proj2 (Rltb_false (x / 150) 0)) by lra.
    rewrite (proj2 (Rltb_true 0 (x / 150))) by lra.
    reflexivity. }
  split; [reflexivity|]. split; [reflexivity|]. split; [exact Hpnn|].
  split; [split; assumption|]. split; [exact Hpow|].
  split.
  - rewrite Hpnn. unfold _estimate_pnn50_from_rmssd. rewrite Hpow. reflexivity.
  - rewrite Hpnn. split; [|apply Estimators.rmssd_estimate_bounds].
    rewrite Estimators.rmssd_estimate_positive by lra.
    apply clamp_positive; [lra|]. unfold Rpower. apply exp_pos.
Qed.

Lemma rmssd_estimator_witness :
  exists row,
    process_healthkit_hrv_data hrv_single = Ok hrv_single
    /\ extract_features (steady 10 72) hrv_single 24 = Ok [row]
    /\ (exists s, In s (hrv_window (steady 10 72) hrv_single 24)
                  /\ hrv_type s = "RMSSD")
    /\ 0 < pnn50 row <= 0.6.
Proof.
  destruct Quality.steady_ten_extracted as [row Hrow].
  assert (H3 : exists s, In s (hrv_window (steady 10 72) hrv_single 24)
                         /\ hrv_type s = "RMSSD").
  { rewrite (proj2 Quality.steady_ten_window).
    eexists. split; [left; reflexivity | reflexivity]. }
  exists row.
  split; [exact MinimumCount.hrv_single_processed|].
  split; [exact Hrow | split; [exact H3|]].
  destruct (rmssd_estimator_argument_is_plausible
              hrv_single hrv_single (steady 10 72) 24%Z [row]
              MinimumCount.hrv_single_processed Hrow H3)
    as (row' & x & Heq & _ & _ & _ & _ & _ & Hpos).
  injection Heq as <-. exact Hpos.
Defined.

(** *** Independence of the row order *)

Lemma filter_perm {A : Type} (f : A -> bool) (l l' : list A) :
  Permutation l l' -> Permutation (filter f l) (filter f l').
Proof.
  induction 1 as [| x l l' _ IH | x y l | l l' l'' _ IH1 _ IH2]; simpl.
  - constructor.
  - destruct (f x); [now constructor | exact IH].
  - destruct (f x), (f y); try reflexivity. apply perm_swap.
  - now transitivity (filter f l').
Qed.

Lemma series_max_perm (l l' : list Z) :
  Permutation l l' -> series_max l = series_max l'.
Proof.
  intros Hp. destruct l as [|x l0] eqn:El.
  - apply Permutation_nil in Hp. now subst.
  - rewrite <- El in *.
    assert (Hl : l <> []) by (rewrite El; discriminate).
    assert (Hl' : l' <> []).
    { intros ->. apply Permutation_sym, Permutation_nil in Hp. congruence. }
    destruct (series_max_spec l Hl) as (m & -> & Hin & Hall).
    destruct (series_max_spec l' Hl') as (m' & -> & Hin' & Hall').
    rewrite Forall_forall in Hall, Hall'.
    pose proof (Hall' m (Permutation_in _ Hp Hin)).
    pose proof (Hall m' (Permutation_in _ (Permutation_sym Hp) Hin')).
    f_equal. lia.
Qed.

(** X10: the outcome of extraction does not depend on the order of the
    rows of either frame: for reordered frames the reference instant is
    the same, the windows hold the same rows, the same error is raised
    if any, and a returned row has the same timestamp and the same two
    sample counts. *)
Theorem extraction_outcome_ignores_row_order
    (hr hr' : list HeartRateSample) (hrv hrv' : list HrvSample) (hours : Z) :
  Permutation hr hr' ->
  Permutation hrv hrv' ->
  latest_time hr hrv = latest_time hr' hrv'
  /\ Permutation (hr_window hr hrv hours) (hr_window hr' hrv' hours)
  /\ Permutation (hrv_window hr hrv hours) (hrv_window hr' hrv' hours)
  /\ (forall e, extract_features hr hrv hours = Raise e <->
                extract_features hr' hrv' hours = Raise e)
  /\ (forall row row',
      extract_features hr hrv hours = Ok [row] ->
      extract_features hr' hrv' hours = Ok [row'] ->
      timestamp row = timestamp row'
      /\ sample_count_hr row = sample_count_hr row'
      /\ sample_count_hrv row = sample_count_hrv row').
Proof.
  intros Hp Hq.
  assert (Hl : latest_time hr hrv = latest_time hr' hrv').
  { unfold latest_time.
    rewrite (series_max_perm (map startDate hr) (map startDate hr'))
      by now apply Permutation_map.
    rewrite (series_max_perm (map startDate hrv) (map startDate hrv'))
      by now apply Permutation_map.
    reflexivity. }
  assert (Hst : start_time hr hrv hours = start_time hr' hrv' hours).
  { unfold start_time. now rewrite Hl. }
  assert (Hw1 : Permutation (hr_window hr hrv hours) (hr_window hr' hrv' hours)).
  { unfold hr_window, window_start, window. rewrite Hst, Hl. now apply filter_perm. }
  assert (Hw2 : Permutation (hrv_window hr hrv hours) (hrv_window hr' hrv' hours)).
  { unfold hrv_window, window_start, window. rewrite Hst, Hl.
    now apply filter_perm. }
  pose proof (Permutation_length Hw1) as Hn1.
  pose proof (Permutation_length Hw2) as Hn2.
  split; [exact Hl | split; [exact Hw1 | split; [exact Hw2 | split]]].
  - assert (Hboth : forall (ha hb : list HeartRateSample) (va vb : list HrvSample),
               start_time ha va hours = start_time hb vb hours ->
               length (hr_window ha va hours) = length (hr_window hb vb hours) ->
               forall e, extract_features ha va hours = Raise e ->
                         extract_features hb vb hours = Raise e).
    { intros ha hb va vb Hsame Hlen e He.
      destruct (start_time ha va hours) as [start|e0] eqn:Hs.
      - symmetry in Hsame.
        destruct (Nat.lt_ge_cases (length (hr_window ha va hours)) 10)
          as [Hlt | Hge].
        + rewrite (Extraction.extract_features_insufficient _ _ _ _ Hs Hlt) in He.
          rewrite (Extraction.extract_features_insufficient _ _ _ _ Hsame) by lia.
          now rewrite <- Hlen.
        + destruct (Extraction.extract_features_sufficient _ _ _ Hge)
            as (row & Hrow & _). congruence.
      - symmetry in Hsame.
        rewrite (Extraction.extract_features_raises_with_start _ _ _ _ Hs) in He.
        now rewrite (Extraction.extract_features_raises_with_start _ _ _ _ Hsame). }
    intros e. split; intros He.
    + exact (Hboth hr hr' hrv hrv' Hst Hn1 e He).
    + exact (Hboth hr' hr hrv' hrv (eq_sym Hst) (eq_sym Hn1) e He).
  - intros row row' Hrow Hrow'.
    destruct (extract_features_ok_inv _ _ _ _ Hrow)
      as (_ & r & Heq & Hts & _ & _ & _ & Hn & Hm).
    destruct (extract_features_ok_inv _ _ _ _ Hrow')
      as (_ & r' & Heq' & Hts' & _ & _ & _ & Hn' & Hm').
    injection Heq as <-. injection Heq' as <-.
    rewrite Hts, Hts', Hn, Hn', Hm, Hm'. repeat split; congruence.
Qed.

Definition hr_reversed : list HeartRateSample := rev (steady 10 72).

Lemma extraction_order_witness :
  Permutation (steady 10 72) hr_reversed
  /\ Permutation hrv_single hrv_single
  /\ latest_time (steady 10 72) hrv_single = latest_time hr_reversed hrv_single
  /\ Permutation (hr_window (steady 10 72) hrv_single 24)
                 (hr_window hr_reversed hrv_single 24).
Proof.
  assert (H1 : Permutation (steady 10 72) hr_reversed) by apply Permutation_rev.
  assert (H2 : Permutation hrv_single hrv_single) by reflexivity.
  destruct (extraction_outcome_ignores_row_order _ _ _ _ 24%Z H1 H2)
    as (Hl & Hw & _).
  repeat split; assumption.
Defined.

End Features.

(* ------------------------------------------------------------------ *)
(** ** Results and report *)

Module Reporting.

Import Validator Reporter.

Open Scope R_scope.

(** X11: with a predictor whose two probabilities form a
    distribution, every result row satisfies
    [confidence = max(p, 1 - p)] for [p = irregular_probability]; so
    the confidence is at most 1, never below the irregular probability,
    and equal to it exactly when that probability is at least 0.5. *)
Theorem confidence_mirrors_irregular_probability
    (m : Predictor) (features_df : list FeatureRow) (tr tr' : list call)
    (results_df : list ResultRow) :
  Inference.valid_distribution m ->
  predict_rhythm (Some m) features_df tr = (Ok results_df, tr') ->
  length results_df = length features_df
  /\ Forall (fun r =>
               confidence r
               = Rmax (irregular_probability r) (1 - irregular_probability r)
               /\ irregular_probability r <= confidence r <= 1
               /\ (confidence r = irregular_probability r <->
                   0.5 <= irregular_probability r)
               /\ normal_probability r = 1 - irregular_probability r)
            results_df.
Proof.
  intros Hm Hp. rewrite Inference.predict_rhythm_loaded in Hp.
  injection Hp as <- _. split; [apply length_map|].
  apply Forall_map, Forall_forall. intros r _.
  destruct (Hm (feature_columns r)) as (H0 & H1 & Hsum).
  cbn [Inference.classify result_row confidence irregular_probability
       normal_probability].
  set (p0 := fst (predict_proba m (feature_columns r))) in *.
  set (p1 := snd (predict_proba m (feature_columns r))) in *.
  unfold Rmax.
  destruct (Rle_dec p0 p1); destruct (Rle_dec p1 (1 - p1));
    repeat split; intros; lra.
Qed.

Lemma confidence_mirror_witness :
  Inference.valid_distribution constant_predictor
  /\ exists results_df tr',
       predict_rhythm (Some constant_predictor) [some_features] []
       = (Ok results_df, tr')
       /\ Forall (fun r => irregular_probability r <= confidence r <= 1) results_df.
Proof.
  split; [exact Inference.constant_predictor_valid|].
  do 2 eexists. split; [apply Inference.predict_rhythm_loaded|].
  destruct (confidence_mirrors_irregular_probability
              constant_predictor [some_features] [] _ _
              Inference.constant_predictor_valid
              (Inference.predict_rhythm_loaded constant_predictor [some_features] []))
    as [_ Hall].
  eapply Forall_impl; [|exact Hall]. intros r Hr. apply Hr.
Defined.

(** *** The recommendation list *)

Definition ecg_request : string :=
  "Consider additional ECG recordings for confirmation".

Definition fit_tip : string :=
  "Improve data quality by ensuring proper Apple Watch fit".

Ltac decide_membership :=
  simpl; repeat split; intros;
  repeat match goal with
         | H : _ \/ _ |- _ => destruct H
         | H : False |- _ => contradiction
         | H : _ /\ _ |- _ => destruct H
         | H : @eq string _ _ |- _ => discriminate H
         | H : @eq bool _ _ |- _ => discriminate H
         end;
  try tauto; try (left; reflexivity); try lia.

(** X12: the recommendation list never repeats an entry and holds
    between two and seven entries; the request for ECG recordings is in
    it exactly when the label is ["Irregular"] and the confidence is
    below 0.7, and the Apple Watch fit tip exactly when the quality
    score is below 0.5. *)
Theorem recommendations_are_distinct_and_conditional (result : ResultRow) :
  NoDup (_generate_recommendations result)
  /\ (2 <= length (_generate_recommendations result) <= 7)%nat
  /\ (In ecg_request (_generate_recommendations result) <->
      rhythm_classification result = "Irregular" /\ confidence result < 0.7)
  /\ (In fit_tip (_generate_recommendations result) <->
      data_quality_score (features result) < 0.5).
Proof.
  rewrite recommendations_shape.
  unfold follow_up_advice, more_data_request, quality_tips, wellness_reminders,
    ecg_request, fit_tip.
  rewrite <- (Rltb_true (confidence result) 0.7).
  rewrite <- (Rltb_true (data_quality_score (features result)) 0.5).
  rewrite <- (String.eqb_eq (rhythm_classification result) "Irregular").
  destruct (String.eqb (rhythm_classification result) "Irregular");
    destruct (Rltb (confidence result) 0.7);
    destruct (Rltb (data_quality_score (features result)) 0.5);
    (split; [repeat constructor; simpl; intuition discriminate|]);
    decide_membership.
Qed.

Lemma fit_tip_iff (result : ResultRow) :
  In fit_tip (_generate_recommendations result) <->
  data_quality_score (features result) < 0.5.
Proof.
  rewrite recommendations_shape.
  unfold follow_up_advice, more_data_request, quality_tips, wellness_reminders,
    fit_tip.
  rewrite <- (Rltb_true (data_quality_score (features result)) 0.5).
  destruct (String.eqb (rhythm_classification result) "Irregular");
    destruct (Rltb (confidence result) 0.7);
    destruct (Rltb (data_quality_score (features result)) 0.5);
    decide_membership.
Qed.

Lemma score_at_least_half (n m : nat) (cv : quotient) :
  ((50 <= n)%nat /\ (1 <= m)%nat) \/ ((20 <= n)%nat /\ (5 <= m)%nat) ->
  0.5 <= Quality.score_of n m cv.
Proof.
  intros Hc. unfold Quality.score_of. Quality.split_counts;
    destruct (quotient_ltb cv 0.3); destruct (quotient_ltb cv 0.5);
    Quality.finish_score.
Qed.

Lemma score_below_half (n m : nat) (cv : quotient) :
  (n < 20)%nat -> (m < 5)%nat -> Quality.score_of n m cv < 0.5.
Proof.
  intros Hn Hm. unfold Quality.score_of. Quality.split_counts;
    destruct (quotient_ltb cv 0.3); destruct (quotient_ltb cv 0.5);
    Quality.finish_score.
Qed.

(** X13: the sample counts of an extracted row decide the Apple Watch
    fit tip in two regions, whatever the readings: with at least 50
    heart-rate and 1 HRV sample, or at least 20 heart-rate and 5 HRV
    samples, the tip is never issued; with fewer than 20 heart-rate and
    fewer than 5 HRV samples it is always issued. *)
Theorem sample_counts_decide_the_fit_tip
    (m : Predictor) (hr_df : list HeartRateSample) (hrv_df : list HrvSample)
    (hours : Z) (row : FeatureRow) :
  extract_features hr_df hrv_df hours = Ok [row] ->
  ((((50 <= sample_count_hr row)%nat /\ (1 <= sample_count_hrv row)%nat)
    \/ ((20 <= sample_count_hr row)%nat /\ (5 <= sample_count_hrv row)%nat)) ->
   0.5 <= data_quality_score row
   /\ ~ In fit_tip (_generate_recommendations (Inference.classify m row)))
  /\ ((sample_count_hr row < 20)%nat -> (sample_count_hrv row < 5)%nat ->
      data_quality_score row < 0.5
      /\ In fit_tip (_generate_recommendations (Inference.classify m row))).
Proof.
  intros Hrow.
  destruct (Features.extract_features_ok_inv _ _ _ _ Hrow)
    as (_ & r & Heq & _ & _ & _ & Hq & Hn & Hm).
  injection Heq as <-.
  rewrite fit_tip_iff.
  cbn [Inference.classify result_row features].
  rewrite Hq, Quality.score_factors, Hn, Hm.
  split.
  - intros Hc. pose proof (score_at_least_half _ _
      (Quality.coefficient_of_variation (hr_window hr_df hrv_df hours)) Hc).
    split; lra.
  - intros H1 H2. pose proof (score_below_half _ _
      (Quality.coefficient_of_variation (hr_window hr_df hrv_df hours)) H1 H2).
    split; lra.
Qed.

Lemma fit_tip_witness :
  exists row,
    extract_features (steady 10 72) hrv_single 24 = Ok [row]
    /\ (sample_count_hr row < 20)%nat
    /\ (sample_count_hrv row < 5)%nat
    /\ In fit_tip
          (_generate_recommendations (Inference.classify constant_predictor row)).
Proof.
  destruct (Extraction.extract_features_sufficient (steady 10 72) hrv_single 24%Z)
    as (row & Hrow & _ & _ & _ & _ & Hn & Hm).
  { rewrite (proj1 Quality.steady_ten_window), Quality.steady_length. lia. }
  rewrite (proj1 Quality.steady_ten_window), Quality.steady_length in Hn.
  rewrite (proj2 Quality.steady_ten_window) in Hm. simpl in Hm.
  assert (H1 : (sample_count_hr row < 20)%nat) by lia.
  assert (H2 : (sample_count_hrv row < 5)%nat) by lia.
  exists row. split; [exact Hrow | split; [exact H1 | split; [exact H2|]]].
  exact (proj2 (proj2 (sample_counts_decide_the_fit_tip
                         constant_predictor _ _ _ _ Hrow) H1 H2)).
Defined.

(** *** The rate shown in the interpretation *)

Lemma round_half_even_near (x : R) :
  Rabs (IZR (round_half_even x) - x) <= 1 / 2.
Proof.
  unfold round_half_even. pose proof (Zfloor_bound x) as [Hlo Hhi].
  destruct (Rltb (x - IZR (Zfloor x)) (1 / 2)) eqn:H1.
  - apply Rltb_true in H1. apply Rabs_le. lra.
  - apply Rltb_false in H1.
    destruct (Rltb (1 / 2) (x - IZR (Zfloor x))) eqn:H2.
    + rewrite plus_IZR. apply Rabs_le. lra.
    + apply Rltb_false in H2.
      destruct (Z.even (Zfloor x)); [|rewrite plus_IZR]; apply Rabs_le; lra.
Qed.

Lemma round_half_even_between (a b : Z) (x : R) :
  IZR a <= x <= IZR b -> (a <= round_half_even x <= b)%Z.
Proof.
  intros [Ha Hb]. unfold round_half_even.
  pose proof (Zfloor_bound x) as [Hlo Hhi].
  pose proof (Zfloor_lub a x Ha) as Hfa.
  assert (Hfb : (Zfloor x <= b)%Z) by (apply le_IZR; lra).
  assert (Hup : 1 / 2 <= x - IZR (Zfloor x) -> (Zfloor x + 1 <= b)%Z).
  { intros Hf. assert (Hlt : (Zfloor x < b)%Z) by (apply lt_IZR; lra). lia. }
  destruct (Rltb (x - IZR (Zfloor x)) (1 / 2)) eqn:H1; [lia|].
  apply Rltb_false in H1. specialize (Hup H1).
  destruct (Rltb (1 / 2) (x - IZR (Zfloor x))); [lia|].
  destruct (Z.even (Zfloor x)); lia.
Qed.

(** X14: for a result whose mean heart rate lies in [[30, 250]], as
    every mean extracted from validated readings does, the rate embedded
    in the interpretation is the decimal rendering of an integer between
    30 and 250 within one half of the mean. *)
Theorem interpretation_shows_the_rounded_rate (result : ResultRow) :
  30 <= mean_heart_rate (features result) <= 250 ->
  exists n : Z,
    (30 <= n <= 250)%Z
    /\ Rabs (IZR n - mean_heart_rate (features result)) <= 1 / 2
    /\ In (_generate_clinical_interpretation result)
          [ high_confidence_normal (str_int n);
            likely_normal (str_int n);
            high_confidence_irregular (str_int n);
            possible_irregular (str_int n) ].
Proof.
  intros Hmean.
  exists (round_half_even (mean_heart_rate (features result))).
  split; [apply round_half_even_between; lra|].
  split; [apply round_half_even_near|].
  assert (Hfmt : format_0f (mean_heart_rate (features result))
                 = str_int (round_half_even (mean_heart_rate (features result)))).
  { unfold format_0f.
    rewrite (proj2 (Rltb_false (mean_heart_rate (features result)) 0)) by lra.
    reflexivity. }
  unfold _generate_clinical_interpretation. rewrite Hfmt.
  destruct (String.eqb (rhythm_classification result) "Normal");
    destruct (Rltb 0.8 (confidence result)); simpl; tauto.
Qed.

Lemma interpretation_rate_witness :
  30 <= mean_heart_rate (features borderline_normal) <= 250
  /\ exists n : Z,
       (30 <= n <= 250)%Z
       /\ In (_generate_clinical_interpretation borderline_normal)
             [ high_confidence_normal (str_int n);
               likely_normal (str_int n);
               high_confidence_irregular (str_int n);
               possible_irregular (str_int n) ].
Proof.
  assert (H : 30 <= mean_heart_rate (features borderline_normal) <= 250)
    by (simpl; lra).
  split; [exact H|].
  destruct (interpretation_shows_the_rounded_rate borderline_normal H)
    as (n & Hn & _ & Hin).
  exists n. split; assumption.
Defined.

(** *** The row behind the report *)

(** X15: the report is built from the last row of the result frame
    alone, earlier rows having no influence; it is refused exactly when
    the frame is empty, and then with the [IndexError] of [iloc[-1]],
    "single positional indexer is out-of-bounds", and no other
    exception. *)
Theorem report_reads_the_last_row_only :
  (forall rows r, generate_health_report (rows ++ [r]) = generate_health_report [r])
  /\ (forall rows r,
      exists report,
        generate_health_report (rows ++ [r]) = Ok report
        /\ report_timestamp report = timestamp (features r)
        /\ report_rhythm_classification report = rhythm_classification r
        /\ confidence_score report = confidence r
        /\ report_irregular_probability report = irregular_probability r
        /\ clinical_interpretation report = _generate_clinical_interpretation r
        /\ recommendations report = _generate_recommendations r)
  /\ generate_health_report []
     = Raise (IndexError "single positional indexer is out-of-bounds")
  /\ (forall rows e,
      generate_health_report rows = Raise e ->
      rows = [] /\ e = IndexError "single positional indexer is out-of-bounds")
  /\ (forall rows,
      generate_health_report rows
      = Raise (IndexError "single positional indexer is out-of-bounds")
      <-> rows = []).
Proof.
  assert (Hlast : forall rows r,
             generate_health_report (rows ++ [r]) = generate_health_report [r]).
  { intros rows r. unfold generate_health_report, iloc_last.
    rewrite rev_app_distr. reflexivity. }
  assert (Hraise : forall rows e,
             generate_health_report rows = Raise e ->
             rows = [] /\ e = IndexError "single positional indexer is out-of-bounds").
  { intros rows e He. destruct rows as [|r0 rows'] using rev_ind.
    - split; [reflexivity|].
      unfold generate_health_report, iloc_last in He. cbn [rev] in He. congruence.
    - rewrite Hlast in He. discriminate. }
  split; [exact Hlast | split; [|split; [reflexivity | split; [exact Hraise|]]]].
  - intros rows r. rewrite Hlast. eexists. split; [reflexivity|]. repeat split.
  - intros rows. split.
    + intros He. exact (proj1 (Hraise rows _ He)).
    + intros ->. reflexivity.
Qed.

Lemma report_last_row_witness :
  generate_health_report [borderline_normal; doubtful_irregular]
  = generate_health_report [doubtful_irregular]
  /\ generate_health_report []
     = Raise (IndexError "single positional indexer is out-of-bounds")
  /\ (generate_health_report [borderline_normal]
      <> Raise (IndexError "single positional indexer is out-of-bounds")).
Proof.
  destruct report_reads_the_last_row_only as (Hlast & _ & Hnil & _ & Hiff).
  split; [exact (Hlast [borderline_normal] doubtful_irregular)|].
  split; [exact Hnil|].
  intros H. apply (proj1 (Hiff [borderline_normal])) in H. discriminate H.
Defined.

End Reporting.

(* ------------------------------------------------------------------ *)
(** ** Outcomes of the pipeline *)

Module Outcomes.

Import Validator.

(** The exceptions of line 171. *)
Lemma start_time_raises
    (hr_df : list HeartRateSample) (hrv_df : list HrvSample) (hours : Z)
    (e : exn) :
  start_time hr_df hrv_df hours = Raise e ->
  e = OverflowError \/ e = OutOfBounds.
Proof.
  unfold start_time, timedelta_hours, ts_sub.
  destruct ((hours <? -23999999976) || (23999999999 <? hours))%Z.
  - intros [= <-]. now left.
  - destruct (latest_time hr_df hrv_df) as [t|]; [|discriminate].
    destruct (86399999913600000000000 <? hours * 3600000000000)%Z.
    + intros [= <-]. now left.
    + destruct (representable (- (hours * 3600000000000))
                && representable (t - hours * 3600000000000));
        [discriminate|].
      intros [= <-]. now right.
Qed.

(** Every run of the pipeline falls in exactly one of six cases. *)
Lemma pipeline_cases (model : option Predictor)
    (hr_data : list HeartRateSample) (hrv_data : list HrvSample) (hours : Z) :
  (hr_data = []
   /\ run (pipeline model hr_data hrv_data hours)
      = (Raise (ValueError "No heart rate data provided"), []))
  \/ (hr_data <> [] /\ hrv_data = []
      /\ run (pipeline model hr_data hrv_data hours)
         = (Raise (ValueError "No HRV data provided"), []))
  \/ (exists hr_df hrv_df,
         process_healthkit_heart_rate hr_data = Ok hr_df
         /\ process_healthkit_hrv_data hrv_data = Ok hrv_df
         /\ (((length (hr_window hr_df hrv_df hours) < 10)%nat
              /\ (exists start, start_time hr_df hrv_df hours = Ok start)
              /\ run (pipeline model hr_data hrv_data hours)
                 = (Raise (ValueError
                             (insufficient_message hours
                                (length (hr_window hr_df hrv_df hours)))), []))
             \/ ((10 <= length (hr_window hr_df hrv_df hours))%nat
                 /\ model = None
                 /\ run (pipeline model hr_data hrv_data hours)
                    = (Raise (ValueError "Model not loaded"), []))
             \/ ((10 <= length (hr_window hr_df hrv_df hours))%nat
                 /\ (exists m row report,
                      model = Some m
                      /\ extract_features hr_df hrv_df hours = Ok [row]
                      /\ generate_health_report [Inference.classify m row] = Ok report
                      /\ run (pipeline model hr_data hrv_data hours)
                         = (Ok report,
                            [ CallPredict [feature_columns row];
                              CallPredictProba [feature_columns row] ])))
             \/ (exists e,
                   start_time hr_df hrv_df hours = Raise e
                   /\ run (pipeline model hr_data hrv_data hours) = (Raise e, [])))).
Proof.
  destruct hr_data as [|s hr'] eqn:Ehr; [left; now split|]. rewrite <- Ehr.
  assert (Hhr : hr_data <> []) by (rewrite Ehr; discriminate).
  destruct hrv_data as [|v hrv'] eqn:Ehrv.
  { right; left. split; [exact Hhr | split; [reflexivity|]].
    unfold run, pipeline, bind. rewrite (Ingestion.process_hr_ok _ Hhr). reflexivity. }
  rewrite <- Ehrv.
  assert (Hhrv : hrv_data <> []) by (rewrite Ehrv; discriminate).
  right; right.
  pose proof (Ingestion.process_hr_ok _ Hhr) as Hp1.
  pose proof (Ingestion.process_hrv_ok _ Hhrv) as Hp2.
  set (hr_df := sort_values (_validate_heart_rate_data hr_data)) in *.
  set (hrv_df := sort_values (_validate_hrv_data hrv_data)) in *.
  exists hr_df, hrv_df. split; [exact Hp1 | split; [exact Hp2|]].
  destruct (start_time hr_df hrv_df hours) as [start|e] eqn:Hs.
  - destruct (Nat.lt_ge_cases (length (hr_window hr_df hrv_df hours)) 10)
      as [Hlt | Hge].
    + left. split; [exact Hlt | split; [now exists start|]].
      unfold run, pipeline, bind. rewrite Hp1, Hp2. simpl lift. unfold ret at 1 2.
      rewrite (Extraction.extract_features_insufficient _ _ _ _ Hs Hlt). reflexivity.
    + right. destruct model as [m|].
      * right; left. split; [exact Hge|].
        destruct (Inference.pipeline_returns_report m _ _ _ _ hours Hp1 Hp2 Hge)
          as (row & report & Hrow & Hrep & Hrun).
        exists m, row, report. repeat split; assumption.
      * left. split; [exact Hge | split; [reflexivity|]].
        destruct (Extraction.extract_features_sufficient _ _ _ Hge)
          as (row & Hrow & _).
        unfold run, pipeline, bind. rewrite Hp1, Hp2. simpl lift. unfold ret at 1 2.
        rewrite Hrow. reflexivity.
  - right; right; right. exists e. split; [reflexivity|].
    unfold run, pipeline, bind. rewrite Hp1, Hp2. simpl lift. unfold ret at 1 2.
    rewrite (Extraction.extract_features_raises_with_start _ _ _ _ Hs). reflexivity.
Qed.

(** X16: every failure of the pipeline is raised before any predictor
    call and is either a [ValueError] or the exception with which the
    subtraction of line 171 refuses the window length on the ingested
    frames ([OverflowError] or pandas' out-of-bounds error);
    [IndexError] never occurs.  Every report comes with exactly one
    [predict] call followed by one [predict_proba] call on the same
    one-row matrix; and a missing model is reported only when the data
    would have sufficed, so it stays unnoticed on runs that fail for
    lack of data. *)
Theorem pipeline_fails_early_or_calls_exactly_twice
    (model : option Predictor)
    (hr_data : list HeartRateSample) (hrv_data : list HrvSample) (hours : Z) :
  (forall e tr,
      run (pipeline model hr_data hrv_data hours) = (Raise e, tr) ->
      tr = []
      /\ ((exists msg, e = ValueError msg)
          \/ ((e = OverflowError \/ e = OutOfBounds)
              /\ exists hr_df hrv_df,
                   process_healthkit_heart_rate hr_data = Ok hr_df
                   /\ process_healthkit_hrv_data hrv_data = Ok hrv_df
                   /\ start_time hr_df hrv_df hours = Raise e))
      /\ (forall msg, e <> IndexError msg))
  /\ (forall report tr,
      run (pipeline model hr_data hrv_data hours) = (Ok report, tr) ->
      exists m x,
        model = Some m
        /\ tr = [ CallPredict [x]; CallPredictProba [x] ])
  /\ (run (pipeline model hr_data hrv_data hours)
      = (Raise (ValueError "Model not loaded"), []) ->
      model = None
      /\ exists hr_df hrv_df start,
           process_healthkit_heart_rate hr_data = Ok hr_df
           /\ process_healthkit_hrv_data hrv_data = Ok hrv_df
           /\ start_time hr_df hrv_df hours = Ok start
           /\ (10 <= length (window hr_df start (latest_time hr_df hrv_df)))%nat).
Proof.
  destruct (pipeline_cases model hr_data hrv_data hours)
    as [[_ Hrun] | [(_ & _ & Hrun) | (hr_df & hrv_df & Hp1 & Hp2 & Hcases)]].
  - rewrite Hrun. split; [|split].
    + intros e tr [= <- <-].
      split; [reflexivity | split; [left; eexists; reflexivity | discriminate]].
    + intros; discriminate.
    + intros H. discriminate H.
  - rewrite Hrun. split; [|split].
    + intros e tr [= <- <-].
      split; [reflexivity | split; [left; eexists; reflexivity | discriminate]].
    + intros; discriminate.
    + intros H. discriminate H.
  - destruct Hcases as [(Hlt & _ & Hrun) | [(Hge & Hm & Hrun) |
                        [(Hge & m & row & report & Hm & _ & _ & Hrun) |
                         (e0 & Hs & Hrun)]]];
      rewrite Hrun.
    + split; [|split].
      * intros e tr [= <- <-].
        split; [reflexivity | split; [left; eexists; reflexivity | discriminate]].
      * intros; discriminate.
      * intros H. exfalso. unfold insufficient_message in H. discriminate H.
    + split; [|split].
      * intros e tr [= <- <-].
        split; [reflexivity | split; [left; eexists; reflexivity | discriminate]].
      * intros; discriminate.
      * intros _. split; [exact Hm|].
        destruct (Extraction.nonempty_window_start_ok hr_df hrv_df hours)
          as [start Hs].
        { intros Hnil. rewrite Hnil in Hge. simpl in Hge. lia. }
        exists hr_df, hrv_df, start.
        rewrite (proj1 (Extraction.windows_after_start _ _ _ _ Hs)) in Hge.
        repeat split; assumption.
    + split; [|split].
      * intros; discriminate.
      * intros report' tr [= _ <-]. exists m. eexists. split; [exact Hm | reflexivity].
      * intros; discriminate.
    + pose proof (start_time_raises _ _ _ _ Hs) as Hkind.
      split; [|split].
      * intros e tr [= <- <-]. split; [reflexivity | split].
        -- right. split; [exact Hkind|]. now exists hr_df, hrv_df.
        -- intros msg. destruct Hkind as [-> | ->]; discriminate.
      * intros; discriminate.
      * intros H. destruct Hkind as [-> | ->]; discriminate H.
Qed.

Lemma pipeline_outcome_witness :
  run (pipeline None (steady 10 72) hrv_single 24)
  = (Raise (ValueError "Model not loaded"), [])
  /\ run (pipeline None hr_eight hrv_single 24)
     <> (Raise (ValueError "Model not loaded"), []).
Proof.
  assert (H1 : run (pipeline None (steady 10 72) hrv_single 24)
               = (Raise (ValueError "Model not loaded"), [])).
  { destruct (pipeline_cases None (steady 10 72) hrv_single 24)
      as [[H _] | [(_ & H & _) | (hr_df & hrv_df & Hp1 & Hp2 & Hcases)]];
      try discriminate.
    rewrite Quality.steady_ten_processed in Hp1. injection Hp1 as <-.
    rewrite MinimumCount.hrv_single_processed in Hp2. injection Hp2 as <-.
    rewrite (proj1 Quality.steady_ten_window), Quality.steady_length in Hcases.
    destruct Hcases as [[Hlt _] | [(_ & _ & Hrun) | [(_ & m & _ & _ & Hm & _) |
                                                     (e & Hs & _)]]];
      [lia | exact Hrun | discriminate | discriminate]. }
  split; [exact H1|].
  intros H2.
  destruct (proj2 (proj2 (pipeline_fails_early_or_calls_exactly_twice
                            None hr_eight hrv_single 24)) H2)
    as (_ & hr_df & hrv_df & start & Hp1 & Hp2 & Hs & Hge).
  rewrite MinimumCount.hr_eight_processed in Hp1. injection Hp1 as <-.
  rewrite MinimumCount.hrv_single_processed in Hp2. injection Hp2 as <-.
  assert (Hle : (length (window hr_eight start (latest_time hr_eight hrv_single))
                 <= length hr_eight)%nat)
    by (unfold window; apply Ingestion.filter_length_le).
  change (length hr_eight) with 8%nat in Hle. lia.
Defined.

End Outcomes.

(* ------------------------------------------------------------------ *)
(** ** Loading the model *)

Module Loading.

Lemma load_model_done_inv (files : Files) (path : string) (p : Processor) :
  load_model files path = Done p ->
  exists m,
    model_file files = Some m
    /\ processor_model_pipeline p = Some m
    /\ processor_model_path p = path
    /\ processor_metadata p = metadata_file files
    /\ (metadata_file files = None
        \/ exists md a, metadata_file files = Some md /\ auc_score md = Some a).
Proof.
  unfold load_model.
  destruct (model_file files) as [m|]; [|discriminate].
  destruct (metadata_file files) as [md|].
  - destruct (auc_score md) as [a|] eqn:Ha; [|discriminate].
    intros [= <-]. exists m. repeat split. right. now exists md, a.
  - intros [= <-]. exists m. repeat split. now left.
Qed.

(** X17: constructing the processor raises [FileNotFoundError] exactly
    when the model file is missing; a missing metadata file is
    tolerated, but a metadata file without ['auc_score'] makes the
    construction fail with a [ValueError] although the model file was
    read; a processor that is constructed always holds a model, so
    [predict_rhythm] on it never raises "Model not loaded". *)
Theorem load_model_outcomes (files : Files) (path : string) :
  ((exists msg, load_model files path = Failed (FileNotFoundError msg))
   <-> model_file files = None)
  /\ (model_file files = None ->
      load_model files path
      = Failed (FileNotFoundError ("Model file not found: " ++ path)))
  /\ ((exists p, load_model files path = Done p)
      <-> model_file files <> None
          /\ (metadata_file files = None
              \/ exists md a, metadata_file files = Some md /\ auc_score md = Some a))
  /\ (forall md,
      model_file files <> None ->
      metadata_file files = Some md ->
      auc_score md = None ->
      exists msg, load_model files path = Failed (Builtin (ValueError msg)))
  /\ (forall p features_df tr,
      load_model files path = Done p ->
      exists results_df tr',
        predict_rhythm (processor_model_pipeline p) features_df tr
        = (Ok results_df, tr')).
Proof.
  split; [|split; [|split; [|split]]].
  - unfold load_model. split.
    + intros [msg H]. destruct (model_file files); [|reflexivity].
      destruct (metadata_file files) as [md|]; [destruct (auc_score md)|];
        discriminate.
    + intros ->. eexists. reflexivity.
  - unfold load_model. intros ->. reflexivity.
  - split.
    + intros [p Hp]. destruct (load_model_done_inv _ _ _ Hp)
        as (m & Hm & _ & _ & _ & Hmd).
      split; [congruence | exact Hmd].
    + intros [Hm Hmd]. unfold load_model.
      destruct (model_file files) as [m|]; [|congruence].
      destruct Hmd as [-> | (md & a & -> & ->)]; eexists; reflexivity.
  - intros md Hm Hmd Ha. unfold load_model.
    destruct (model_file files) as [m|]; [|congruence].
    rewrite Hmd, Ha. eexists. reflexivity.
  - intros p features_df tr Hp.
    destruct (load_model_done_inv _ _ _ Hp) as (m & _ & -> & _).
    do 2 eexists. apply Inference.predict_rhythm_loaded.
Qed.

(** A model file next to a metadata file that lacks ['auc_score']. *)
Definition files_without_auc : Files :=
  {| model_file := Some constant_predictor;
     metadata_file := Some {| auc_score := None |} |}.

Lemma load_model_witness :
  model_file files_without_auc <> None
  /\ metadata_file files_without_auc = Some {| auc_score := None |}
  /\ exists msg,
       load_model files_without_auc default_model_path
       = Failed (Builtin (ValueError msg)).
Proof.
  assert (H1 : model_file files_without_auc <> None) by discriminate.
  split; [exact H1 | split; [reflexivity|]].
  destruct (load_model_outcomes files_without_auc default_model_path)
    as (_ & _ & _ & Hfmt & _).
  exact (Hfmt _ H1 eq_refl eq_refl).
Defined.

End Loading.

(* ------------------------------------------------------------------ *)
(** ** The demonstration run *)

Module Demo.

Import Validator Windower.

Open Scope R_scope.

Lemma clamped_draw_bounds (lo hi v : R) :
  lo <= hi -> lo <= py_max lo (py_min hi v) <= hi.
Proof.
  intros Hlh. unfold py_max, py_min, Rltb.
  destruct (Rlt_dec v hi); destruct (Rlt_dec lo _); lra.
Qed.

Lemma floored_draw_bound (lo v : R) : lo <= py_max lo v.
Proof. unfold py_max, Rltb. destruct (Rlt_dec lo v); lra. Qed.

Lemma sample_hr_length (base : Z) (hr_draw : nat -> R) :
  length (sample_heart_rate_data base hr_draw) = 120%nat.
Proof. unfold sample_heart_rate_data. now rewrite length_map, length_seq. Qed.

Lemma sample_hr_in (base : Z) (hr_draw : nat -> R) (s : HeartRateSample) :
  In s (sample_heart_rate_data base hr_draw) ->
  (base <= startDate s <= base + timedelta_minutes 119)%Z
  /\ 50 <= value s <= 150.
Proof.
  unfold sample_heart_rate_data. intros Hs. apply in_map_iff in Hs.
  destruct Hs as (i & <- & Hi). apply in_seq in Hi.
  split.
  - cbn [startDate HeartRateColumns hr_startDate]. unfold timedelta_minutes. lia.
  - cbn [value HeartRateColumns hr_value]. apply clamped_draw_bounds. lra.
Qed.

Lemma sample_hrv_in (base : Z) (sdnn_draw rmssd_draw : nat -> R) (s : HrvSample) :
  In s (sample_hrv_data base sdnn_draw rmssd_draw) ->
  (base <= startDate s <= base + timedelta_minutes 115)%Z
  /\ 5 <= value s.
Proof.
  unfold sample_hrv_data. intros Hs. apply in_flat_map in Hs.
  destruct Hs as (i & Hi & Hs). apply in_seq in Hi.
  destruct Hs as [<- | [<- | []]].
  - split.
    + cbn [startDate HrvColumns hrv_startDate]. unfold timedelta_minutes. lia.
    + cbn [value HrvColumns hrv_value].
      pose proof (floored_draw_bound 10 (sdnn_draw i)). lra.
  - split.
    + cbn [startDate HrvColumns hrv_startDate]. unfold timedelta_minutes. lia.
    + cbn [value HrvColumns hrv_value]. apply floored_draw_bound.
Qed.

Lemma sample_hr_plausible (base : Z) (hr_draw : nat -> R) :
  Forall hr_plausible (sample_heart_rate_data base hr_draw).
Proof.
  apply Forall_forall. intros s Hs.
  destruct (sample_hr_in _ _ _ Hs) as [_ Hv]. unfold hr_plausible. lra.
Qed.

Section SortedInput.
Context {A : Type} `{Columns A}.

Lemma sort_values_of_sorted (l : list A) :
  Sorted (fun a b => (startDate a <= startDate b)%Z) l -> sort_values l = l.
Proof.
  induction 1 as [|x l Hl IH Hx]; [reflexivity|].
  cbn [sort_values fold_right]. fold (sort_values l). rewrite IH.
  destruct Hx as [|y l' Hxy]; [reflexivity|].
  cbn [insert_by_start]. now rewrite (proj2 (Z.leb_le _ _) Hxy).
Qed.
End SortedInput.

Lemma sorted_map_seq {A : Type} (rel : A -> A -> Prop) (f : nat -> A) (n a : nat) :
  (forall i, rel (f i) (f (S i))) -> Sorted rel (map f (seq a n)).
Proof.
  intros Hstep. revert a. induction n as [|n IH]; intros a; simpl.
  - constructor.
  - constructor; [apply IH|].
    destruct n; simpl; constructor. apply Hstep.
Qed.

Lemma sample_hr_sorted (base : Z) (hr_draw : nat -> R) :
  Sorted (fun a b => (startDate a <= startDate b)%Z)
         (sample_heart_rate_data base hr_draw).
Proof.
  unfold sample_heart_rate_data. apply sorted_map_seq. intros i.
  cbn [startDate HeartRateColumns hr_startDate]. unfold timedelta_minutes. lia.
Qed.

Lemma sample_hr_processed (base : Z) (hr_draw : nat -> R) :
  process_healthkit_heart_rate (sample_heart_rate_data base hr_draw)
  = Ok (sample_heart_rate_data base hr_draw).
Proof.
  rewrite Ingestion.process_hr_ok.
  - rewrite validate_hr_keeps_all by apply sample_hr_plausible.
    now rewrite sort_values_of_sorted by apply sample_hr_sorted.
  - intros Hnil. pose proof (sample_hr_length base hr_draw) as Hlen.
    rewrite Hnil in Hlen. discriminate.
Qed.

(** X18: whatever values are drawn, the demonstration data are
    well-formed for ingestion: the 120 heart-rate readings lie in
    [[50, 150]] and ingestion returns them unchanged; the 48 HRV readings
    are at least 5, so one is rejected exactly when it exceeds 200. *)
Theorem demo_data_pass_validation
    (base_time : Z) (hr_draw sdnn_draw rmssd_draw : nat -> R) :
  length (sample_heart_rate_data base_time hr_draw) = 120%nat
  /\ Forall (fun s => 50 <= value s <= 150)
            (sample_heart_rate_data base_time hr_draw)
  /\ process_healthkit_heart_rate (sample_heart_rate_data base_time hr_draw)
     = Ok (sample_heart_rate_data base_time hr_draw)
  /\ length (sample_hrv_data base_time sdnn_draw rmssd_draw) = 48%nat
  /\ Forall (fun s => 5 <= value s)
            (sample_hrv_data base_time sdnn_draw rmssd_draw)
  /\ (forall s,
      In s (sample_hrv_data base_time sdnn_draw rmssd_draw) ->
      (In s (_validate_hrv_data (sample_hrv_data base_time sdnn_draw rmssd_draw))
       <-> value s <= 200)).
Proof.
  split; [apply sample_hr_length|].
  split; [apply Forall_forall; intros s Hs; apply (sample_hr_in _ _ _ Hs)|].
  split; [apply sample_hr_processed|].
  split; [reflexivity|].
  split; [apply Forall_forall; intros s Hs; apply (sample_hrv_in _ _ _ _ Hs)|].
  intros s Hs. destruct (sample_hrv_in _ _ _ _ Hs) as [_ Hv].
  unfold _validate_hrv_data. rewrite filter_In, hrv_test_true.
  unfold hrv_plausible. split; [tauto|]. intros Hle. split; [exact Hs | lra].
Qed.

Lemma score_with_fifty_readings (n m : nat) (cv : quotient) :
  (50 <= n)%nat -> 0.4 <= Quality.score_of n m cv.
Proof.
  intros Hn. unfold Quality.score_of. Quality.split_counts;
    destruct (quotient_ltb cv 0.3); destruct (quotient_ltb cv 0.5);
    Quality.finish_score.
Qed.

Lemma sample_hrv_processed (base : Z) (sdnn_draw rmssd_draw : nat -> R) :
  exists hrv_df,
    process_healthkit_hrv_data (sample_hrv_data base sdnn_draw rmssd_draw) = Ok hrv_df
    /\ forall v, In v hrv_df ->
                 (base <= startDate v <= base + timedelta_minutes 115)%Z.
Proof.
  eexists. split.
  - apply Ingestion.process_hrv_ok. discriminate.
  - intros v Hv.
    apply (Permutation_in _ (sort_values_perm _)) in Hv.
    apply filter_In in Hv. apply (sample_hrv_in _ _ _ _ (proj1 Hv)).
Qed.

Lemma sample_latest_time (base : Z) (hr_draw : nat -> R) (hrv_df : list HrvSample) :
  (forall v, In v hrv_df ->
             (base <= startDate v <= base + timedelta_minutes 115)%Z) ->
  latest_time (sample_heart_rate_data base hr_draw) hrv_df
  = Some (base + timedelta_minutes 119)%Z.
Proof.
  intros Hhrv.
  destruct (Windows.latest_time_some (sample_heart_rate_data base hr_draw) hrv_df)
    as (t & Ht & Hin & Hall).
  { intros Hnil. pose proof (sample_hr_length base hr_draw) as Hlen.
    rewrite Hnil in Hlen. discriminate. }
  rewrite Ht. f_equal.
  assert (Hup : (t <= base + timedelta_minutes 119)%Z).
  { unfold all_starts in Hin. apply in_app_or in Hin.
    destruct Hin as [Hin | Hin]; apply in_map_iff in Hin;
      destruct Hin as (x & <- & Hx).
    - apply (sample_hr_in _ _ _ Hx).
    - pose proof (Hhrv x Hx). unfold timedelta_minutes in *. lia. }
  assert (Hlo : (base + timedelta_minutes 119 <= t)%Z).
  { destruct (Windows.starts_bounded _ _ _ Hall) as [Hhr _].
    apply (Hhr {| hr_startDate := (base + timedelta_minutes (Z.of_nat 119))%Z;
                  hr_endDate := (base + timedelta_minutes (Z.of_nat 119)
                                 + timedelta_minutes 1)%Z;
                  hr_value := py_max 50 (py_min 150 (hr_draw 119%nat));
                  hr_unit := "count/min" |}).
    unfold sample_heart_rate_data. apply in_map_iff. exists 119%nat.
    split; [reflexivity|]. apply in_seq. lia. }
  lia.
Qed.

(** Line 171 in the demonstration run: the window of two hours starts
    one minute before [base_time]. *)
Lemma sample_start_time
    (base : Z) (hr_draw : nat -> R) (hrv_df : list HrvSample) :
  (forall v, In v hrv_df ->
             (base <= startDate v <= base + timedelta_minutes 115)%Z) ->
  representable (base - timedelta_minutes 1) = true ->
  start_time (sample_heart_rate_data base hr_draw) hrv_df 2
  = Ok (Some (base - timedelta_minutes 1)%Z).
Proof.
  intros Hhrv Hrep.
  unfold representable in Hrep. apply andb_true_iff in Hrep.
  rewrite !Z.leb_le in Hrep.
  rewrite (Extraction.start_time_of_timestamp _ _ 2
             (base + timedelta_minutes 119)%Z
             (sample_latest_time base hr_draw hrv_df Hhrv)).
  - do 2 f_equal. unfold timedelta_minutes. lia.
  - unfold timestamp_min, timestamp_max. lia.
  - unfold timedelta_minutes in *. lia.
Qed.

Lemma sample_start_time_refused
    (base : Z) (hr_draw : nat -> R) (hrv_df : list HrvSample) :
  (forall v, In v hrv_df ->
             (base <= startDate v <= base + timedelta_minutes 115)%Z) ->
  representable (base - timedelta_minutes 1) = false ->
  start_time (sample_heart_rate_data base hr_draw) hrv_df 2 = Raise OutOfBounds.
Proof.
  intros Hhrv Hrep.
  unfold start_time. rewrite (sample_latest_time base hr_draw hrv_df Hhrv).
  change (timedelta_hours 2) with (Ok (A := Z) 7200000000000%Z).
  unfold ts_sub.
  change (86399999913600000000000 <? 7200000000000)%Z with false.
  change (representable (- 7200000000000)) with true.
  replace (base + timedelta_minutes 119 - 7200000000000)%Z
    with (base - timedelta_minutes 1)%Z by (unfold timedelta_minutes; lia).
  rewrite Hrep. reflexivity.
Qed.

Lemma sample_window_is_everything
    (base : Z) (hr_draw : nat -> R) (hrv_df : list HrvSample) :
  (forall v, In v hrv_df ->
             (base <= startDate v <= base + timedelta_minutes 115)%Z) ->
  representable (base - timedelta_minutes 1) = true ->
  hr_window (sample_heart_rate_data base hr_draw) hrv_df 2
  = sample_heart_rate_data base hr_draw.
Proof.
  intros Hhrv Hrep.
  rewrite (proj1 (Extraction.windows_after_start _ _ _ _
                    (sample_start_time base hr_draw hrv_df Hhrv Hrep))).
  unfold window.
  rewrite (sample_latest_time base hr_draw hrv_df Hhrv).
  apply filter_all, Forall_forall. intros s Hs.
  destruct (sample_hr_in _ _ _ Hs) as [Hstart _].
  cbn [ts_geb ts_leb].
  rewrite andb_true_iff, !Z.leb_le.
  unfold timedelta_minutes in *. lia.
Qed.


(** A model file without a metadata file. *)
Definition files_model_only : Files :=
  {| model_file := Some constant_predictor; metadata_file := None |}.


End Demo.

(* ------------------------------------------------------------------ *)
(** ** Extreme scores and the consistency of the report *)

Module Consistency.

Import Validator Reporter Reporting.

Open Scope R_scope.

Lemma quotient_ltb_weaken (cv : quotient) :
  quotient_ltb cv 0.3 = true -> quotient_ltb cv 0.5 = true.
Proof.
  destruct cv; simpl; try tauto.
  rewrite !Rltb_true. lra.
Qed.

Ltac settle_extreme Hyp :=
  first
    [ exfalso; lra
    | lra
    | destruct Hyp as (? & ? & ?); lia
    | destruct Hyp as (? & ? & ?); discriminate
    | destruct Hyp as (? & ? & [? | ?]); first [lia | discriminate]
    | repeat split; first [lia | reflexivity | left; lia | right; reflexivity] ].

(** X20: the data-quality score is 1 exactly when the window holds at
    least 50 heart-rate samples and 5 HRV samples and the coefficient of
    variation is below 0.3; it is 0 exactly when it holds fewer than 20
    heart-rate samples, no HRV sample, and either fewer than two
    heart-rate samples or a coefficient of variation not below 0.5. *)
Theorem extreme_quality_scores
    (hr_df : list HeartRateSample) (hrv_df : list HrvSample) :
  (_calculate_data_quality_score hr_df hrv_df = 1 <->
   (50 <= length hr_df)%nat /\ (5 <= length hrv_df)%nat
   /\ quotient_ltb (Quality.coefficient_of_variation hr_df) 0.3 = true)
  /\ (_calculate_data_quality_score hr_df hrv_df = 0 <->
      (length hr_df < 20)%nat /\ length hrv_df = 0%nat
      /\ ((length hr_df <= 1)%nat
          \/ quotient_ltb (Quality.coefficient_of_variation hr_df) 0.5 = false)).
Proof.
  rewrite Quality.score_factors.
  pose proof (quotient_ltb_weaken (Quality.coefficient_of_variation hr_df)) as Hw.
  unfold Quality.score_of.
  destruct (quotient_ltb (Quality.coefficient_of_variation hr_df) 0.3);
    destruct (quotient_ltb (Quality.coefficient_of_variation hr_df) 0.5);
    try (specialize (Hw eq_refl); discriminate Hw);
    Quality.split_counts;
    unfold py_min, Rltb;
    repeat match goal with
           | |- context [Rlt_dec ?a ?b] => destruct (Rlt_dec a b)
           end;
    (split; split; intros Hyp; settle_extreme Hyp).
Qed.

(** Five HRV readings, one every five minutes. *)
Definition hrv_five : list HrvSample :=
  map (fun i => mkHRV (Z.of_nat i * 5 * minute) ((Z.of_nat i + 1) * 5 * minute)
                      45 "ms" "RMSSD")
      (seq 0 5).

Lemma extreme_quality_witness :
  (50 <= length (steady 60 68))%nat
  /\ (5 <= length hrv_five)%nat
  /\ quotient_ltb (Quality.coefficient_of_variation (steady 60 68)) 0.3 = true
  /\ _calculate_data_quality_score (steady 60 68) hrv_five = 1.
Proof.
  assert (H1 : (50 <= length (steady 60 68))%nat)
    by (rewrite Quality.steady_length; lia).
  assert (H2 : (5 <= length hrv_five)%nat) by (simpl; lia).
  assert (H3 : quotient_ltb (Quality.coefficient_of_variation (steady 60 68)) 0.3
               = true).
  { rewrite Quality.steady_cv by (lia || lra). apply Rltb_true. lra. }
  split; [exact H1 | split; [exact H2 | split; [exact H3|]]].
  exact (proj2 (proj1 (extreme_quality_scores (steady 60 68) hrv_five))
               (conj H1 (conj H2 H3))).
Defined.


Lemma ecg_request_iff (result : ResultRow) :
  In ecg_request (_generate_recommendations result) <->
  rhythm_classification result = "Irregular" /\ confidence result < 0.7.
Proof.
  rewrite recommendations_shape.
  unfold follow_up_advice, more_data_request, quality_tips, wellness_reminders,
    ecg_request.
  rewrite <- (Rltb_true (confidence result) 0.7).
  rewrite <- (String.eqb_eq (rhythm_classification result) "Irregular").
  destruct (String.eqb (rhythm_classification result) "Irregular");
    destruct (Rltb (confidence result) 0.7);
    destruct (Rltb (data_quality_score (features result)) 0.5);
    decide_membership.
Qed.

(** X21: the texts of a report agree with its own figures: the fit tip
    is listed exactly when the reported quality score is below 0.5, the
    ECG request exactly when the reported label is ["Irregular"] and the
    reported confidence is below 0.7, and the interpretation is a
    high-confidence template exactly when the reported confidence
    exceeds 0.8, with the reported mean rate embedded. *)
Theorem report_texts_agree_with_its_figures
    (results_df : list ResultRow) (report : Report) :
  generate_health_report results_df = Ok report ->
  (In fit_tip (recommendations report) <->
   quality_score (data_quality report) < 0.5)
  /\ (In ecg_request (recommendations report) <->
      report_rhythm_classification report = "Irregular"
      /\ confidence_score report < 0.7)
  /\ (0.8 < confidence_score report ->
      In (clinical_interpretation report)
         [ high_confidence_normal
             (format_0f (metrics_mean_heart_rate (heart_rate_metrics report)));
           high_confidence_irregular
             (format_0f (metrics_mean_heart_rate (heart_rate_metrics report))) ])
  /\ (confidence_score report <= 0.8 ->
      In (clinical_interpretation report)
         [ likely_normal
             (format_0f (metrics_mean_heart_rate (heart_rate_metrics report)));
           possible_irregular
             (format_0f (metrics_mean_heart_rate (heart_rate_metrics report))) ]).
Proof.
  unfold generate_health_report.
  destruct (iloc_last results_df) as [r|e]; [|discriminate].
  intros [= <-].
  cbn [recommendations data_quality quality_score report_rhythm_classification
       confidence_score clinical_interpretation heart_rate_metrics
       metrics_mean_heart_rate].
  split; [apply fit_tip_iff|]. split; [apply ecg_request_iff|].
  unfold _generate_clinical_interpretation,
    high_confidence_normal, high_confidence_irregular,
    likely_normal, possible_irregular.
  split; intros Hc.
  - apply Rltb_true in Hc. rewrite Hc.
    destruct (String.eqb (rhythm_classification r) "Normal"); simpl; tauto.
  - apply Rltb_false in Hc. rewrite Hc.
    destruct (String.eqb (rhythm_classification r) "Normal"); simpl; tauto.
Qed.

Lemma report_texts_witness :
  exists report,
    generate_health_report [doubtful_irregular] = Ok report
    /\ quality_score (data_quality report) < 0.5
    /\ In fit_tip (recommendations report).
Proof.
  eexists. split; [reflexivity|].
  assert (Hq : data_quality_score (features doubtful_irregular) < 0.5)
    by (simpl; lra).
  split; [exact Hq|].
  exact (proj2 (proj1 (report_texts_agree_with_its_figures
                         [doubtful_irregular] _ eq_refl)) Hq).
Defined.

End Consistency.
